(** * graph-cli: protocol registry and manifest cross-validation

    A shallow embedding of [src/protocols/index.js]: the [Protocol] class
    (registry of protocol names, capability predicates, factories) and the
    [Subgraph] class (the validators [validateAbis],
    [validateContractAddresses], [validateEvents] and the part of [load]
    that combines them).

    The manifest is the tree that [immutable.fromJS] builds from the parsed
    YAML document.  JavaScript exceptions are explicit: every operation that
    can throw returns a [result]. *)

From Stdlib Require Import List String Ascii Bool Arith ZArith Lia.
From Stdlib Require Import Sorting.Sorted Sorting.Permutation.
From Stdlib Require Import Decimal DecimalString.
Import ListNotations.
Open Scope string_scope.
Open Scope list_scope.

Set Implicit Arguments.
Set Warnings "-register-all".

(** ** Values *)

(** A node of the manifest tree.  [VUndef] is JavaScript's [undefined]
    (what [get] and [getIn] return for a missing entry).  Numbers are
    restricted to integers and strings to sequences of 8-bit code units.
    A [VMap] lists the entries of an Immutable [Map] in the map's
    iteration order; keys are looked up by name. *)
Inductive value : Type :=
| VUndef
| VNull
| VBool (b : bool)
| VNum (n : Z)
| VStr (s : string)
| VList (l : list value)
| VMap (m : list (string * value)).

(** A path segment: a field name or a list index. *)
Inductive segment : Type :=
| Key (s : string)
| Index (n : nat).

(** The errors the validators return: [immutable.fromJS({path, message})]. *)
Record ValidationError : Type := mkError {
  path : list segment;
  message : string
}.

(** ** Exceptions *)

(** [TypeError receiver method]: a method was called on a value that does
    not have it ([undefined.map(...)], ["abc".get(...)]).  [Error msg] is
    [new Error(msg)]. *)
Inductive exn : Type :=
| TypeError (receiver : value) (method : string)
| Error (msg : string).

Inductive result (A : Type) : Type :=
| Ok (a : A)
| Throw (e : exn).

Arguments Ok {A} a.
Arguments Throw {A} e.

Definition bind {A B : Type} (r : result A) (k : A -> result B) : result B :=
  match r with
  | Ok a => k a
  | Throw e => Throw e
  end.

Notation "x <- r ;; k" := (bind r (fun x => k))
  (at level 61, r at next level, right associativity).

(** [try { body } catch (e) { handler e }] *)
Definition tryCatch {A : Type} (body : result A) (handler : exn -> result A)
  : result A :=
  match body with
  | Ok a => Ok a
  | Throw e => handler e
  end.

(** ** Monadic list traversals (callbacks may throw) *)

Fixpoint foldM {A B : Type} (f : A -> B -> result A) (acc : A) (l : list B)
  : result A :=
  match l with
  | [] => Ok acc
  | x :: l' => acc' <- f acc x ;; foldM f acc' l'
  end.

Fixpoint mapM {A B : Type} (f : A -> result B) (l : list A) : result (list B) :=
  match l with
  | [] => Ok []
  | x :: l' => y <- f x ;; ys <- mapM f l' ;; Ok (y :: ys)
  end.

Fixpoint filterM {A : Type} (p : A -> result bool) (l : list A)
  : result (list A) :=
  match l with
  | [] => Ok []
  | x :: l' =>
      b <- p x ;; r <- filterM p l' ;; Ok (if b then x :: r else r)
  end.

Fixpoint findM {A : Type} (p : A -> result bool) (l : list A)
  : result (option A) :=
  match l with
  | [] => Ok None
  | x :: l' => b <- p x ;; if b then Ok (Some x) else findM p l'
  end.

(** ** Equality of JavaScript values *)

Fixpoint lookup {A : Type} (k : string) (m : list (string * A)) : option A :=
  match m with
  | [] => None
  | (k', v) :: m' => if String.eqb k k' then Some v else lookup k m'
  end.

(** [Immutable.is(a, b)]: value equality.  Scalars are compared by value, Lists
    element by element, Maps entry by entry whatever their order. *)
Fixpoint immutableIs (a b : value) {struct a} : bool :=
  match a, b with
  | VUndef, VUndef => true
  | VNull, VNull => true
  | VBool x, VBool y => Bool.eqb x y
  | VNum x, VNum y => Z.eqb x y
  | VStr x, VStr y => String.eqb x y
  | VList la, VList lb =>
      (fix all2 (xs ys : list value) {struct xs} : bool :=
         match xs, ys with
         | [], [] => true
         | x :: xs', y :: ys' => immutableIs x y && all2 xs' ys'
         | _, _ => false
         end) la lb
  | VMap ma, VMap mb =>
      Nat.eqb (List.length ma) (List.length mb) &&
      (fix every (es : list (string * value)) {struct es} : bool :=
         match es with
         | [] => true
         | (k, v) :: es' =>
             match lookup k mb with
             | Some w => immutableIs v w
             | None => false
             end && every es'
         end) ma
  | _, _ => false
  end.

(** [a === b].  Two collections are [===] only when they are the same
    object; the operands compared by the validators are distinct nodes of
    the manifest tree, so collections compare unequal. *)
Definition strictEq (a b : value) : bool :=
  match a, b with
  | VUndef, VUndef => true
  | VNull, VNull => true
  | VBool x, VBool y => Bool.eqb x y
  | VNum x, VNum y => Z.eqb x y
  | VStr x, VStr y => String.eqb x y
  | _, _ => false
  end.

(** ** Strings *)

Definition nl : string := String "010"%char EmptyString.

(** [list.join(sep)] on a list of strings. *)
Fixpoint join (sep : string) (l : list string) : string :=
  match l with
  | [] => EmptyString
  | [x] => x
  | x :: l' => (x ++ sep ++ join sep l')%string
  end.

(** [sort()] with Immutable's default comparator
    [a > b ? 1 : a < b ? -1 : 0] on strings: ascending order of code
    units. *)
Fixpoint insertSorted (x : string) (l : list string) : list string :=
  match l with
  | [] => [x]
  | y :: l' => if (x <? y)%string then x :: l else y :: insertSorted x l'
  end.

Fixpoint sortStrings (l : list string) : list string :=
  match l with
  | [] => []
  | x :: l' => insertSorted x (sortStrings l')
  end.

(** ** The JavaScript runtime

    What the validators ask of the language runtime on arbitrary values:
    string coercion (template literals, [RegExp.test]), the wording of a
    [TypeError], and [sort()] on a list of arbitrary values.  Their
    behaviour on strings (and on [undefined]) is fixed by the laws; on
    other values it is left to the runtime. *)
Class JsRuntime : Type := {
  toStr : value -> string;
  toStr_VStr : forall s, toStr (VStr s) = s;
  toStr_VUndef : toStr VUndef = "undefined";
  typeErrorMessage : value -> string -> string;
  sortValues : list value -> list value;
  sortValues_strings :
    forall l, sortValues (List.map VStr l) = List.map VStr (sortStrings l)
}.

(** [e.message] *)
Definition exnMessage `{JsRuntime} (e : exn) : string :=
  match e with
  | TypeError v m => typeErrorMessage v m
  | Error msg => msg
  end.

(** ** Immutable collections *)

(** [collection.get(key)] for the alphabetic keys the validators use: the
    entry of a Map, [undefined] when it is missing and on a List (no such
    index); a [TypeError] on anything that is not a collection. *)
Definition get (v : value) (key : string) : result value :=
  match v with
  | VMap m => Ok (match lookup key m with Some x => x | None => VUndef end)
  | VList _ => Ok VUndef
  | _ => Throw (TypeError v "get")
  end.

(** [collection.getIn(keyPath)]: stops with [undefined] as soon as the
    current node is not a collection or lacks the key; never throws. *)
Fixpoint getInFrom (nested : value) (keyPath : list string) : value :=
  match keyPath with
  | [] => nested
  | key :: keyPath' =>
      match nested with
      | VMap m =>
          match lookup key m with
          | Some x => getInFrom x keyPath'
          | None => VUndef
          end
      | _ => VUndef
      end
  end.

Definition getIn (v : value) (keyPath : list string) : value :=
  getInFrom v keyPath.

Fixpoint indexedFrom {A : Type} (i : nat) (l : list A) : list (segment * A) :=
  match l with
  | [] => []
  | x :: l' => (Index i, x) :: indexedFrom (S i) l'
  end.

(** The entries a collection iterates over, with the key each callback
    receives: the index in a List, the key in a Map. *)
Definition entries (v : value) (method : string)
  : result (list (segment * value)) :=
  match v with
  | VList l => Ok (indexedFrom 0 l)
  | VMap m => Ok (List.map (fun kv => (Key (fst kv), snd kv)) m)
  | _ => Throw (TypeError v method)
  end.

Definition values (v : value) : list value :=
  match v with
  | VList l => l
  | VMap m => List.map snd m
  | _ => []
  end.

(** [collection.filter(predicate)]: a List is re-indexed, a Map keeps its
    keys. *)
Definition filter (predicate : value -> result bool) (v : value)
  : result value :=
  match v with
  | VList l => l' <- filterM predicate l ;; Ok (VList l')
  | VMap m => m' <- filterM (fun kv => predicate (snd kv)) m ;; Ok (VMap m')
  | _ => Throw (TypeError v "filter")
  end.

(** [collection.map(mapper)] *)
Definition map (mapper : value -> result value) (v : value) : result value :=
  match v with
  | VList l => l' <- mapM mapper l ;; Ok (VList l')
  | VMap m =>
      m' <- mapM (fun kv => x <- mapper (snd kv) ;; Ok (fst kv, x)) m ;;
      Ok (VMap m')
  | _ => Throw (TypeError v "map")
  end.

(** [collection.reduce(reducer, initial)]; the reducer receives the
    accumulator, the value and its key. *)
Definition reduce {A : Type} (reducer : A -> value -> segment -> result A)
  (initial : A) (v : value) : result A :=
  es <- entries v "reduce" ;;
  foldM (fun acc kv => reducer acc (snd kv) (fst kv)) initial es.

(** [collection.find(predicate)]: the first value the predicate accepts,
    [undefined] when there is none. *)
Definition find (predicate : value -> result bool) (v : value) : result value :=
  match v with
  | VList _ | VMap _ =>
      r <- findM predicate (values v) ;;
      Ok (match r with Some x => x | None => VUndef end)
  | _ => Throw (TypeError v "find")
  end.

(** [collection.includes(x)] *)
Definition includes (l : list value) (x : value) : bool :=
  existsb (fun v => immutableIs v x) l.

(** ** The address pattern *)

(** One character of the class [[0-9a-fA-F]]. *)
Definition isHexDigit (c : ascii) : bool :=
  let n := nat_of_ascii c in
  (((48 <=? n) && (n <=? 57)) || ((97 <=? n) && (n <=? 102))
   || ((65 <=? n) && (n <=? 70)))%nat.

Fixpoint allHex (s : string) : bool :=
  match s with
  | EmptyString => true
  | String c s' => isHexDigit c && allHex s'
  end.

(** [[0-9a-fA-F]{40}$] from the current position. *)
Definition hex40 (s : string) : bool :=
  Nat.eqb (String.length s) 40 && allHex s.

(** [/^(0x)?[0-9a-fA-F]{40}$/.test(s)]: the optional group is tried first,
    then skipped. *)
Definition addressPattern (s : string) : bool :=
  match s with
  | String c1 (String c2 rest) =>
      if ((c1 =? "0") && (c2 =? "x"))%char then hex40 rest || hex40 s
      else hex40 s
  | _ => hex40 s
  end.

(** * The [Subgraph] validators *)

(** A loaded ABI, as far as the validators read it: [abi.name] and
    [abi.eventSignatures()]. *)
Record ABI : Type := mkABI {
  abiName : string;
  eventSignatures : list string
}.

Section Subgraph.

Context {rt : JsRuntime}.

(** The collaborators: the file resolver handed to the validators and
    [ABI.load(name, file)].  Both may throw. *)
Variable resolveFile : value -> result value.
Variable ABI_load : value -> value -> result ABI.

(** [dataSource => dataSource.get('kind') === 'ethereum/contract'] *)
Definition isEthereumContract (dataSource : value) : result bool :=
  kind <- get dataSource "kind" ;;
  Ok (strictEq kind (VStr "ethereum/contract")).

(** [manifest.get('dataSources').filter(...)] *)
Definition ethereumContracts (manifest : value) : result value :=
  dataSources <- get manifest "dataSources" ;;
  filter isEthereumContract dataSources.

Definition abiReferenceMessage (abiName : value) (abiNames : list value)
  : string :=
  ("ABI name '" ++ toStr abiName ++ "' not found in mapping > abis." ++ nl
   ++ "  Available ABIs:" ++ nl
   ++ "  "
   ++ join (nl ++ "  ")
        (List.map (fun name => "- " ++ toStr name) (sortValues abiNames)))%string.

(** The reducer of the first pass of [validateAbis]. *)
Definition abiReferenceStep (errors : list ValidationError)
  (dataSource : value) (dataSourceIndex : segment)
  : result (list ValidationError) :=
  let abiName := getIn dataSource ["source"; "abi"] in
  abiNames <- map (fun abi => get abi "name")
                  (getIn dataSource ["mapping"; "abis"]) ;;
  if includes (values abiNames) abiName then Ok errors
  else Ok (errors ++
           [ {| path := [Key "dataSources"; dataSourceIndex;
                         Key "source"; Key "abi"];
                message := abiReferenceMessage abiName (values abiNames) |} ]).

Definition abiReferenceErrors (manifest : value)
  : result (list ValidationError) :=
  eligible <- ethereumContracts manifest ;;
  reduce abiReferenceStep [] eligible.

(** The inner reducer of the second pass: one declared ABI. *)
Definition abiFileStep (dataSourceIndex : segment)
  (errors : list ValidationError) (abi : value) (abiIndex : segment)
  : result (list ValidationError) :=
  tryCatch
    (name <- get abi "name" ;;
     file <- get abi "file" ;;
     resolved <- resolveFile file ;;
     _ <- ABI_load name resolved ;;
     Ok errors)
    (fun e =>
       Ok (errors ++
           [ {| path := [Key "dataSources"; dataSourceIndex; Key "mapping";
                         Key "abis"; abiIndex; Key "file"];
                message := exnMessage e |} ])).

(** The outer reducer of the second pass: the declared ABIs of one data
    source. *)
Definition abiFilesStep (errors : list ValidationError)
  (dataSource : value) (dataSourceIndex : segment)
  : result (list ValidationError) :=
  reduce (abiFileStep dataSourceIndex) errors
         (getIn dataSource ["mapping"; "abis"]).

Definition abiFileErrors (manifest : value) : result (list ValidationError) :=
  eligible <- ethereumContracts manifest ;;
  reduce abiFilesStep [] eligible.

Definition validateAbis (manifest : value) : result (list ValidationError) :=
  abiReferenceErrors <- abiReferenceErrors manifest ;;
  abiFileErrors <- abiFileErrors manifest ;;
  Ok (abiReferenceErrors ++ abiFileErrors).

Definition addressMessage (address : value) : string :=
  ("Contract address is invalid: " ++ toStr address ++ nl
   ++ "  Must be 40 hexadecimal characters, with an optional '0x' prefix.")%string.

Definition addressStep (errors : list ValidationError)
  (dataSource : value) (dataSourceIndex : segment)
  : result (list ValidationError) :=
  let path := [Key "dataSources"; dataSourceIndex; Key "source"; Key "address"] in
  let address := getIn dataSource ["source"; "address"] in
  if addressPattern (toStr address) then Ok errors
  else Ok (errors ++ [ {| path := path; message := addressMessage address |} ]).

Definition validateContractAddresses (manifest : value)
  : result (list ValidationError) :=
  eligible <- ethereumContracts manifest ;;
  reduce addressStep [] eligible.

Definition eventMessage (manifestEvent : value) (abi : ABI) : string :=
  ("Event with signature '" ++ toStr manifestEvent ++ "' not present in ABI '"
   ++ abiName abi ++ "'." ++ nl
   ++ "  Available events:" ++ nl
   ++ "  "
   ++ join (nl ++ "  ")
        (List.map (fun event => "- " ++ event)
                  (sortStrings (eventSignatures abi))))%string.

(** [abiEvents.includes(manifestEvent)] *)
Definition includesEvent (abiEvents : list string) (manifestEvent : value)
  : bool :=
  includes (List.map VStr abiEvents) manifestEvent.

(** The reducer over the event signatures of one data source. *)
Definition eventStep (path : list segment) (abi : ABI)
  (errors : list ValidationError) (manifestEvent : value) (index : segment)
  : result (list ValidationError) :=
  if includesEvent (eventSignatures abi) manifestEvent then Ok errors
  else Ok (errors ++
           [ {| path := path ++ [index];
                message := eventMessage manifestEvent abi |} ]).

(** The body of the [try] block of [validateEvents]. *)
Definition eventsTryBlock (errors : list ValidationError)
  (dataSource : value) (path : list segment)
  : result (list ValidationError) :=
  let abiName := getIn dataSource ["source"; "abi"] in
  abiEntry <- find (fun abi => name <- get abi "name" ;;
                               Ok (strictEq name abiName))
                   (getIn dataSource ["mapping"; "abis"]) ;;
  name <- get abiEntry "name" ;;
  file <- get abiEntry "file" ;;
  resolved <- resolveFile file ;;
  abi <- ABI_load name resolved ;;
  manifestEvents <- map (fun handler => get handler "event")
                        (getIn dataSource ["mapping"; "eventHandlers"]) ;;
  reduce (eventStep path abi) errors manifestEvents.

Definition eventsStep (errors : list ValidationError)
  (dataSource : value) (dataSourceIndex : segment)
  : result (list ValidationError) :=
  let path := [Key "dataSources"; dataSourceIndex; Key "eventHandlers"] in
  tryCatch (eventsTryBlock errors dataSource path) (fun _ => Ok errors).

Definition validateEvents (manifest : value) : result (list ValidationError) :=
  eligible <- ethereumContracts manifest ;;
  reduce eventsStep [] eligible.

(** The "other validations" of [load]: the three results spread into
    one list, in this order. *)
Definition crossValidate (manifest : value) : result (list ValidationError) :=
  abis <- validateAbis manifest ;;
  addresses <- validateContractAddresses manifest ;;
  events <- validateEvents manifest ;;
  Ok (abis ++ addresses ++ events).

End Subgraph.

(** * The [Protocol] class *)

Module Protocol.

(** [Protocol.availableProtocols()]: each protocol name with the data
    source kinds that select it. *)
Definition availableProtocols : list (string * list string) :=
  [ ("ethereum", ["ethereum"; "ethereum/contract"]);
    ("near", ["near"]);
    ("cosmos", ["cosmos"]) ].

(** [map.findKey(predicate)]; [None] is [undefined]. *)
Definition findKey {A : Type} (predicate : A -> bool)
  (m : list (string * A)) : option string :=
  match List.find (fun entry => predicate (snd entry)) m with
  | Some entry => Some (fst entry)
  | None => None
  end.

Definition normalizeName (name : value) : option string :=
  findKey (fun possibleNames => includes (List.map VStr possibleNames) name)
          availableProtocols.

(** An instance: its only field is [this.name] ([None] when the
    constructor's argument is no known kind). *)
Record t : Type := mk { name : option string }.

(** [new Protocol(name)] *)
Definition new (name : value) : t := {| name := normalizeName name |}.

(** [object.kind] on a plain JavaScript value: reading a property of
    [undefined] or [null] is a [TypeError]; a value without the property
    gives [undefined]. *)
Definition kindOf (v : value) : result value :=
  match v with
  | VUndef | VNull => Throw (TypeError v "kind")
  | VMap m => Ok (match lookup "kind" m with Some x => x | None => VUndef end)
  | _ => Ok VUndef
  end.

(** [array[0]]; out of range gives [undefined]. *)
Definition first (array : list value) : value :=
  match array with
  | [] => VUndef
  | x :: _ => x
  end.

Definition fromDataSources (dataSourcesAndTemplates : list value) : result t :=
  firstDataSourceKind <- kindOf (first dataSourcesAndTemplates) ;;
  Ok (new firstDataSourceKind).

(** [switch (this.name)] over the three case labels; [default] is taken
    when no label matches (also when there is no default clause and the
    method falls off its end). *)
Definition switch {A : Type} (this : t) (ethereum near cosmos default : A) : A :=
  match name this with
  | Some n =>
      if (n =? "ethereum")%string then ethereum
      else if (n =? "near")%string then near
      else if (n =? "cosmos")%string then cosmos
      else default
  | None => default
  end.

Definition displayName (this : t) : option string :=
  switch this (Some "Ethereum") (Some "NEAR") (Some "Cosmos") None.

Definition isValidKindName (this : t) (kind : value) : bool :=
  let possibleNames :=
    match name this with
    | Some n => match lookup n availableProtocols with
                | Some names => names
                | None => []
                end
    | None => []
    end in
  includes (List.map VStr possibleNames) kind.

(** The capability predicates; [None] is the [undefined] a method
    returns when it falls off the end of its [switch]. *)
Definition hasABIs (this : t) : option bool :=
  switch this (Some true) (Some false) (Some false) None.

Definition hasContract (this : t) : option bool :=
  switch this (Some true) (Some true) (Some false) None.

Definition hasEvents (this : t) : option bool :=
  switch this (Some true) (Some false) (Some false) None.

Definition hasTemplates (this : t) : option bool :=
  switch this (Some true) (Some false) (Some false) None.

(** [!x] on the result of a capability predicate. *)
Definition not (x : option bool) : bool :=
  match x with
  | Some true => false
  | _ => true
  end.

(** The per-protocol modules and classes the factories hand out. *)
Inductive collaborator : Type :=
| EthereumTypeGenerator (options : value)
| EthereumTemplateCodeGen (template : value)
| EthereumABI
| EthereumSubgraph (options : value) (protocol : t)
| NearSubgraph (options : value) (protocol : t)
| CosmosSubgraph (options : value) (protocol : t)
| EthereumContract
| NearContract
| EthereumManifestScaffold
| NearManifestScaffold
| CosmosManifestScaffold
| EthereumMappingScaffold
| NearMappingScaffold
| CosmosMappingScaffold.

(** What a factory returns. *)
Inductive returned : Type :=
| Object (c : collaborator)
| Null
| Undefined.

(** [`${this.name}`] *)
Definition nameText (this : t) : string :=
  match name this with
  | Some n => n
  | None => "undefined"
  end.

Definition getTypeGenerator (this : t) (options : value) : result returned :=
  switch this (Ok (Object (EthereumTypeGenerator options)))
              (Ok Null) (Ok Null) (Ok Undefined).

Definition getTemplateCodeGen (this : t) (template : value) : result returned :=
  if not (hasTemplates this) then
    Throw (Error ("Template data sources with kind '" ++ nameText this
                  ++ "' are not supported yet")%string)
  else
    let unknown :=
      Throw (Error ("Template data sources with kind '" ++ nameText this
                    ++ "' is unknown")%string) in
    switch this (Ok (Object (EthereumTemplateCodeGen template)))
                unknown unknown unknown.

Definition getABI (this : t) : result returned :=
  switch this (Ok (Object EthereumABI)) (Ok Null) (Ok Null) (Ok Undefined).

Definition getSubgraph (this : t) (options : value) : result returned :=
  switch this (Ok (Object (EthereumSubgraph options this)))
              (Ok (Object (NearSubgraph options this)))
              (Ok (Object (CosmosSubgraph options this)))
              (Throw (Error ("Data sources with kind '" ++ nameText this
                             ++ "' are not supported yet")%string)).

Definition getContract (this : t) : result returned :=
  switch this (Ok (Object EthereumContract)) (Ok (Object NearContract))
              (Ok Null) (Ok Undefined).

Definition getManifestScaffold (this : t) : result returned :=
  switch this (Ok (Object EthereumManifestScaffold))
              (Ok (Object NearManifestScaffold))
              (Ok (Object CosmosManifestScaffold)) (Ok Undefined).

Definition getMappingScaffold (this : t) : result returned :=
  switch this (Ok (Object EthereumMappingScaffold))
              (Ok (Object NearMappingScaffold))
              (Ok (Object CosmosMappingScaffold)) (Ok Undefined).

End Protocol.

(** [Protocol.availableNetworks()]: each protocol name with the networks
    it runs on. *)
Definition availableNetworks : list (string * list string) :=
  [ ("ethereum",
     [ "mainnet"; "kovan"; "rinkeby"; "ropsten"; "goerli"; "poa-core";
       "poa-sokol"; "xdai"; "matic"; "mumbai"; "fantom"; "bsc"; "chapel";
       "clover"; "avalanche"; "fuji"; "celo"; "celo-alfajores"; "fuse";
       "mbase"; "arbitrum-one"; "arbitrum-rinkeby"; "optimism";
       "optimism-kovan"; "aurora"; "aurora-testnet" ]);
    ("near", ["near-mainnet"; "near-testnet"]);
    ("cosmos", ["cosmoshub-4"]) ].

(** * The rest of the [Subgraph] class: reporting and loading *)

(** A path segment as [join] prints it: a key as it is, an index in
    decimal. *)
Definition segmentText (s : segment) : string :=
  match s with
  | Key k => k
  | Index n => NilEmpty.string_of_uint (Nat.to_uint n)
  end.

(** [path.size === 0 ? '/' : path.join(' > ')] *)
Definition pathText (p : list segment) : string :=
  match p with
  | [] => "/"
  | _ => join " > " (List.map segmentText p)
  end.

(** The reducer of [throwCombinedError]: the message so far, a blank
    line, the path and the message of the error. *)
Definition combinedStep (msg : string) (e : ValidationError) : string :=
  (msg ++ nl ++ nl ++ "  Path: " ++ pathText (path e) ++ nl
   ++ "  " ++ message e)%string.

Definition combinedMessage (filename : string) (errors : list ValidationError)
  : string :=
  fold_left combinedStep errors ("Error in " ++ filename ++ ":")%string.

Definition throwCombinedError {A : Type} (filename : string)
  (errors : list ValidationError) : result A :=
  Throw (Error (combinedMessage filename errors)).

(** [manifest.getIn(keyPath)] on a value that may not be a collection. *)
Definition getInOf (v : value) (keyPath : list string) : result value :=
  match v with
  | VList _ | VMap _ => Ok (getIn v keyPath)
  | _ => Throw (TypeError v "getIn")
  end.

Section Load.

Context {rt : JsRuntime}.

(** The collaborators of [load]:
    [yaml.safeLoad(fs.readFileSync(filename, 'utf-8'))],
    [path.resolve(path.dirname(filename), file)],
    [Subgraph.validate(data, { resolveFile })] (the validation of the
    document against the manifest schema),
    [validation.validateSchema(filename)] and [ABI.load]. *)
Variable readManifest : string -> result value.
Variable pathResolve : string -> value -> result value.
Variable validate :
  value -> (value -> result value) -> result (list ValidationError).
Variable validateSchemaFile : value -> result (list ValidationError).
Variable ABI_load : value -> value -> result ABI.

(** The reducer of [validateSchema]: messages only, no path. *)
Definition schemaStep (msg : string) (e : ValidationError) : string :=
  (msg ++ nl ++ nl ++ "  " ++ message e)%string.

Definition schemaMessage (filename : value) (errors : list ValidationError)
  : string :=
  fold_left schemaStep errors ("Error in " ++ toStr filename ++ ":")%string.

Definition validateSchema (resolveFile : value -> result value)
  (manifest : value) : result unit :=
  file <- getInOf manifest ["schema"; "file"] ;;
  filename <- resolveFile file ;;
  errors <- validateSchemaFile filename ;;
  if (0 <? List.length errors)%nat
  then Throw (Error (schemaMessage filename errors))
  else Ok tt.

(** [Subgraph.load(filename)]; [immutable.fromJS(data)] is the document
    itself. *)
Definition load (filename : string) : result value :=
  data <- readManifest filename ;;
  let resolveFile := pathResolve filename in
  manifestErrors <- validate data resolveFile ;;
  _ <- (if (0 <? List.length manifestErrors)%nat
        then throwCombinedError filename manifestErrors
        else Ok tt) ;;
  let manifest := data in
  _ <- validateSchema resolveFile manifest ;;
  errors <- crossValidate resolveFile ABI_load manifest ;;
  _ <- (if (0 <? List.length errors)%nat
        then throwCombinedError filename errors
        else Ok tt) ;;
  Ok manifest.

End Load.

(** * The [test] command: choosing and running the test binary

    From [src/commands/test.js]: the parsing of the Linux release
    information, the choice of the binary for the platform, and the
    arguments handed to the binary and to Docker. *)

Module TestCommand.

(** ** String primitives *)

(** [s.split(sep)] for a separator of one character. *)
Fixpoint split (sep : ascii) (s : string) : list string :=
  match s with
  | EmptyString => [EmptyString]
  | String c s' =>
      if (c =? sep)%char then EmptyString :: split sep s'
      else match split sep s' with
           | part :: parts => String c part :: parts
           | [] => [String c EmptyString]
           end
  end.

Definition singleQuote : ascii := "039"%char.
Definition doubleQuote : ascii := "034"%char.

Definition isQuote (c : ascii) : bool :=
  ((c =? singleQuote) || (c =? doubleQuote))%char.

(** [s.replace(re, '')] where [re] matches every run of single and double
    quote characters: each quote character is removed. *)
Fixpoint removeQuotes (s : string) : string :=
  match s with
  | EmptyString => EmptyString
  | String c s' =>
      if isQuote c then removeQuotes s' else String c (removeQuotes s')
  end.

(** [toLowerCase] on one 8-bit code unit: [A]-[Z] and the upper-case
    letters of Latin-1 (192 to 222 except the multiplication sign 215). *)
Definition lowerChar (c : ascii) : ascii :=
  let n := nat_of_ascii c in
  if (((65 <=? n) && (n <=? 90))
      || ((192 <=? n) && (n <=? 222) && negb (n =? 215)))%nat
  then ascii_of_nat (n + 32) else c.

Fixpoint toLowerCase (s : string) : string :=
  match s with
  | EmptyString => EmptyString
  | String c s' => String (lowerChar c) (toLowerCase s')
  end.

(** White space for [trim] and [parseInt]: tab, line feed, vertical tab,
    form feed, carriage return, space and no-break space. *)
Definition isWhitespace (c : ascii) : bool :=
  let n := nat_of_ascii c in
  (((9 <=? n) && (n <=? 13)) || (n =? 32) || (n =? 160))%nat.

Fixpoint trimStart (s : string) : string :=
  match s with
  | EmptyString => EmptyString
  | String c s' => if isWhitespace c then trimStart s' else s
  end.

(** Removes trailing white space: a character is kept when it is not
    white space or when something is kept after it. *)
Fixpoint trimEnd (s : string) : string :=
  match s with
  | EmptyString => EmptyString
  | String c s' =>
      match trimEnd s' with
      | EmptyString => if isWhitespace c then EmptyString
                       else String c EmptyString
      | rest => String c rest
      end
  end.

(** [s.trim()] *)
Definition trim (s : string) : string := trimEnd (trimStart s).

Definition isDigit (c : ascii) : bool :=
  let n := nat_of_ascii c in ((48 <=? n) && (n <=? 57))%nat.

(** The value of the longest prefix of decimal digits, read after
    [acc]. *)
Fixpoint digitsValue (acc : Z) (s : string) : Z :=
  match s with
  | EmptyString => acc
  | String c s' =>
      if isDigit c
      then digitsValue (10 * acc + Z.of_nat (nat_of_ascii c - 48)) s'
      else acc
  end.

(** [parseInt(s, 10)]: leading white space, an optional sign, then the
    longest prefix of digits; [None] is [NaN] (no digit there).  The number
    is kept as an exact integer.  JavaScript holds it as a double: the same
    number up to 2^53, the nearest double above.  A double equals 0, 18, 19
    or 22 exactly when the integer does, so the branches of [getPlatform]
    are the same; only the number printed in its 'Unsupported platform'
    message differs for a version of more than fifteen digits. *)
Definition parseInt (s : string) : option Z :=
  let s1 := trimStart s in
  let signed :=
    match s1 with
    | String c rest =>
        if (c =? "-")%char then (-1, rest)%Z
        else if (c =? "+")%char then (1, rest)%Z
        else (1, s1)%Z
    | EmptyString => (1, s1)%Z
    end in
  match snd signed with
  | String c _ =>
      if isDigit c then Some (fst signed * digitsValue 0 (snd signed))%Z
      else None
  | EmptyString => None
  end.

(** [re.test(s)] for a pattern without anchors: the pattern is tried at
    every position. *)
Fixpoint testAnywhere (matchesHere : string -> bool) (s : string) : bool :=
  matchesHere s
  || match s with
     | EmptyString => false
     | String _ s' => testAnywhere matchesHere s'
     end.

(** [/Apple (M1|processor)/.test(model)] *)
Definition appleModel (model : string) : bool :=
  testAnywhere
    (fun s => String.prefix "Apple M1" s || String.prefix "Apple processor" s)
    model.

(** ** [getLinuxInfo] *)

(** The object built by [getLinuxInfo], as the list of its assignments,
    latest first: a property is read with [lookup].  A value of [None] is
    [undefined] (a line without [=]). *)
Definition linuxInfo : Type := list (string * option string).

(** [linuxInfo[val[0].toLowerCase()] = val[1]] *)
Definition assign (info : linuxInfo) (val : list string) : linuxInfo :=
  match val with
  | key :: rest => (toLowerCase key, List.nth_error val 1) :: info
  | [] => info
  end.

(** [getLinuxInfo()] on the output [result] of the command that prints
    the [NAME=] and [VERSION=] lines of [/etc/*-release].  When that
    command fails the source logs the error and ends the process; this
    path is left out: [result] is the output of a command that succeeded. *)
Definition getLinuxInfo (result : string) : linuxInfo :=
  let infoArray :=
    List.map (split "=") (split "010" (removeQuotes result)) in
  fold_left assign infoArray [].

(** [linuxInfo.name], [linuxInfo.version]: the two properties the command
    reads. *)
Definition property (info : linuxInfo) (key : string) : option string :=
  match lookup key info with
  | Some v => v
  | None => None
  end.

(** ** [getPlatform] *)

(** Truthiness of a string that may be [undefined]. *)
Definition truthyString (v : option string) : bool :=
  match v with
  | Some s => negb (s =? EmptyString)%string
  | None => false
  end.

Definition decimal (n : Z) : string :=
  NilZero.string_of_int (Z.to_int n).

Section Platform.

(** [semver.major(release)]; it throws on a text that is no version. *)
Variable semverMajor : string -> result Z.

(** [getPlatform(logsOpt)] from what [os] reports: [os.type()],
    [os.arch()], the model of [os.cpus()[0]] ([None] when there is no
    CPU entry), [os.release()], and the output of the release command
    (read on Linux only).  Printing the log has no part in the result,
    but its text reads [cpuCore.model]. *)
Definition getPlatform (logsOpt : bool) (type arch : string)
  (cpuCore : option string) (osRelease : string) (releaseOutput : string)
  : result string :=
  isM1 <- (if (arch =? "arm64")%string
           then match cpuCore with
                | Some model => Ok (appleModel model)
                | None => Throw (TypeError VUndef "model")
                end
           else Ok false) ;;
  let linuxInfo :=
    if (type =? "Linux")%string then getLinuxInfo releaseOutput else [] in
  let version := property linuxInfo "version" in
  let release :=
    if truthyString version
    then match version with Some v => v | None => osRelease end
    else osRelease in
  majorVersion <-
    match parseInt (match version with Some v => v | None => "undefined" end) with
    | Some n => if (n =? 0)%Z then semverMajor release else Ok n
    | None => semverMajor release
    end ;;
  _ <- (if logsOpt
        then match cpuCore with
             | Some _ => Ok tt
             | None => Throw (TypeError VUndef "model")
             end
        else Ok tt) ;;
  if (arch =? "x64")%string || isM1 then
    if (type =? "Darwin")%string then
      if (majorVersion =? 19)%Z then Ok "binary-macos-10.15"
      else if (majorVersion =? 18)%Z then Ok "binary-macos-10.14"
      else if isM1 then Ok "binary-macos-11-m1"
      else Ok "binary-macos-11"
    else if (type =? "Linux")%string then
      if (majorVersion =? 18)%Z then Ok "binary-linux-18"
      else if (majorVersion =? 22)%Z then Ok "binary-linux-22"
      else Ok "binary-linux-20"
    else if (type =? "Windows_NT")%string then Ok "binary-windows"
    else Throw (Error ("Unsupported platform: " ++ type ++ " " ++ arch ++ " "
                       ++ decimal majorVersion)%string)
  else Throw (Error ("Unsupported platform: " ++ type ++ " " ++ arch ++ " "
                     ++ decimal majorVersion)%string).

End Platform.

(** ** Arguments of the binary and of Docker *)

(** Truthiness of an option value. *)
Definition truthy (v : value) : bool :=
  match v with
  | VUndef | VNull => false
  | VBool b => b
  | VNum n => negb (n =? 0)%Z
  | VStr s => negb (s =? EmptyString)%string
  | VList _ | VMap _ => true
  end.

(** The [args] array of [runBinary]. *)
Definition binaryArgs (coverageOpt recompileOpt datasource : value)
  : list value :=
  (if truthy coverageOpt then [VStr "-c"] else [])
  ++ (if truthy recompileOpt then [VStr "-r"] else [])
  ++ (if truthy datasource then [datasource] else []).

(** The [testArgs] string of [runDocker]. *)
Definition testArgs `{JsRuntime} (coverageOpt recompileOpt datasource : value)
  : string :=
  let testArgs := EmptyString in
  let testArgs := if truthy coverageOpt then (testArgs ++ " -c")%string
                  else testArgs in
  let testArgs := if truthy recompileOpt then (testArgs ++ " -r")%string
                  else testArgs in
  if truthy datasource then (testArgs ++ " " ++ toStr datasource)%string
  else testArgs.

(** The [dockerRunOpts] array of [runDocker]. *)
Definition dockerRunOpts `{JsRuntime} (current_folder : string)
  (coverageOpt recompileOpt datasource : value) : list string :=
  let testArgs := testArgs coverageOpt recompileOpt datasource in
  [ "run"; "-it"; "--rm"; "--mount";
    ("type=bind,source=" ++ current_folder ++ ",target=/matchstick")%string ]
  ++ (if negb (testArgs =? EmptyString)%string
      then ["-e"; ("ARGS=" ++ trim testArgs)%string]
      else [])
  ++ ["matchstick"].

End TestCommand.

(** * Notions used to state the properties *)

(** ** Which check an error comes from, and for which data source

    Read off the error's path: [dataSources/i/source/abi] (ABI reference,
    rank 0), [dataSources/i/mapping/abis/j/file] (ABI file, rank 1),
    [dataSources/i/source/address] (address, rank 2) and
    [dataSources/i/eventHandlers/j] (event, rank 3). *)
Definition categoryRank (e : ValidationError) : nat :=
  match path e with
  | _ :: _ :: Key a :: rest =>
      if (a =? "source")%string then
        match rest with
        | [Key b] =>
            if (b =? "abi")%string then 0
            else if (b =? "address")%string then 2 else 4
        | _ => 4
        end
      else if (a =? "mapping")%string then 1
      else if (a =? "eventHandlers")%string then 3
      else 4
  | _ => 4
  end.

Definition dataSourceIndex (e : ValidationError) : nat :=
  match path e with
  | _ :: Index i :: _ => i
  | _ => 0
  end.

(** Check category first, data-source index second. *)
Definition categoryThenIndex (e1 e2 : ValidationError) : Prop :=
  categoryRank e1 < categoryRank e2 \/
  (categoryRank e1 = categoryRank e2 /\ dataSourceIndex e1 <= dataSourceIndex e2).

(** Data-source index first, check category second. *)
Definition indexThenCategory (e1 e2 : ValidationError) : Prop :=
  dataSourceIndex e1 < dataSourceIndex e2 \/
  (dataSourceIndex e1 = dataSourceIndex e2 /\ categoryRank e1 <= categoryRank e2).

(** The error comes from check [c] and names data source [k]. *)
Definition inBlock (c k : nat) (e : ValidationError) : Prop :=
  categoryRank e = c /\ dataSourceIndex e = k.

(** ** The address format, stated without the matcher *)

Definition HexDigit (c : ascii) : Prop :=
  let n := nat_of_ascii c in
  (48 <= n <= 57) \/ (97 <= n <= 102) \/ (65 <= n <= 70).

Fixpoint AllHexDigits (s : string) : Prop :=
  match s with
  | EmptyString => True
  | String c s' => HexDigit c /\ AllHexDigits s'
  end.

(** 40 hexadecimal characters, with an optional [0x] prefix. *)
Definition IsAddress (s : string) : Prop :=
  exists digits,
    (s = digits \/ s = ("0x" ++ digits)%string) /\
    String.length digits = 40 /\ AllHexDigits digits.

(** What the address check reports for one data source. *)
Definition addressErrorsOf `{JsRuntime} (dataSource : value) (index : segment)
  : list ValidationError :=
  let address := getIn dataSource ["source"; "address"] in
  if addressPattern (toStr address) then []
  else [ {| path := [Key "dataSources"; index; Key "source"; Key "address"];
            message := addressMessage address |} ].

(** What the event check reports for one event signature, given the
    loaded ABI. *)
Definition eventErrorsOf `{JsRuntime} (path : list segment) (abi : ABI)
  (manifestEvent : value) (index : segment) : list ValidationError :=
  if includesEvent (eventSignatures abi) manifestEvent then []
  else [ {| path := path ++ [index];
            message := eventMessage manifestEvent abi |} ].


(** What the event check reports for one data source: nothing when the
    [try] block throws. *)
Definition eventErrorsOfDataSource `{JsRuntime}
  (resolveFile : value -> result value)
  (ABI_load : value -> value -> result ABI)
  (dataSource : value) (index : segment) : list ValidationError :=
  match eventsStep resolveFile ABI_load [] dataSource index with
  | Ok r => r
  | Throw _ => []
  end.

(** ** Locating an error

    Whether the error's path is the given one; paths are compared segment by
    segment. *)
Definition segmentEqb (a b : segment) : bool :=
  match a, b with
  | Key x, Key y => (x =? y)%string
  | Index i, Index j => Nat.eqb i j
  | _, _ => false
  end.

Fixpoint pathEqb (p q : list segment) : bool :=
  match p, q with
  | [], [] => true
  | a :: p', b :: q' => segmentEqb a b && pathEqb p' q'
  | _, _ => false
  end.

Definition locatedAt (p : list segment) (e : ValidationError) : bool :=
  pathEqb (path e) p.

(** The error is an event error that names data source [k]. *)
Definition eventErrorOf (k : nat) (e : ValidationError) : bool :=
  Nat.eqb (dataSourceIndex e) k && Nat.eqb (categoryRank e) 3.

(** The errors a reducer returns; none when it throws. *)
Definition resultOr {A : Type} (r : result (list A)) : list A :=
  match r with Ok l => l | Throw _ => [] end.

(** ** The filter, as a pure predicate *)

(** The data source's kind is the string ['ethereum/contract']. *)
Definition kindIsEthereumContract (dataSource : value) : bool :=
  match get dataSource "kind" with
  | Ok kind => strictEq kind (VStr "ethereum/contract")
  | Throw _ => false
  end.

(** A value with a [get] method. *)
Definition isCollection (v : value) : bool :=
  match v with
  | VList _ | VMap _ => true
  | _ => false
  end.

(** The declared ABIs of the data source form a list of collections. *)
Definition declaresAbis (dataSource : value) : Prop :=
  exists abis,
    getIn dataSource ["mapping"; "abis"] = VList abis
    /\ forallb isCollection abis = true.

(** ** A data source with nothing to report *)

(** [source.abi] is the name of a declared ABI. *)
Definition abiDeclared (dataSource : value) : Prop :=
  exists abiNames,
    map (fun abi => get abi "name") (getIn dataSource ["mapping"; "abis"])
    = Ok abiNames
    /\ includes (values abiNames) (getIn dataSource ["source"; "abi"]) = true.

(** Each declared ABI of the data source can be loaded. *)
Definition abisLoad (resolveFile : value -> result value)
  (ABI_load : value -> value -> result ABI) (dataSource : value) : Prop :=
  forall abi,
    In abi (values (getIn dataSource ["mapping"; "abis"])) ->
    exists name file resolved loaded,
      get abi "name" = Ok name
      /\ get abi "file" = Ok file
      /\ resolveFile file = Ok resolved
      /\ ABI_load name resolved = Ok loaded.

(** When the referenced ABI loads and the event handlers can be read,
    each handler's event is one of the ABI's event signatures. *)
Definition eventsDeclared (resolveFile : value -> result value)
  (ABI_load : value -> value -> result ABI) (dataSource : value) : Prop :=
  forall entry name file resolved abi manifestEvents,
    find (fun abi => name <- get abi "name" ;;
                     Ok (strictEq name (getIn dataSource ["source"; "abi"])))
         (getIn dataSource ["mapping"; "abis"]) = Ok entry ->
    get entry "name" = Ok name ->
    get entry "file" = Ok file ->
    resolveFile file = Ok resolved ->
    ABI_load name resolved = Ok abi ->
    map (fun handler => get handler "event")
        (getIn dataSource ["mapping"; "eventHandlers"]) = Ok manifestEvents ->
    forall manifestEvent,
      In manifestEvent (values manifestEvents) ->
      includesEvent (eventSignatures abi) manifestEvent = true.

(** Nothing for the four checks to report. *)
Definition dataSourceValid `{JsRuntime} (resolveFile : value -> result value)
  (ABI_load : value -> value -> result ABI) (dataSource : value) : Prop :=
  IsAddress (toStr (getIn dataSource ["source"; "address"]))
  /\ abiDeclared dataSource
  /\ abisLoad resolveFile ABI_load dataSource
  /\ eventsDeclared resolveFile ABI_load dataSource.

(** The number of declared ABIs and of event handlers of a data source. *)
Definition declaredAbis (dataSource : value) : nat :=
  List.length (values (getIn dataSource ["mapping"; "abis"])).

Definition declaredEventHandlers (dataSource : value) : nat :=
  List.length (values (getIn dataSource ["mapping"; "eventHandlers"])).

(** ** Notions for the [test] command *)

(** The character occurs in the string. *)
Fixpoint hasChar (c : ascii) (s : string) : bool :=
  match s with
  | EmptyString => false
  | String c' s' => (c' =? c)%char || hasChar c s'
  end.

(** A [KEY=value] line of the release information. *)
Definition releaseLine (entry : string * string) : string :=
  (fst entry ++ "=" ++ snd entry)%string.

(** Neither the key nor the value holds a line break or an [=]. *)
Definition plainEntry (entry : string * string) : Prop :=
  hasChar "010" (fst entry) = false /\ hasChar "=" (fst entry) = false
  /\ hasChar "010" (snd entry) = false /\ hasChar "=" (snd entry) = false.

(** The binaries [getPlatform] can name. *)
Definition knownBinaries : list string :=
  [ "binary-macos-10.15"; "binary-macos-10.14"; "binary-macos-11-m1";
    "binary-macos-11"; "binary-linux-18"; "binary-linux-22";
    "binary-linux-20"; "binary-windows" ].

(** The binary chosen on Linux for a major version. *)
Definition linuxBinary (majorVersion : Z) : string :=
  if (majorVersion =? 18)%Z then "binary-linux-18"
  else if (majorVersion =? 22)%Z then "binary-linux-22"
  else "binary-linux-20".

(** The report of one error of the schema file: no path. *)
Definition schemaBlock (e : ValidationError) : string :=
  (nl ++ nl ++ "  " ++ message e)%string.

(** ** The report of one error in the combined message *)

Definition errorBlock (e : ValidationError) : string :=
  (nl ++ nl ++ "  Path: " ++ pathText (path e) ++ nl ++ "  " ++ message e)%string.

(** Concatenation of a list of strings. *)
Fixpoint concatStrings (l : list string) : string :=
  match l with
  | [] => EmptyString
  | x :: l' => (x ++ concatStrings l')%string
  end.

(** * Example manifests and collaborators *)

(** Resolves a relative path against the directory [/subgraph]. *)
Definition exampleResolveFile (file : value) : result value :=
  match file with
  | VStr f => Ok (VStr ("/subgraph/" ++ f))
  | _ => Throw (Error "The 'path' argument must be of type string")
  end.

Definition tokenEvents : list string :=
  [ "Transfer(address,address,uint256)"; "Approval(address,address,uint256)" ].

(** Loads [/subgraph/Token.json]; any other file fails to load. *)
Definition exampleLoad (name file : value) : result ABI :=
  match name, file with
  | VStr n, VStr f =>
      if (f =? "/subgraph/Token.json")%string
      then Ok {| abiName := n; eventSignatures := tokenEvents |}
      else Throw (Error ("ENOENT: no such file or directory, open '" ++ f ++ "'"))
  | _, _ => Throw (Error "Invalid ABI")
  end.

Definition abiEntry (name file : string) : value :=
  VMap [("name", VStr name); ("file", VStr file)].

Definition eventHandler (event : string) : value :=
  VMap [("event", VStr event); ("handler", VStr "handleEvent")].

(** A data source with the given kind, [source.abi], [source.address],
    declared ABIs and event signatures. *)
Definition exampleDataSource (kind abi address : string)
  (abis : list (string * string)) (events : list string) : value :=
  VMap [ ("kind", VStr kind);
         ("name", VStr "Example");
         ("source", VMap [("address", VStr address); ("abi", VStr abi)]);
         ("mapping",
          VMap [ ("abis", VList (List.map (fun nf => abiEntry (fst nf) (snd nf)) abis));
                 ("eventHandlers", VList (List.map eventHandler events)) ]) ].

Definition manifestOf (dataSources : list value) : value :=
  VMap [ ("specVersion", VStr "0.0.4");
         ("schema", VMap [("file", VStr "./schema.graphql")]);
         ("dataSources", VList dataSources) ].

Definition goodAddress : string := "1234567890123456789012345678901234567890".

(** A data source that satisfies every field the manifest schema requires
    of a [DataSource] (kind, name, source, mapping with apiVersion,
    language, file, entities) and has neither [source.abi],
    [source.address] nor [mapping.abis]. *)
Definition dataSourceWithoutAbis : value :=
  VMap [ ("kind", VStr "ethereum/contract");
         ("name", VStr "Example");
         ("source", VMap [("startBlock", VNum 9200001)]);
         ("mapping",
          VMap [ ("apiVersion", VStr "0.0.5");
                 ("language", VStr "wasm/assemblyscript");
                 ("entities", VList [VStr "ExampleEntity"]);
                 ("blockHandlers", VList [VMap [("handler", VStr "handleBlock")]]);
                 ("file", VStr "./src/mapping.ts") ]) ].

(** * A runtime to evaluate examples with

    It satisfies the laws of [JsRuntime]: exact on [undefined], [null],
    booleans and strings.  Integers, collections and the wording of a
    [TypeError] are rendered by fixed texts; the examples below never
    print them. *)

Definition exampleToStr (v : value) : string :=
  match v with
  | VUndef => "undefined"
  | VNull => "null"
  | VBool true => "true"
  | VBool false => "false"
  | VNum _ => "<number>"
  | VStr s => s
  | VList _ => "<List>"
  | VMap _ => "<Map>"
  end.

Fixpoint allStrings (l : list value) : option (list string) :=
  match l with
  | [] => Some []
  | VStr s :: l' =>
      match allStrings l' with
      | Some r => Some (s :: r)
      | None => None
      end
  | _ => None
  end.

Definition exampleSortValues (l : list value) : list value :=
  match allStrings l with
  | Some names => List.map VStr (sortStrings names)
  | None => l
  end.

Lemma allStrings_map_VStr (l : list string) :
  allStrings (List.map VStr l) = Some l.
Proof.
  induction l as [|s l IH]; simpl; [reflexivity|].
  now rewrite IH.
Qed.

Lemma exampleSortValues_strings (l : list string) :
  exampleSortValues (List.map VStr l) = List.map VStr (sortStrings l).
Proof.
  unfold exampleSortValues. now rewrite allStrings_map_VStr.
Qed.

Definition exampleRuntime : JsRuntime := {|
  toStr := exampleToStr;
  toStr_VStr := fun s => eq_refl;
  toStr_VUndef := eq_refl;
  typeErrorMessage := fun _ method => ("<TypeError: " ++ method ++ ">")%string;
  sortValues := exampleSortValues;
  sortValues_strings := exampleSortValues_strings
|}.

(** A ['near'] data source followed by an ['ethereum/contract'] data
    source whose [source.abi] names no declared ABI and whose only
    declared ABI file does not exist. *)
Definition faultySecondDataSource : value :=
  exampleDataSource "ethereum/contract" "Missing" goodAddress
    [("Token", "Missing.json")] [].

Definition mixedManifest : value :=
  manifestOf [ exampleDataSource "near" "Token" "alice.near" [] [];
               faultySecondDataSource ].

Definition tokenABI : ABI :=
  {| abiName := "Token"; eventSignatures := tokenEvents |}.

(** An ['ethereum/contract'] data source whose ABI loads, with three event
    handlers: one signature of the ABI, one that differs by casing and one
    that differs by a space. *)
Definition dataSourceWithEvents : value :=
  exampleDataSource "ethereum/contract" "Token" goodAddress
    [("Token", "Token.json")]
    [ "Transfer(address,address,uint256)";
      "transfer(address,address,uint256)";
      "Transfer(address, address,uint256)" ].

(** An ['ethereum/contract'] data source whose referenced ABI file cannot
    be loaded. *)
Definition dataSourceWithBrokenAbi : value :=
  exampleDataSource "ethereum/contract" "Token" goodAddress
    [("Token", "Missing.json")]
    [ "Transfer(address,address,uint256)"; "Unknown()" ].

(** A manifest with two data sources that each have a wrong ABI reference
    and a bad address. *)
Definition twoFaultyDataSources : value :=
  manifestOf
    [ exampleDataSource "ethereum/contract" "Missing" "0x12345"
        [("Token", "Token.json")] [];
      exampleDataSource "ethereum/contract" "Absent" "xyz"
        [("Token", "Token.json")] [] ].

Definition twoFaultyErrors : list ValidationError :=
  [ {| path := [Key "dataSources"; Index 0; Key "source"; Key "abi"];
       message := @abiReferenceMessage exampleRuntime (VStr "Missing") [VStr "Token"] |};
    {| path := [Key "dataSources"; Index 1; Key "source"; Key "abi"];
       message := @abiReferenceMessage exampleRuntime (VStr "Absent") [VStr "Token"] |};
    {| path := [Key "dataSources"; Index 0; Key "source"; Key "address"];
       message := @addressMessage exampleRuntime (VStr "0x12345") |};
    {| path := [Key "dataSources"; Index 1; Key "source"; Key "address"];
       message := @addressMessage exampleRuntime (VStr "xyz") |} ].

(** ** Collaborators of [load] for the examples *)

(** A data source with nothing to report. *)
Definition goodDataSource : value :=
  exampleDataSource "ethereum/contract" "Token" goodAddress
    [("Token", "Token.json")] ["Transfer(address,address,uint256)"].

(** Reads [good.yaml] and [faulty.yaml]; any other file is missing. *)
Definition exampleReadManifest (filename : string) : result value :=
  if (filename =? "good.yaml")%string then Ok (manifestOf [goodDataSource])
  else if (filename =? "faulty.yaml")%string then Ok twoFaultyDataSources
  else Throw (Error ("ENOENT: no such file or directory, open '" ++ filename ++ "'")).

Definition examplePathResolve (filename : string) : value -> result value :=
  exampleResolveFile.

(** A manifest passes the schema when it has a [specVersion]. *)
Definition exampleValidate (data : value)
  (resolveFile : value -> result value) : result (list ValidationError) :=
  match getIn data ["specVersion"] with
  | VUndef => Ok [ {| path := [Key "specVersion"]; message := "No value provided" |} ]
  | _ => Ok []
  end.

Definition exampleValidateSchemaFile (filename : value)
  : result (list ValidationError) :=
  Ok [].

Definition exampleLoadManifest : string -> result value :=
  @load exampleRuntime exampleReadManifest examplePathResolve exampleValidate
    exampleValidateSchemaFile exampleLoad.

(** ** Examples for the [test] command *)

(** The major version of a release text that starts with it. *)
Definition exampleSemverMajor (release : string) : result Z :=
  match TestCommand.parseInt release with
  | Some n => Ok n
  | None => Throw (Error ("Invalid Version: " ++ release))
  end.

Definition quoted (s : string) : string :=
  String TestCommand.doubleQuote (s ++ String TestCommand.doubleQuote EmptyString).

(** The release lines of an Ubuntu 18.04. *)
Definition ubuntuRelease : list (string * string) :=
  [ ("NAME", quoted "Ubuntu"); ("VERSION", quoted "18.04.6 LTS (Bionic Beaver)") ].

(** A data source that declares three ABIs; the second and the third have
    the referenced name, and the file of the second is missing. *)
Definition dataSourceWithTwoTokens : value :=
  exampleDataSource "ethereum/contract" "Token" goodAddress
    [("Other", "Token.json"); ("Token", "Missing.json"); ("Token", "Token.json")]
    ["Unknown()"].

(** An ['ethereum/contract'] data source whose ABI loads and that has two
    event handlers: the first handles an event the ABI does not have, the
    second is a string where an object is expected. *)
Definition dataSourceWithUnreadableHandler : value :=
  VMap [ ("kind", VStr "ethereum/contract");
         ("name", VStr "Example");
         ("source", VMap [("address", VStr goodAddress); ("abi", VStr "Token")]);
         ("mapping",
          VMap [ ("abis", VList [abiEntry "Token" "Token.json"]);
                 ("eventHandlers",
                  VList [eventHandler "Unknown()"; VStr "oops"]) ]) ].

(** An ['ethereum/contract'] data source whose [source.abi] names no
    declared ABI; the one declared ABI loads. *)
Definition dataSourceWithUndeclaredAbi : value :=
  exampleDataSource "ethereum/contract" "Missing" goodAddress
    [("Token", "Token.json")] ["Unknown()"].

(** An ['ethereum/contract'] data source whose referenced ABI file cannot
    be loaded and whose second declared ABI is a string where an object is
    expected. *)
Definition dataSourceWithMalformedAbi : value :=
  VMap [ ("kind", VStr "ethereum/contract");
         ("name", VStr "Example");
         ("source", VMap [("address", VStr goodAddress); ("abi", VStr "Token")]);
         ("mapping",
          VMap [ ("abis", VList [abiEntry "Token" "Missing.json"; VStr "junk"]);
                 ("eventHandlers", VList [eventHandler "Unknown()"]) ]) ].

(** A ['near'] data source followed by an ['ethereum/contract'] data source
    with a wrong ABI reference and a bad address. *)
Definition nearThenFaulty : list value :=
  [ exampleDataSource "near" "Missing" "alice.near" [] [];
    exampleDataSource "ethereum/contract" "Missing" "0x12345"
      [("Token", "Token.json")] [] ].

(** * Properties *)

(** ** The result monad and the traversals *)

Lemma bind_Ok_inv {A B : Type} (r : result A) (k : A -> result B) (b : B) :
  (x <- r ;; k x) = Ok b -> exists a, r = Ok a /\ k a = Ok b.
Proof.
  destruct r as [a|e]; simpl; intros H; [eauto | discriminate].
Qed.

(** A reducer that only appends to its accumulator can be run from the
    empty accumulator. *)
Lemma foldM_append_acc {A B : Type} (step : list A -> B -> result (list A)) :
  (forall acc x, step acc x = (r <- step [] x ;; Ok (acc ++ r))) ->
  forall l acc, foldM step acc l = (r <- foldM step [] l ;; Ok (acc ++ r)).
Proof.
  intros Hstep l.
  induction l as [|x l IH]; intros acc; simpl.
  - now rewrite app_nil_r.
  - rewrite Hstep.
    destruct (step [] x) as [r|e]; simpl; [|reflexivity].
    rewrite IH, (IH r).
    destruct (foldM step [] l) as [r'|e]; simpl; [|reflexivity].
    now rewrite app_assoc.
Qed.

(** Such a reducer returns the concatenation of what it appends for each
    element. *)
Lemma foldM_concat {A B : Type} (step : list A -> B -> result (list A)) :
  (forall acc x, step acc x = (r <- step [] x ;; Ok (acc ++ r))) ->
  forall l acc,
    foldM step acc l = (rs <- mapM (step []) l ;; Ok (acc ++ List.concat rs)).
Proof.
  intros Hstep l.
  induction l as [|x l IH]; intros acc; simpl.
  - now rewrite app_nil_r.
  - rewrite Hstep.
    destruct (step [] x) as [r|e]; simpl; [|reflexivity].
    rewrite IH.
    destruct (mapM (step []) l) as [rs|e]; simpl; [|reflexivity].
    now rewrite app_assoc.
Qed.

Lemma foldM_Forall {A B : Type} (Q : A -> Prop)
  (step : list A -> B -> result (list A)) :
  (forall acc x acc', step acc x = Ok acc' -> Forall Q acc -> Forall Q acc') ->
  forall l acc acc',
    foldM step acc l = Ok acc' -> Forall Q acc -> Forall Q acc'.
Proof.
  intros Hstep l.
  induction l as [|x l IH]; simpl; intros acc acc' H HQ.
  - now injection H as <-.
  - apply bind_Ok_inv in H as (acc1 & H1 & H2).
    eapply IH; eauto.
Qed.

(** A filter whose predicate does not throw keeps what the pure filter
    keeps. *)
Lemma filterM_pure {A : Type} (p : A -> result bool) (q : A -> bool)
  (l : list A) :
  Forall (fun x => p x = Ok (q x)) l ->
  filterM p l = Ok (List.filter q l).
Proof.
  induction 1 as [|x l Hx _ IH]; simpl; [reflexivity|].
  rewrite Hx, IH. simpl. now destruct (q x).
Qed.

(** ** The protocol registry *)

Lemma includes_strings (names : list string) (v : value) :
  includes (List.map VStr names) v = true <->
  exists s, v = VStr s /\ In s names.
Proof.
  unfold includes. rewrite existsb_exists. split.
  - intros (x & Hin & His).
    apply in_map_iff in Hin as (s & <- & Hin).
    destruct v; simpl in His; try discriminate.
    apply String.eqb_eq in His. subst. eauto.
  - intros (s & -> & Hin).
    exists (VStr s). split; [now apply in_map|].
    simpl. apply String.eqb_refl.
Qed.

Lemma includes_strings_false (names : list string) (v : value) :
  includes (List.map VStr names) v = false <->
  forall s, v = VStr s -> ~ In s names.
Proof.
  split.
  - intros H s -> Hin.
    assert (includes (List.map VStr names) (VStr s) = true)
      by (apply includes_strings; eauto).
    congruence.
  - intros H.
    destruct (includes (List.map VStr names) v) eqn:E; [|reflexivity].
    apply includes_strings in E as (s & -> & Hin).
    now elim (H s eq_refl).
Qed.

(** [normalizeName] maps the kinds ['ethereum'] and ['ethereum/contract']
    to ['ethereum'], ['near'] and ['cosmos'] to themselves, and every
    other value to [undefined]. *)
Lemma normalizeName_cases (kind : value) :
  (kind = VStr "ethereum" \/ kind = VStr "ethereum/contract") /\
    Protocol.normalizeName kind = Some "ethereum"
  \/ kind = VStr "near" /\ Protocol.normalizeName kind = Some "near"
  \/ kind = VStr "cosmos" /\ Protocol.normalizeName kind = Some "cosmos"
  \/ (forall s, kind = VStr s ->
        ~ In s ["ethereum"; "ethereum/contract"; "near"; "cosmos"]) /\
     Protocol.normalizeName kind = None.
Proof.
  unfold Protocol.normalizeName, Protocol.findKey, Protocol.availableProtocols.
  cbn [List.find snd fst].
  destruct (includes (List.map VStr ["ethereum"; "ethereum/contract"]) kind) eqn:E1.
  { left. split; [|reflexivity].
    apply includes_strings in E1 as (s & -> & [<-|[<-|[]]]); auto. }
  destruct (includes (List.map VStr ["near"]) kind) eqn:E2.
  { right; left. split; [|reflexivity].
    apply includes_strings in E2 as (s & -> & [<-|[]]); auto. }
  destruct (includes (List.map VStr ["cosmos"]) kind) eqn:E3.
  { right; right; left. split; [|reflexivity].
    apply includes_strings in E3 as (s & -> & [<-|[]]); auto. }
  right; right; right. split; [|reflexivity].
  intros s -> Hin.
  rewrite includes_strings_false in E1, E2, E3.
  specialize (E1 s eq_refl). specialize (E2 s eq_refl). specialize (E3 s eq_refl).
  simpl in *. intuition.
Qed.

(** Every instance built by the constructor carries one of the three
    protocol names or [undefined]. *)
Lemma new_name (kind : value) :
  In (Protocol.name (Protocol.new kind))
     [Some "ethereum"; Some "near"; Some "cosmos"; None].
Proof.
  unfold Protocol.new. cbn [Protocol.name].
  destruct (normalizeName_cases kind) as [[_ ->]|[[_ ->]|[[_ ->]|[_ ->]]]];
    simpl; auto.
Qed.

(** ** Factories *)

(** C9, as the code has it: of the factories, only [getTemplateCodeGen]
    checks a capability and throws when it is missing (for every protocol
    without templates, the unknown one included).  [getABI] and
    [getTypeGenerator] return [null] for a protocol without ABIs, and
    [getContract] returns [null] for a protocol without contracts. *)
Theorem factories_without_capability (this : Protocol.t) :
  (Protocol.hasTemplates this <> Some true ->
   forall template,
     Protocol.getTemplateCodeGen this template =
     Throw (Error ("Template data sources with kind '" ++ Protocol.nameText this
                   ++ "' are not supported yet")%string))
  /\ (Protocol.hasABIs this = Some false ->
      Protocol.getABI this = Ok Protocol.Null /\
      forall options, Protocol.getTypeGenerator this options = Ok Protocol.Null)
  /\ (Protocol.hasContract this = Some false ->
      Protocol.getContract this = Ok Protocol.Null).
Proof.
  destruct this as [[n|]];
    unfold Protocol.getTemplateCodeGen, Protocol.hasTemplates, Protocol.hasABIs,
      Protocol.hasContract, Protocol.getABI, Protocol.getTypeGenerator,
      Protocol.getContract, Protocol.switch; cbn [Protocol.name].
  - destruct (n =? "ethereum")%string; [repeat split; congruence|].
    destruct (n =? "near")%string; [repeat split; congruence|].
    destruct (n =? "cosmos")%string; repeat split; congruence.
  - repeat split; congruence.
Qed.

Lemma factories_without_capability_near :
  Protocol.getTemplateCodeGen (Protocol.new (VStr "near")) VUndef =
    Throw (Error "Template data sources with kind 'near' are not supported yet")
  /\ Protocol.getABI (Protocol.new (VStr "near")) = Ok Protocol.Null
  /\ Protocol.getContract (Protocol.new (VStr "cosmos")) = Ok Protocol.Null.
Proof.
  pose proof (factories_without_capability (Protocol.new (VStr "near")))
    as (Htemplate & Habi & _).
  pose proof (factories_without_capability (Protocol.new (VStr "cosmos")))
    as (_ & _ & Hcontract).
  split; [|split].
  - apply Htemplate. vm_compute. discriminate.
  - apply Habi. reflexivity.
  - apply Hcontract. reflexivity.
Defined.

(** C9 as stated fails: ['near'] has no ABIs, and asking it for the ABI
    accessor or the type generator returns [null] instead of raising. *)
Lemma getABI_near_returns_null :
  Protocol.hasABIs (Protocol.new (VStr "near")) = Some false
  /\ Protocol.getABI (Protocol.new (VStr "near")) = Ok Protocol.Null
  /\ Protocol.getTypeGenerator (Protocol.new (VStr "near")) VUndef
     = Ok Protocol.Null.
Proof. repeat split. Qed.

(** ** [fromDataSources] *)

(** C10: on a non-empty list whose first entry is an object,
    [fromDataSources] returns the protocol built from that entry's [kind];
    the later entries play no part; a kind that names no protocol gives an
    instance whose name is [undefined], not an error; on the empty list
    reading [kind] of the missing first element throws. *)
Theorem fromDataSources_first_kind (entry : list (string * value))
  (rest : list value) :
  let kind := match lookup "kind" entry with Some k => k | None => VUndef end in
  Protocol.fromDataSources (VMap entry :: rest) = Ok (Protocol.new kind)
  /\ (forall rest',
        Protocol.fromDataSources (VMap entry :: rest')
        = Protocol.fromDataSources (VMap entry :: rest))
  /\ ((forall s, kind = VStr s ->
         ~ In s ["ethereum"; "ethereum/contract"; "near"; "cosmos"]) ->
      Protocol.fromDataSources (VMap entry :: rest)
      = Ok {| Protocol.name := None |})
  /\ Protocol.fromDataSources [] = Throw (TypeError VUndef "kind").
Proof.
  intros kind. repeat split.
  intros Hunknown.
  unfold Protocol.fromDataSources. cbn [Protocol.first Protocol.kindOf bind].
  fold kind. unfold Protocol.new.
  destruct (normalizeName_cases kind) as [[Hk _]|[[Hk _]|[[Hk _]|[_ ->]]]];
    [exfalso .. | reflexivity].
  - destruct Hk as [Hk|Hk]; apply (Hunknown _ Hk); simpl; auto.
  - apply (Hunknown _ Hk); simpl; auto.
  - apply (Hunknown _ Hk); simpl; auto.
Qed.

Lemma fromDataSources_first_kind_example :
  Protocol.fromDataSources
    [VMap [("kind", VStr "ethereum/contract")]; VMap [("kind", VStr "near")]]
  = Ok {| Protocol.name := Some "ethereum" |}
  /\ Protocol.fromDataSources
       [VMap [("kind", VStr "solana")]; VMap [("kind", VStr "near")]]
     = Ok {| Protocol.name := None |}.
Proof.
  split.
  - apply (fromDataSources_first_kind
             [("kind", VStr "ethereum/contract")] [VMap [("kind", VStr "near")]]).
  - apply (fromDataSources_first_kind
             [("kind", VStr "solana")] [VMap [("kind", VStr "near")]]).
    intros s Hs. injection Hs as <-. simpl.
    intros [H|[H|[H|[H|[]]]]]; discriminate.
Defined.

(** ** The address check *)

Lemma isHexDigit_spec (c : ascii) : isHexDigit c = true <-> HexDigit c.
Proof.
  unfold isHexDigit, HexDigit. cbv zeta.
  rewrite !orb_true_iff, !andb_true_iff, !Nat.leb_le. tauto.
Qed.

Lemma allHex_spec (s : string) : allHex s = true <-> AllHexDigits s.
Proof.
  induction s as [|c s IH]; simpl.
  - tauto.
  - rewrite andb_true_iff, isHexDigit_spec, IH. tauto.
Qed.

Lemma hex40_spec (s : string) :
  hex40 s = true <-> String.length s = 40 /\ AllHexDigits s.
Proof.
  unfold hex40. now rewrite andb_true_iff, Nat.eqb_eq, allHex_spec.
Qed.

(** The matcher accepts exactly the strings made of 40 hexadecimal
    characters after an optional [0x]. *)
Lemma addressPattern_spec (s : string) :
  addressPattern s = true <-> IsAddress s.
Proof.
  split.
  - intros H.
    assert (Hbare : hex40 s = true -> IsAddress s).
    { intros Hs. apply hex40_spec in Hs. exists s. tauto. }
    destruct s as [|c1 [|c2 rest]]; simpl in H; auto.
    destruct ((c1 =? "0") && (c2 =? "x"))%char eqn:Hprefix; auto.
    apply andb_true_iff in Hprefix as [H1 H2].
    apply Ascii.eqb_eq in H1, H2. subst c1 c2.
    apply orb_true_iff in H as [Hrest|Hs]; auto.
    apply hex40_spec in Hrest. exists rest. simpl. tauto.
  - intros (digits & [->| ->] & Hlen & Hhex).
    + assert (Hs : hex40 digits = true) by (apply hex40_spec; tauto).
      destruct digits as [|c1 [|c2 rest]]; simpl; auto.
      destruct ((c1 =? "0") && (c2 =? "x"))%char; auto.
      rewrite Hs. apply orb_true_r.
    + simpl.
      assert (Hs : hex40 digits = true) by (apply hex40_spec; tauto).
      now rewrite Hs.
Qed.

Lemma foldM_pure_concat {A B : Type} (step : list A -> B -> result (list A))
  (g : B -> list A) :
  (forall acc x, step acc x = Ok (acc ++ g x)) ->
  forall l acc, foldM step acc l = Ok (acc ++ List.concat (List.map g l)).
Proof.
  intros Hstep l.
  induction l as [|x l IH]; intros acc; simpl.
  - now rewrite app_nil_r.
  - rewrite Hstep. simpl. rewrite IH. now rewrite app_assoc.
Qed.

Section AddressCheck.

Context {rt : JsRuntime}.

Lemma addressStep_appends (errors : list ValidationError) (dataSource : value)
  (index : segment) :
  addressStep errors dataSource index
  = Ok (errors ++ addressErrorsOf dataSource index).
Proof.
  unfold addressStep, addressErrorsOf.
  destruct (addressPattern _); [now rewrite app_nil_r | reflexivity].
Qed.

(** C5, as the code has it: the address check emits an error for an
    eligible data source if and only if the text of [source.address] (the
    text [undefined] when the data source has no address) is not 40
    hexadecimal characters with an optional [0x] prefix.  A data source
    without [source.address] therefore gets an address error.  The errors
    of the whole manifest are those of its eligible data sources, in
    order. *)
Theorem address_check (errors : list ValidationError) (dataSource : value)
  (index : segment) :
  let address := getIn dataSource ["source"; "address"] in
  let error := {| path := [Key "dataSources"; index; Key "source"; Key "address"];
                  message := addressMessage address |} in
  (IsAddress (toStr address) ->
   addressStep errors dataSource index = Ok errors)
  /\ (~ IsAddress (toStr address) ->
      addressStep errors dataSource index = Ok (errors ++ [error]))
  /\ (address = VUndef ->
      addressStep errors dataSource index = Ok (errors ++ [error]))
  /\ (forall manifest eligible,
        ethereumContracts manifest = Ok (VList eligible) ->
        validateContractAddresses manifest
        = Ok (List.concat
                (List.map (fun entry => addressErrorsOf (snd entry) (fst entry))
                          (indexedFrom 0 eligible)))).
Proof.
  intros address error.
  assert (Hno : ~ IsAddress (toStr address) ->
                addressStep errors dataSource index = Ok (errors ++ [error])).
  { intros Hbad. unfold addressStep. fold address.
    destruct (addressPattern (toStr address)) eqn:E; [|reflexivity].
    now apply addressPattern_spec in E. }
  repeat split; auto.
  - intros Hgood. unfold addressStep. fold address.
    apply addressPattern_spec in Hgood. now rewrite Hgood.
  - intros Hundef. apply Hno. rewrite Hundef, toStr_VUndef.
    rewrite <- addressPattern_spec. discriminate.
  - intros manifest eligible Heligible.
    unfold validateContractAddresses. rewrite Heligible.
    unfold bind, reduce, entries. cbn [bind].
    rewrite (foldM_pure_concat
               (fun acc entry => addressStep acc (snd entry) (fst entry))
               (fun entry => addressErrorsOf (snd entry) (fst entry)));
      [reflexivity|].
    intros acc entry. apply addressStep_appends.
Qed.

End AddressCheck.

Lemma address_check_example :
  @addressStep exampleRuntime []
    (exampleDataSource "ethereum/contract" "Token" goodAddress [] []) (Index 0)
  = Ok []
  /\ @addressStep exampleRuntime []
       (exampleDataSource "ethereum/contract" "Token" "0x12345" [] []) (Index 0)
     = Ok [ {| path := [Key "dataSources"; Index 0; Key "source"; Key "address"];
               message := @addressMessage exampleRuntime (VStr "0x12345") |} ]
  /\ @addressStep exampleRuntime [] dataSourceWithoutAbis (Index 0)
     = Ok [ {| path := [Key "dataSources"; Index 0; Key "source"; Key "address"];
               message := @addressMessage exampleRuntime VUndef |} ]
  /\ @validateContractAddresses exampleRuntime
       (manifestOf [exampleDataSource "near" "Token" "alice.near" [] [];
                    exampleDataSource "ethereum/contract" "Token" "0x12345" [] []])
     = Ok [ {| path := [Key "dataSources"; Index 0; Key "source"; Key "address"];
               message := @addressMessage exampleRuntime (VStr "0x12345") |} ].
Proof.
  split; [|split; [|split]].
  - apply (address_check (rt := exampleRuntime) []
             (exampleDataSource "ethereum/contract" "Token" goodAddress [] [])
             (Index 0)).
    apply addressPattern_spec. reflexivity.
  - pose proof (address_check (rt := exampleRuntime) []
                  (exampleDataSource "ethereum/contract" "Token" "0x12345" [] [])
                  (Index 0)) as (_ & Hbad & _).
    apply Hbad. rewrite <- addressPattern_spec. simpl. discriminate.
  - pose proof (address_check (rt := exampleRuntime) [] dataSourceWithoutAbis
                  (Index 0)) as (_ & _ & Hundef & _).
    apply Hundef. reflexivity.
  - pose proof (address_check (rt := exampleRuntime) [] VUndef (Index 0))
      as (_ & _ & _ & Hall).
    apply (Hall
             (manifestOf [exampleDataSource "near" "Token" "alice.near" [] [];
                          exampleDataSource "ethereum/contract" "Token" "0x12345" [] []])
             [exampleDataSource "ethereum/contract" "Token" "0x12345" [] []]).
    reflexivity.
Defined.

(** The cases the specification lists: [0x] and 40 hexadecimal characters
    and 40 bare ones pass; 39 or 41 characters and a character that is not
    hexadecimal fail. *)
Lemma addressPattern_examples :
  addressPattern ("0x" ++ goodAddress) = true
  /\ addressPattern goodAddress = true
  /\ addressPattern "123456789012345678901234567890123456789" = false
  /\ addressPattern (goodAddress ++ "1") = false
  /\ addressPattern "g234567890123456789012345678901234567890" = false
  /\ addressPattern ("0X" ++ goodAddress) = false.
Proof. repeat split. Qed.

(** C5 as stated fails: a data source of kind ['ethereum/contract'] that
    has no [source.address] gets an address error. *)
Lemma missing_address_is_reported :
  getIn dataSourceWithoutAbis ["source"; "address"] = VUndef
  /\ @validateContractAddresses exampleRuntime (manifestOf [dataSourceWithoutAbis])
     = Ok [ {| path := [Key "dataSources"; Index 0; Key "source"; Key "address"];
               message :=
                 ("Contract address is invalid: undefined" ++ nl ++
                  "  Must be 40 hexadecimal characters, with an optional '0x' prefix.")%string |} ].
Proof. split; reflexivity. Qed.

(** ** A data source without [mapping.abis] *)

(** C3 fails on the code: for a manifest that satisfies the schema and has
    an ['ethereum/contract'] data source without [mapping.abis],
    [validateAbis] calls [map] on [undefined] and throws, and so does the
    combined validation; [validateEvents], whose reducer wraps the same
    access in [try]/[catch], returns an empty list. *)
Theorem validateAbis_throws_without_abis {rt : JsRuntime}
  (resolveFile : value -> result value)
  (ABI_load : value -> value -> result ABI) :
  getIn dataSourceWithoutAbis ["mapping"; "abis"] = VUndef
  /\ validateAbis resolveFile ABI_load (manifestOf [dataSourceWithoutAbis])
     = Throw (TypeError VUndef "map")
  /\ crossValidate resolveFile ABI_load (manifestOf [dataSourceWithoutAbis])
     = Throw (TypeError VUndef "map")
  /\ validateEvents resolveFile ABI_load (manifestOf [dataSourceWithoutAbis])
     = Ok [].
Proof. repeat split. Qed.

(** ** Sorting *)








Lemma StronglySorted_app {A : Type} (R : A -> A -> Prop) (l1 l2 : list A) :
  StronglySorted R l1 -> StronglySorted R l2 ->
  (forall a b, In a l1 -> In b l2 -> R a b) ->
  StronglySorted R (l1 ++ l2).
Proof.
  induction 1 as [|x l1 Hs IH Hx]; simpl; intros H2 Hcross; [exact H2|].
  constructor.
  - apply IH; auto.
  - apply Forall_app. split; [exact Hx|].
    apply Forall_forall. intros b Hb. apply Hcross; auto.
Qed.

(** ** The reducers only append *)

Lemma reduce_append_acc {A : Type}
  (step : list A -> value -> segment -> result (list A)) :
  (forall acc x k, step acc x k = (r <- step [] x k ;; Ok (acc ++ r))) ->
  forall v acc, reduce step acc v = (r <- reduce step [] v ;; Ok (acc ++ r)).
Proof.
  intros Hstep v acc. unfold reduce.
  destruct (entries v "reduce") as [es|e]; simpl; [|reflexivity].
  apply (foldM_append_acc (fun acc kv => step acc (snd kv) (fst kv))).
  intros acc' kv. apply Hstep.
Qed.

Lemma reduce_VList {A : Type}
  (step : A -> value -> segment -> result A) (acc : A) (l : list value) :
  reduce step acc (VList l)
  = foldM (fun acc kv => step acc (snd kv) (fst kv)) acc (indexedFrom 0 l).
Proof. reflexivity. Qed.

Section Reducers.

Context {rt : JsRuntime}.
Variable resolveFile : value -> result value.
Variable ABI_load : value -> value -> result ABI.

Lemma abiReferenceStep_append (errors : list ValidationError)
  (dataSource : value) (index : segment) :
  abiReferenceStep errors dataSource index
  = (r <- abiReferenceStep [] dataSource index ;; Ok (errors ++ r)).
Proof.
  unfold abiReferenceStep.
  destruct (map _ _) as [names|e]; simpl; [|reflexivity].
  destruct (includes _ _); simpl; [now rewrite app_nil_r | reflexivity].
Qed.

(** The inner reducer of the ABI file check never throws: it returns the
    accumulator, or the accumulator and one error. *)
Lemma abiFileStep_cases (dataSourceIndex : segment)
  (errors : list ValidationError) (abi : value) (abiIndex : segment) :
  abiFileStep resolveFile ABI_load dataSourceIndex errors abi abiIndex = Ok errors
  \/ exists e,
       abiFileStep resolveFile ABI_load dataSourceIndex errors abi abiIndex
       = Ok (errors ++
             [ {| path := [Key "dataSources"; dataSourceIndex; Key "mapping";
                           Key "abis"; abiIndex; Key "file"];
                  message := exnMessage e |} ]).
Proof.
  unfold abiFileStep, tryCatch.
  destruct (get abi "name") as [name|e]; simpl; [|eauto].
  destruct (get abi "file") as [file|e]; simpl; [|eauto].
  destruct (resolveFile file) as [resolved|e]; simpl; [|eauto].
  destruct (ABI_load name resolved) as [loaded|e]; simpl; eauto.
Qed.

Lemma abiFileStep_append (dataSourceIndex : segment)
  (errors : list ValidationError) (abi : value) (abiIndex : segment) :
  abiFileStep resolveFile ABI_load dataSourceIndex errors abi abiIndex
  = (r <- abiFileStep resolveFile ABI_load dataSourceIndex [] abi abiIndex ;;
     Ok (errors ++ r)).
Proof.
  unfold abiFileStep, tryCatch.
  destruct (get abi "name") as [name|e]; simpl; [|reflexivity].
  destruct (get abi "file") as [file|e]; simpl; [|reflexivity].
  destruct (resolveFile file) as [resolved|e]; simpl; [|reflexivity].
  destruct (ABI_load name resolved) as [loaded|e]; simpl;
    [now rewrite app_nil_r | reflexivity].
Qed.

Lemma abiFilesStep_append (errors : list ValidationError)
  (dataSource : value) (index : segment) :
  abiFilesStep resolveFile ABI_load errors dataSource index
  = (r <- abiFilesStep resolveFile ABI_load [] dataSource index ;;
     Ok (errors ++ r)).
Proof.
  unfold abiFilesStep. apply reduce_append_acc.
  intros acc abi j. apply abiFileStep_append.
Qed.

Lemma eventStep_appends (path : list segment) (abi : ABI)
  (errors : list ValidationError) (manifestEvent : value) (index : segment) :
  eventStep path abi errors manifestEvent index
  = Ok (errors ++ eventErrorsOf path abi manifestEvent index).
Proof.
  unfold eventStep, eventErrorsOf.
  destruct (includesEvent _ _); [now rewrite app_nil_r | reflexivity].
Qed.

Lemma eventStep_append (path : list segment) (abi : ABI)
  (errors : list ValidationError) (manifestEvent : value) (index : segment) :
  eventStep path abi errors manifestEvent index
  = (r <- eventStep path abi [] manifestEvent index ;; Ok (errors ++ r)).
Proof. now rewrite !eventStep_appends. Qed.

(** The reducer of the event check never throws. *)
Lemma eventsStep_total (errors : list ValidationError) (dataSource : value)
  (index : segment) :
  exists errors', eventsStep resolveFile ABI_load errors dataSource index = Ok errors'.
Proof.
  unfold eventsStep, tryCatch.
  destruct (eventsTryBlock _ _ _ _ _); eauto.
Qed.

Lemma eventsStep_append (errors : list ValidationError) (dataSource : value)
  (index : segment) :
  eventsStep resolveFile ABI_load errors dataSource index
  = (r <- eventsStep resolveFile ABI_load [] dataSource index ;; Ok (errors ++ r)).
Proof.
  unfold eventsStep, eventsTryBlock, tryCatch.
  destruct (find _ _) as [entry|e]; simpl; [|now rewrite app_nil_r].
  destruct (get entry "name") as [name|e]; simpl; [|now rewrite app_nil_r].
  destruct (get entry "file") as [file|e]; simpl; [|now rewrite app_nil_r].
  destruct (resolveFile file) as [resolved|e]; simpl; [|now rewrite app_nil_r].
  destruct (ABI_load name resolved) as [abi|e]; simpl; [|now rewrite app_nil_r].
  destruct (map _ _) as [events|e]; simpl; [|now rewrite app_nil_r].
  rewrite (reduce_append_acc _ (eventStep_append _ abi) events errors).
  destruct (reduce _ [] events) as [r|e]; simpl; [reflexivity|].
  now rewrite app_nil_r.
Qed.

End Reducers.

(** ** Order of the combined errors *)

Lemma inBlock_sorted (c k : nat) (l : list ValidationError) :
  Forall (inBlock c k) l -> StronglySorted categoryThenIndex l.
Proof.
  induction 1 as [|e l [Hc Hk] Hl IH]; constructor; [exact IH|].
  eapply Forall_impl; [|exact Hl].
  intros e' [Hc' Hk']. right. split; congruence || lia.
Qed.

(** A reducer that appends, for the data source at index [k], errors of
    check [c] that name [k], returns errors of check [c] in ascending
    order of data-source index. *)
Lemma block_sorted (c : nat)
  (step : list ValidationError -> value -> segment -> result (list ValidationError)) :
  (forall acc x k, step acc x k = (r <- step [] x k ;; Ok (acc ++ r))) ->
  (forall x k r, step [] x (Index k) = Ok r -> Forall (inBlock c k) r) ->
  forall l i r,
    foldM (fun acc kv => step acc (snd kv) (fst kv)) [] (indexedFrom i l) = Ok r ->
    StronglySorted categoryThenIndex r
    /\ Forall (fun e => categoryRank e = c /\ i <= dataSourceIndex e) r.
Proof.
  intros Happ Hblock l.
  induction l as [|x l IH]; simpl; intros i r H.
  - injection H as <-. split; constructor.
  - apply bind_Ok_inv in H as (acc & Hx & Hrest).
    rewrite Happ in Hx. apply bind_Ok_inv in Hx as (r0 & Hr0 & Hacc).
    injection Hacc as <-. simpl in Hrest.
    rewrite (foldM_append_acc (fun acc kv => step acc (snd kv) (fst kv))) in Hrest
      by (intros; apply Happ).
    apply bind_Ok_inv in Hrest as (r1 & Hr1 & Hr).
    injection Hr as <-.
    apply Hblock in Hr0. apply IH in Hr1 as [Hsorted Hall].
    split.
    + apply StronglySorted_app; [now apply inBlock_sorted with c i | exact Hsorted |].
      intros a b Ha Hb.
      rewrite Forall_forall in Hr0, Hall.
      destruct (Hr0 a Ha) as [Hca Hka]. destruct (Hall b Hb) as [Hcb Hkb].
      right. split; [congruence | lia].
    + apply Forall_app. split.
      * eapply Forall_impl; [|exact Hr0]. intros e [Hc Hk]. split; [exact Hc | lia].
      * eapply Forall_impl; [|exact Hall]. intros e [Hc Hk]. split; [exact Hc | lia].
Qed.

Section Order.

Context {rt : JsRuntime}.
Variable resolveFile : value -> result value.
Variable ABI_load : value -> value -> result ABI.

Lemma abiReferenceStep_block (dataSource : value) (k : nat)
  (r : list ValidationError) :
  abiReferenceStep [] dataSource (Index k) = Ok r -> Forall (inBlock 0 k) r.
Proof.
  unfold abiReferenceStep.
  destruct (map _ _) as [names|e]; simpl; [|discriminate].
  destruct (includes _ _); intros H; injection H as <-; repeat constructor.
Qed.

Lemma abiFilesStep_block (dataSource : value) (k : nat)
  (r : list ValidationError) :
  abiFilesStep resolveFile ABI_load [] dataSource (Index k) = Ok r ->
  Forall (inBlock 1 k) r.
Proof.
  unfold abiFilesStep, reduce. intros H.
  apply bind_Ok_inv in H as (es & _ & H).
  eapply foldM_Forall in H; [exact H | | constructor].
  intros acc [j abi] acc' Hstep Hacc. simpl in Hstep.
  destruct (abiFileStep_cases resolveFile ABI_load (Index k) acc abi j)
    as [Hsame|(e & Hone)].
  - rewrite Hsame in Hstep. now injection Hstep as <-.
  - rewrite Hone in Hstep. injection Hstep as <-.
    apply Forall_app. split; [exact Hacc|]. repeat constructor.
Qed.

Lemma addressStep_block (dataSource : value) (k : nat)
  (r : list ValidationError) :
  addressStep [] dataSource (Index k) = Ok r -> Forall (inBlock 2 k) r.
Proof.
  unfold addressStep.
  destruct (addressPattern _); intros H; injection H as <-; repeat constructor.
Qed.

Lemma eventsStep_block (dataSource : value) (k : nat)
  (r : list ValidationError) :
  eventsStep resolveFile ABI_load [] dataSource (Index k) = Ok r ->
  Forall (inBlock 3 k) r.
Proof.
  unfold eventsStep, tryCatch.
  destruct (eventsTryBlock _ _ _ _ _) as [r'|e] eqn:Htry;
    intros H; injection H as <-; [|constructor].
  unfold eventsTryBlock in Htry.
  repeat (apply bind_Ok_inv in Htry as (? & _ & Htry)).
  eapply foldM_Forall in Htry; [exact Htry | | constructor].
  intros acc [j event] acc' Hstep Hacc. simpl in Hstep.
  rewrite eventStep_appends in Hstep. injection Hstep as <-.
  apply Forall_app. split; [exact Hacc|].
  unfold eventErrorsOf. destruct (includesEvent _ _); repeat constructor.
Qed.

(** Each pass over a list of data sources returns errors of its own check,
    in ascending order of data-source index. *)
Lemma pass_sorted (c : nat)
  (step : list ValidationError -> value -> segment -> result (list ValidationError))
  (manifest : value) (dataSources : list value) (r : list ValidationError) :
  (forall acc x k, step acc x k = (r <- step [] x k ;; Ok (acc ++ r))) ->
  (forall x k r, step [] x (Index k) = Ok r -> Forall (inBlock c k) r) ->
  get manifest "dataSources" = Ok (VList dataSources) ->
  (eligible <- ethereumContracts manifest ;; reduce step [] eligible) = Ok r ->
  StronglySorted categoryThenIndex r /\ Forall (fun e => categoryRank e = c) r.
Proof.
  intros Happ Hblock Hget H.
  unfold ethereumContracts in H. rewrite Hget in H. simpl in H.
  destruct (filterM isEthereumContract dataSources) as [eligible|e];
    simpl in H; [|discriminate].
  rewrite reduce_VList in H.
  apply (@block_sorted c step Happ Hblock) in H as [Hsorted Hall].
  split; [exact Hsorted|].
  eapply Forall_impl; [|exact Hall]. now intros e [Hc _].
Qed.

End Order.

Section CombinedOrder.

Context {rt : JsRuntime}.
Variable resolveFile : value -> result value.
Variable ABI_load : value -> value -> result ABI.

(** C2, as the code has it: when the validation returns, the combined
    sequence is the errors of the ABI reference check, then those of the
    ABI file check, then the address errors, then the event errors; each
    part is what its check returns on the manifest by itself.  The
    sequence is thus ordered by check category first and by data-source
    index second. *)
Theorem crossValidate_order (manifest : value) (dataSources : list value)
  (errors : list ValidationError) :
  get manifest "dataSources" = Ok (VList dataSources) ->
  crossValidate resolveFile ABI_load manifest = Ok errors ->
  exists references files addresses events,
    abiReferenceErrors manifest = Ok references
    /\ abiFileErrors resolveFile ABI_load manifest = Ok files
    /\ validateContractAddresses manifest = Ok addresses
    /\ validateEvents resolveFile ABI_load manifest = Ok events
    /\ errors = references ++ files ++ addresses ++ events
    /\ Forall (fun e => categoryRank e = 0) references
    /\ Forall (fun e => categoryRank e = 1) files
    /\ Forall (fun e => categoryRank e = 2) addresses
    /\ Forall (fun e => categoryRank e = 3) events
    /\ StronglySorted categoryThenIndex errors.
Proof.
  intros Hget H.
  unfold crossValidate, validateAbis in H.
  apply bind_Ok_inv in H as (abis & Habis & H).
  apply bind_Ok_inv in Habis as (references & Href & Habis).
  apply bind_Ok_inv in Habis as (files & Hfile & Habis).
  injection Habis as <-.
  apply bind_Ok_inv in H as (addresses & Haddr & H).
  apply bind_Ok_inv in H as (events & Hev & H).
  injection H as <-.
  exists references, files, addresses, events.
  destruct (pass_sorted (c := 0) abiReferenceStep manifest
              abiReferenceStep_append abiReferenceStep_block Hget Href)
    as [Hs0 Hc0].
  destruct (pass_sorted (c := 1) (abiFilesStep resolveFile ABI_load) manifest
              (abiFilesStep_append resolveFile ABI_load)
              (abiFilesStep_block resolveFile ABI_load) Hget Hfile)
    as [Hs1 Hc1].
  assert (Haddr_append : forall acc x k,
             addressStep acc x k = (r <- addressStep [] x k ;; Ok (acc ++ r)))
    by (intros; now rewrite !addressStep_appends).
  destruct (pass_sorted (c := 2) addressStep manifest
              Haddr_append addressStep_block Hget Haddr)
    as [Hs2 Hc2].
  destruct (pass_sorted (c := 3) (eventsStep resolveFile ABI_load) manifest
              (eventsStep_append resolveFile ABI_load)
              (eventsStep_block resolveFile ABI_load) Hget Hev)
    as [Hs3 Hc3].
  repeat split; auto.
  - now rewrite <- app_assoc.
  - rewrite Forall_forall in Hc0, Hc1, Hc2, Hc3.
    repeat apply StronglySorted_app; auto;
      intros a b Ha Hb; left;
      repeat match goal with
        | H : In _ (_ ++ _) |- _ => apply in_app_or in H as [H|H]
        end;
      repeat match goal with
        | Hc : forall x, In x ?l -> _, H : In ?a ?l |- _ =>
            apply Hc in H
        end; lia.
Qed.

End CombinedOrder.

Lemma crossValidate_order_example :
  @crossValidate exampleRuntime exampleResolveFile exampleLoad twoFaultyDataSources
  = Ok twoFaultyErrors
  /\ StronglySorted categoryThenIndex twoFaultyErrors.
Proof.
  assert (Hget : get twoFaultyDataSources "dataSources"
                 = Ok (VList
                         [ exampleDataSource "ethereum/contract" "Missing" "0x12345"
                             [("Token", "Token.json")] [];
                           exampleDataSource "ethereum/contract" "Absent" "xyz"
                             [("Token", "Token.json")] [] ]))
    by reflexivity.
  assert (Hrun : @crossValidate exampleRuntime exampleResolveFile exampleLoad
                   twoFaultyDataSources = Ok twoFaultyErrors)
    by reflexivity.
  split; [exact Hrun|].
  destruct (@crossValidate_order exampleRuntime exampleResolveFile exampleLoad
              twoFaultyDataSources _ twoFaultyErrors Hget Hrun)
    as (references & files & addresses & events & H).
  apply H.
Defined.

(** C2 as stated fails: the address error of the first data source comes
    after the ABI reference error of the second, so the combined sequence
    is not ordered by data-source index first. *)
Lemma crossValidate_not_index_first :
  @crossValidate exampleRuntime exampleResolveFile exampleLoad twoFaultyDataSources
  = Ok twoFaultyErrors
  /\ ~ StronglySorted indexThenCategory twoFaultyErrors.
Proof.
  split; [reflexivity|].
  intros Hsorted.
  apply StronglySorted_inv in Hsorted as [Hsorted _].
  apply StronglySorted_inv in Hsorted as [_ Hall].
  apply Forall_inv in Hall.
  destruct Hall as [Hlt|[Heq _]]; cbv [dataSourceIndex path] in *;
    [lia | discriminate].
Qed.

(** ** Which data sources are checked *)

Lemma isEthereumContract_pure (dataSource : value) :
  isCollection dataSource = true ->
  isEthereumContract dataSource = Ok (kindIsEthereumContract dataSource).
Proof.
  unfold isEthereumContract, kindIsEthereumContract.
  destruct dataSource; simpl; intros H; try discriminate; reflexivity.
Qed.

Lemma kindIsEthereumContract_kind (dataSource : value) :
  kindIsEthereumContract dataSource = true <->
  get dataSource "kind" = Ok (VStr "ethereum/contract").
Proof.
  unfold kindIsEthereumContract.
  destruct (get dataSource "kind") as [kind|e]; split; intros H; try discriminate.
  - destruct kind; simpl in H; try discriminate.
    apply String.eqb_eq in H. now subst.
  - injection H as ->. reflexivity.
Qed.

Lemma kindIsEthereumContract_collection (dataSource : value) :
  kindIsEthereumContract dataSource = true -> isCollection dataSource = true.
Proof.
  unfold kindIsEthereumContract. destruct dataSource; simpl; congruence.
Qed.

Lemma filter_idempotent {A : Type} (f : A -> bool) (l : list A) :
  List.filter f (List.filter f l) = List.filter f l.
Proof.
  induction l as [|x l IH]; simpl; [reflexivity|].
  destruct (f x) eqn:E; simpl; [|exact IH].
  now rewrite E, IH.
Qed.

(** On a list of collections, the filter keeps the data sources whose kind
    is ['ethereum/contract']. *)
Lemma ethereumContracts_filter (manifest : value) (dataSources : list value) :
  get manifest "dataSources" = Ok (VList dataSources) ->
  forallb isCollection dataSources = true ->
  ethereumContracts manifest
  = Ok (VList (List.filter kindIsEthereumContract dataSources)).
Proof.
  intros Hget Hall. unfold ethereumContracts. rewrite Hget. simpl.
  rewrite (filterM_pure isEthereumContract kindIsEthereumContract); [reflexivity|].
  rewrite forallb_forall in Hall. apply Forall_forall.
  intros x Hx. apply isEthereumContract_pure. now apply Hall.
Qed.

Section Eligibility.

Context {rt : JsRuntime}.
Variable resolveFile : value -> result value.
Variable ABI_load : value -> value -> result ABI.

(** The validators read the manifest only through the filtered list. *)
Lemma crossValidate_ethereumContracts (manifest manifest' : value) :
  ethereumContracts manifest = ethereumContracts manifest' ->
  crossValidate resolveFile ABI_load manifest
  = crossValidate resolveFile ABI_load manifest'.
Proof.
  intros H.
  unfold crossValidate, validateAbis, abiReferenceErrors, abiFileErrors,
    validateContractAddresses, validateEvents.
  now rewrite H.
Qed.

End Eligibility.

(** C1 as stated fails: ['ethereum'] is an accepted kind of the protocol
    that has ABIs, contracts and events, yet a data source of that kind
    with a wrong ABI reference and a bad address gets no error, while the
    same data source with kind ['ethereum/contract'] gets two.  Likewise
    ['near'] has contracts and its address is not checked. *)
Lemma ethereum_alias_is_not_checked :
  Protocol.isValidKindName (Protocol.new (VStr "ethereum/contract")) (VStr "ethereum")
  = true
  /\ Protocol.hasABIs (Protocol.new (VStr "ethereum")) = Some true
  /\ Protocol.hasContract (Protocol.new (VStr "ethereum")) = Some true
  /\ Protocol.hasEvents (Protocol.new (VStr "ethereum")) = Some true
  /\ @crossValidate exampleRuntime exampleResolveFile exampleLoad
       (manifestOf [ exampleDataSource "ethereum" "Missing" "0x12345"
                       [("Token", "Token.json")] [] ])
     = Ok []
  /\ @crossValidate exampleRuntime exampleResolveFile exampleLoad
       (manifestOf [ exampleDataSource "ethereum/contract" "Missing" "0x12345"
                       [("Token", "Token.json")] [] ])
     = Ok [ {| path := [Key "dataSources"; Index 0; Key "source"; Key "abi"];
               message := @abiReferenceMessage exampleRuntime (VStr "Missing")
                            [VStr "Token"] |};
            {| path := [Key "dataSources"; Index 0; Key "source"; Key "address"];
               message := @addressMessage exampleRuntime (VStr "0x12345") |} ]
  /\ Protocol.hasContract (Protocol.new (VStr "near")) = Some true
  /\ @validateContractAddresses exampleRuntime
       (manifestOf [ exampleDataSource "near" "Missing" "not an address" [] [] ])
     = Ok [].
Proof. repeat split. Qed.

(** ** The event check *)


Section EventCheck.

Context {rt : JsRuntime}.
Variable resolveFile : value -> result value.
Variable ABI_load : value -> value -> result ABI.


(** The event errors of the whole manifest are those of its eligible data
    sources, in order. *)
Lemma validateEvents_concat (manifest : value) (eligible : list value) :
  ethereumContracts manifest = Ok (VList eligible) ->
  validateEvents resolveFile ABI_load manifest
  = Ok (List.concat
          (List.map (fun entry =>
                       eventErrorsOfDataSource resolveFile ABI_load
                         (snd entry) (fst entry))
                    (indexedFrom 0 eligible))).
Proof.
  intros Heligible. unfold validateEvents. rewrite Heligible.
  unfold bind. rewrite reduce_VList.
  rewrite (foldM_pure_concat
             (fun acc entry => eventsStep resolveFile ABI_load acc (snd entry) (fst entry))
             (fun entry => eventErrorsOfDataSource resolveFile ABI_load
                             (snd entry) (fst entry)));
    [reflexivity|].
  intros acc entry. rewrite eventsStep_append.
  unfold eventErrorsOfDataSource.
  destruct (eventsStep_total resolveFile ABI_load [] (snd entry) (fst entry))
    as [r ->].
  reflexivity.
Qed.

End EventCheck.

(** ** The ABI checks *)

Section AbiChecks.

Context {rt : JsRuntime}.
Variable resolveFile : value -> result value.
Variable ABI_load : value -> value -> result ABI.

(** For a data source whose declared ABIs are collections, the ABI
    reference check appends nothing when [source.abi] is among the declared
    names and exactly one error otherwise. *)
Lemma abiReferenceStep_spec (errors : list ValidationError)
  (dataSource : value) (index : segment) (abiNames : value) :
  map (fun abi => get abi "name") (getIn dataSource ["mapping"; "abis"])
  = Ok abiNames ->
  let abiName := getIn dataSource ["source"; "abi"] in
  (includes (values abiNames) abiName = true ->
   abiReferenceStep errors dataSource index = Ok errors)
  /\ (includes (values abiNames) abiName = false ->
      abiReferenceStep errors dataSource index
      = Ok (errors ++
            [ {| path := [Key "dataSources"; index; Key "source"; Key "abi"];
                 message := abiReferenceMessage abiName (values abiNames) |} ])).
Proof.
  intros Hmap abiName. unfold abiReferenceStep. rewrite Hmap. cbn [bind].
  fold abiName. split; intros ->; reflexivity.
Qed.

(** The message lists the declared names in ascending order. *)
Lemma abiReferenceMessage_strings (abiName : string) (abiNames : list string) :
  abiReferenceMessage (VStr abiName) (List.map VStr abiNames)
  = ("ABI name '" ++ abiName ++ "' not found in mapping > abis." ++ nl
     ++ "  Available ABIs:" ++ nl
     ++ "  "
     ++ join (nl ++ "  ")
          (List.map (fun name => "- " ++ name) (sortStrings abiNames)))%string.
Proof.
  unfold abiReferenceMessage.
  rewrite toStr_VStr, sortValues_strings, List.map_map.
  rewrite (List.map_ext (fun name => "- " ++ toStr (VStr name))%string
                        (fun name => "- " ++ name)%string);
    [reflexivity|].
  intros name. now rewrite toStr_VStr.
Qed.

(** The ABI file check of one declared ABI: nothing is appended when the
    ABI loads; when the loader throws, its message is reported as it is.
    No exception leaves the reducer. *)
Lemma abiFileStep_spec (dataSourceIndex : segment)
  (errors : list ValidationError) (abi : value) (abiIndex : segment)
  (name file resolved : value) :
  get abi "name" = Ok name ->
  get abi "file" = Ok file ->
  resolveFile file = Ok resolved ->
  (forall loaded,
     ABI_load name resolved = Ok loaded ->
     abiFileStep resolveFile ABI_load dataSourceIndex errors abi abiIndex
     = Ok errors)
  /\ (forall msg,
        ABI_load name resolved = Throw (Error msg) ->
        abiFileStep resolveFile ABI_load dataSourceIndex errors abi abiIndex
        = Ok (errors ++
              [ {| path := [Key "dataSources"; dataSourceIndex; Key "mapping";
                            Key "abis"; abiIndex; Key "file"];
                   message := msg |} ])).
Proof.
  intros Hname Hfile Hresolve. unfold abiFileStep.
  rewrite Hname. cbn [bind]. rewrite Hfile. cbn [bind].
  rewrite Hresolve. cbn [bind].
  split; [intros loaded Hload | intros msg Hload]; now rewrite Hload.
Qed.

(** The index the reducers receive is the position in the filtered list. *)
Lemma abiReferenceErrors_filtered (manifest : value) (dataSources : list value) :
  get manifest "dataSources" = Ok (VList dataSources) ->
  forallb isCollection dataSources = true ->
  abiReferenceErrors manifest
  = (rs <- mapM (fun entry => abiReferenceStep [] (snd entry) (fst entry))
             (indexedFrom 0 (List.filter kindIsEthereumContract dataSources)) ;;
     Ok (List.concat rs)).
Proof.
  intros Hget Hall. unfold abiReferenceErrors.
  rewrite (ethereumContracts_filter _ Hget Hall). cbn [bind].
  rewrite reduce_VList.
  apply (foldM_concat (fun acc entry => abiReferenceStep acc (snd entry) (fst entry))).
  intros acc entry. apply abiReferenceStep_append.
Qed.

Lemma abiFileErrors_filtered (manifest : value) (dataSources : list value) :
  get manifest "dataSources" = Ok (VList dataSources) ->
  forallb isCollection dataSources = true ->
  abiFileErrors resolveFile ABI_load manifest
  = (rs <- mapM (fun entry =>
                   abiFilesStep resolveFile ABI_load [] (snd entry) (fst entry))
             (indexedFrom 0 (List.filter kindIsEthereumContract dataSources)) ;;
     Ok (List.concat rs)).
Proof.
  intros Hget Hall. unfold abiFileErrors.
  rewrite (ethereumContracts_filter _ Hget Hall). cbn [bind].
  rewrite reduce_VList.
  apply (foldM_concat
           (fun acc entry =>
              abiFilesStep resolveFile ABI_load acc (snd entry) (fst entry))).
  intros acc entry. apply abiFilesStep_append.
Qed.

End AbiChecks.

(** C4 fails on the code: the index in the path is the position of the
    data source among the ['ethereum/contract'] data sources, not its
    position in the manifest.  Here the data source with the wrong ABI
    reference is [dataSources/1] and the error is located at
    [dataSources/0/source/abi], the path of the ['near'] data source. *)
Theorem abi_reference_error_path_after_filter {rt : JsRuntime} :
  get mixedManifest "dataSources"
  = Ok (VList [ exampleDataSource "near" "Token" "alice.near" [] [];
                faultySecondDataSource ])
  /\ getIn faultySecondDataSource ["source"; "abi"] = VStr "Missing"
  /\ getIn faultySecondDataSource ["mapping"; "abis"]
     = VList [abiEntry "Token" "Missing.json"]
  /\ abiReferenceErrors mixedManifest
     = Ok [ {| path := [Key "dataSources"; Index 0; Key "source"; Key "abi"];
               message := abiReferenceMessage (VStr "Missing") [VStr "Token"] |} ].
Proof. repeat split. Qed.

(** C7 fails on the code, by the same index: the ABI whose file cannot be
    loaded is [dataSources/1/mapping/abis/0] and the error is located at
    [dataSources/0/mapping/abis/0/file].  The loader's message is kept as
    it is. *)
Theorem abi_file_error_path_after_filter :
  get mixedManifest "dataSources"
  = Ok (VList [ exampleDataSource "near" "Token" "alice.near" [] [];
                faultySecondDataSource ])
  /\ getIn faultySecondDataSource ["mapping"; "abis"]
     = VList [abiEntry "Token" "Missing.json"]
  /\ exampleLoad (VStr "Token") (VStr "/subgraph/Missing.json")
     = Throw (Error "ENOENT: no such file or directory, open '/subgraph/Missing.json'")
  /\ @abiFileErrors exampleRuntime exampleResolveFile exampleLoad mixedManifest
     = Ok [ {| path := [Key "dataSources"; Index 0; Key "mapping"; Key "abis";
                        Index 0; Key "file"];
               message :=
                 "ENOENT: no such file or directory, open '/subgraph/Missing.json'" |} ].
Proof. repeat split. Qed.

(** ** When the validation returns *)

Lemma foldM_total {A B : Type} (step : A -> B -> result A) (l : list B) :
  (forall acc x, In x l -> exists acc', step acc x = Ok acc') ->
  forall acc, exists r, foldM step acc l = Ok r.
Proof.
  induction l as [|x l IH]; simpl; intros Hstep acc; [eauto|].
  destruct (Hstep acc x (or_introl eq_refl)) as [acc' ->]. simpl.
  apply IH. intros acc0 y Hy. apply Hstep. now right.
Qed.

Lemma mapM_total {A B : Type} (f : A -> result B) (l : list A) :
  (forall x, In x l -> exists y, f x = Ok y) ->
  exists ys, mapM f l = Ok ys.
Proof.
  induction l as [|x l IH]; simpl; intros Hf; [eauto|].
  destruct (Hf x (or_introl eq_refl)) as [y ->]. simpl.
  destruct IH as [ys ->]; [intros z Hz; apply Hf; now right|].
  simpl. eauto.
Qed.

Lemma indexedFrom_In {A : Type} (l : list A) (i : nat) (k : segment) (x : A) :
  In (k, x) (indexedFrom i l) -> In x l.
Proof.
  revert i. induction l as [|y l IH]; simpl; intros i H; [exact H|].
  destruct H as [H|H]; [injection H as _ ->; now left | right; eauto].
Qed.

Section Returns.

Context {rt : JsRuntime}.
Variable resolveFile : value -> result value.
Variable ABI_load : value -> value -> result ABI.

Lemma abiReferenceStep_total (errors : list ValidationError)
  (dataSource : value) (index : segment) :
  declaresAbis dataSource ->
  exists errors', abiReferenceStep errors dataSource index = Ok errors'.
Proof.
  intros (abis & Habis & Hall). unfold abiReferenceStep. rewrite Habis.
  unfold map.
  destruct (mapM_total (fun abi => get abi "name") abis) as [names ->].
  - rewrite forallb_forall in Hall. intros abi Habi.
    specialize (Hall abi Habi). destruct abi; try discriminate; simpl; eauto.
  - simpl. destruct (includes _ _); eauto.
Qed.

Lemma abiFilesStep_total (errors : list ValidationError)
  (dataSource : value) (index : segment) :
  declaresAbis dataSource ->
  exists errors',
    abiFilesStep resolveFile ABI_load errors dataSource index = Ok errors'.
Proof.
  intros (abis & Habis & _). unfold abiFilesStep. rewrite Habis.
  rewrite reduce_VList. apply foldM_total.
  intros acc [j abi] _. simpl.
  destruct (abiFileStep_cases resolveFile ABI_load index acc abi j)
    as [->|(e & ->)]; eauto.
Qed.

(** When the data sources form a list and every ['ethereum/contract'] data
    source declares its ABIs as a list of collections, no validator throws:
    the combined validation returns an error list. *)
Lemma crossValidate_returns (manifest : value) (eligible : list value) :
  ethereumContracts manifest = Ok (VList eligible) ->
  Forall declaresAbis eligible ->
  exists errors, crossValidate resolveFile ABI_load manifest = Ok errors.
Proof.
  intros Heligible Hall. rewrite Forall_forall in Hall.
  unfold crossValidate, validateAbis, abiReferenceErrors, abiFileErrors,
    validateContractAddresses, validateEvents.
  rewrite Heligible. cbn [bind]. rewrite !reduce_VList.
  destruct (foldM_total
              (fun acc kv => abiReferenceStep acc (snd kv) (fst kv))
              (indexedFrom 0 eligible)) with (acc := @nil ValidationError)
    as [references ->].
  { intros acc [k x] Hin. apply abiReferenceStep_total.
    apply Hall. eapply indexedFrom_In; eauto. }
  cbn [bind].
  destruct (foldM_total
              (fun acc kv => abiFilesStep resolveFile ABI_load acc (snd kv) (fst kv))
              (indexedFrom 0 eligible)) with (acc := @nil ValidationError)
    as [files ->].
  { intros acc [k x] Hin. apply abiFilesStep_total.
    apply Hall. eapply indexedFrom_In; eauto. }
  cbn [bind].
  destruct (foldM_total
              (fun acc kv => addressStep acc (snd kv) (fst kv))
              (indexedFrom 0 eligible)) with (acc := @nil ValidationError)
    as [addresses ->].
  { intros acc [k x] _. rewrite addressStep_appends. eauto. }
  cbn [bind].
  destruct (foldM_total
              (fun acc kv => eventsStep resolveFile ABI_load acc (snd kv) (fst kv))
              (indexedFrom 0 eligible)) with (acc := @nil ValidationError)
    as [events ->].
  { intros acc [k x] _. apply eventsStep_total. }
  cbn [bind]. eauto.
Qed.

End Returns.

(** * Further properties *)

(** ** The combined report *)

Lemma string_append_assoc (a b c : string) :
  ((a ++ b) ++ c)%string = (a ++ (b ++ c))%string.
Proof.
  induction a as [|x a IH]; simpl; [reflexivity|]. now rewrite IH.
Qed.

Lemma combinedStep_block (msg : string) (e : ValidationError) :
  combinedStep msg e = (msg ++ errorBlock e)%string.
Proof. reflexivity. Qed.

Lemma fold_combinedStep (errors : list ValidationError) (msg : string) :
  fold_left combinedStep errors msg
  = (msg ++ concatStrings (List.map errorBlock errors))%string.
Proof.
  revert msg. induction errors as [|e errors IH]; intros msg; simpl.
  - induction msg as [|c msg IHm]; simpl; [reflexivity|]. now rewrite <- IHm.
  - rewrite IH, combinedStep_block. apply string_append_assoc.
Qed.

(** X1: [throwCombinedError] always throws; its message is the header
    [Error in <filename>:] followed by one block per error, in the order of
    the errors, and the report of a longer list extends the report of a
    shorter one.  An error with an empty path is shown with the path [/]. *)
Theorem throwCombinedError_report (A : Type) (filename : string)
  (errors more : list ValidationError) :
  @throwCombinedError A filename errors
  = Throw (Error ("Error in " ++ filename ++ ":"
                  ++ concatStrings (List.map errorBlock errors))%string)
  /\ combinedMessage filename (errors ++ more)
     = (combinedMessage filename errors
        ++ concatStrings (List.map errorBlock more))%string
  /\ (forall msg,
        errorBlock {| path := []; message := msg |}
        = (nl ++ nl ++ "  Path: /" ++ nl ++ "  " ++ msg)%string).
Proof.
  split; [|split].
  - unfold throwCombinedError, combinedMessage.
    rewrite fold_combinedStep. now rewrite !string_append_assoc.
  - unfold combinedMessage. rewrite fold_left_app. apply fold_combinedStep.
  - reflexivity.
Qed.

(** ** Loading a manifest *)

Lemma mapM_In {A B : Type} (f : A -> result B) (l : list A) (rs : list B)
  (x : A) :
  mapM f l = Ok rs -> In x l -> exists r, f x = Ok r /\ In r rs.
Proof.
  revert rs. induction l as [|y l IH]; simpl; intros rs H Hin; [tauto|].
  apply bind_Ok_inv in H as (r & Hr & H).
  apply bind_Ok_inv in H as (rs' & Hrs & H). injection H as <-.
  destruct Hin as [->|Hin].
  - exists r. simpl. auto.
  - destruct (IH rs' Hrs Hin) as (r' & Hr' & Hin'). exists r'. simpl. auto.
Qed.

Lemma In_indexedFrom {A : Type} (l : list A) (i : nat) (x : A) :
  In x l -> exists k, In (Index k, x) (indexedFrom i l).
Proof.
  revert i. induction l as [|y l IH]; simpl; intros i H; [tauto|].
  destruct H as [->|H]; [eauto|].
  destruct (IH (S i) H) as [k Hk]. eauto.
Qed.

Lemma filterM_isEthereumContract_collections (dataSources kept : list value) :
  filterM isEthereumContract dataSources = Ok kept ->
  forallb isCollection dataSources = true.
Proof.
  revert kept. induction dataSources as [|x l IH]; simpl; intros kept H;
    [reflexivity|].
  apply bind_Ok_inv in H as (b & Hb & H).
  apply bind_Ok_inv in H as (r & Hr & _).
  rewrite (IH r Hr), andb_true_r.
  destruct x; try reflexivity; discriminate.
Qed.

Lemma entries_values (v : value) (es : list (segment * value)) (x : value) :
  entries v "reduce" = Ok es -> In x (values v) -> exists k, In (k, x) es.
Proof.
  destruct v; simpl; intros H Hin; try discriminate; injection H as <-.
  - destruct (In_indexedFrom l 0 x Hin) as [k Hk]. eauto.
  - apply in_map_iff in Hin as ([k y] & <- & Hin).
    exists (Key k). apply in_map_iff. exists (k, y). auto.
Qed.

Section LoadProperties.

Context {rt : JsRuntime}.
Variable readManifest : string -> result value.
Variable pathResolve : string -> value -> result value.
Variable validate :
  value -> (value -> result value) -> result (list ValidationError).
Variable validateSchemaFile : value -> result (list ValidationError).
Variable ABI_load : value -> value -> result ABI.

Local Abbreviation loadManifest :=
  (load readManifest pathResolve validate validateSchemaFile ABI_load).

Lemma size_positive {A : Type} (l : list A) :
  (0 <? List.length l)%nat = false <-> l = [].
Proof. destruct l; split; intros H; try reflexivity; discriminate. Qed.

Lemma load_Ok_inv (filename : string) (manifest : value) :
  loadManifest filename = Ok manifest ->
  readManifest filename = Ok manifest
  /\ validate manifest (pathResolve filename) = Ok []
  /\ validateSchema validateSchemaFile (pathResolve filename) manifest = Ok tt
  /\ crossValidate (pathResolve filename) ABI_load manifest = Ok [].
Proof.
  unfold load. intros H.
  apply bind_Ok_inv in H as (data & Hread & H).
  apply bind_Ok_inv in H as (manifestErrors & Hvalidate & H).
  apply bind_Ok_inv in H as ([] & Hnone & H).
  apply bind_Ok_inv in H as ([] & Hschema & H).
  apply bind_Ok_inv in H as (errors & Hcross & H).
  apply bind_Ok_inv in H as ([] & Hclean & H).
  injection H as ->.
  destruct (0 <? List.length manifestErrors)%nat eqn:E1; [discriminate|].
  destruct (0 <? List.length errors)%nat eqn:E2; [discriminate|].
  apply size_positive in E1, E2. subst. auto.
Qed.

(** X2: [load] returns exactly when the document can be read, the schema
    validation, the validation of the schema file and the cross validation
    all return no error; what it returns is the document as read. *)
Theorem load_returns_iff (filename : string) (manifest : value) :
  loadManifest filename = Ok manifest <->
  readManifest filename = Ok manifest
  /\ validate manifest (pathResolve filename) = Ok []
  /\ validateSchema validateSchemaFile (pathResolve filename) manifest = Ok tt
  /\ crossValidate (pathResolve filename) ABI_load manifest = Ok [].
Proof.
  split.
  - apply load_Ok_inv.
  - intros (Hread & Hvalidate & Hschema & Hcross). unfold load.
    rewrite Hread. cbn [bind]. rewrite Hvalidate. cbn [bind List.length Nat.ltb Nat.leb].
    rewrite Hschema. cbn [bind]. rewrite Hcross. reflexivity.
Qed.

(** X3: the errors of the schema validation are reported first: when there
    are some, [load] throws their combined report and the later validations
    play no part.  When there are none and the schema file is accepted,
    the errors of the cross validation are reported in the same way. *)
Theorem load_reports (filename : string) (data : value)
  (e : ValidationError) (es : list ValidationError) :
  readManifest filename = Ok data ->
  (validate data (pathResolve filename) = Ok (e :: es) ->
   loadManifest filename = Throw (Error (combinedMessage filename (e :: es))))
  /\ (validate data (pathResolve filename) = Ok [] ->
      validateSchema validateSchemaFile (pathResolve filename) data = Ok tt ->
      crossValidate (pathResolve filename) ABI_load data = Ok (e :: es) ->
      loadManifest filename = Throw (Error (combinedMessage filename (e :: es)))).
Proof.
  intros Hread. unfold load. rewrite Hread. cbn [bind]. split.
  - intros ->. reflexivity.
  - intros -> Hschema Hcross. cbn [bind List.length Nat.ltb Nat.leb].
    rewrite Hschema. cbn [bind]. rewrite Hcross. reflexivity.
Qed.

Lemma crossValidate_nil_inv (resolveFile : value -> result value)
  (manifest : value) :
  crossValidate resolveFile ABI_load manifest = Ok [] ->
  abiReferenceErrors manifest = Ok []
  /\ abiFileErrors resolveFile ABI_load manifest = Ok []
  /\ validateContractAddresses manifest = Ok []
  /\ validateEvents resolveFile ABI_load manifest = Ok [].
Proof.
  unfold crossValidate, validateAbis. intros H.
  apply bind_Ok_inv in H as (abis & Habis & H).
  apply bind_Ok_inv in Habis as (references & Href & Habis).
  apply bind_Ok_inv in Habis as (files & Hfile & Habis).
  injection Habis as <-.
  apply bind_Ok_inv in H as (addresses & Haddr & H).
  apply bind_Ok_inv in H as (events & Hev & H).
  injection H as H.
  apply app_eq_nil in H as [H1 H2].
  apply app_eq_nil in H1 as [-> ->]. apply app_eq_nil in H2 as [-> ->].
  auto.
Qed.

Lemma abiFileStep_nil_inv (resolveFile : value -> result value)
  (index : segment) (abi : value) (abiIndex : segment) :
  abiFileStep resolveFile ABI_load index [] abi abiIndex = Ok [] ->
  exists name file resolved loaded,
    get abi "name" = Ok name
    /\ get abi "file" = Ok file
    /\ resolveFile file = Ok resolved
    /\ ABI_load name resolved = Ok loaded.
Proof.
  unfold abiFileStep, tryCatch.
  destruct (get abi "name") as [name|e] eqn:E1; simpl; [|discriminate].
  destruct (get abi "file") as [file|e] eqn:E2; simpl; [|discriminate].
  destruct (resolveFile file) as [resolved|e] eqn:E3; simpl; [|discriminate].
  destruct (ABI_load name resolved) as [loaded|e] eqn:E4; simpl; [|discriminate].
  intros _. exists name, file, resolved, loaded. auto.
Qed.

Lemma entries_In_values (v : value) (es : list (segment * value))
  (k : segment) (x : value) :
  entries v "reduce" = Ok es -> In (k, x) es -> In x (values v).
Proof.
  destruct v; simpl; intros H Hin; try discriminate; injection H as <-.
  - eapply indexedFrom_In; eauto.
  - apply in_map_iff in Hin as ([k' y] & Heq & Hin). injection Heq as _ <-.
    apply in_map_iff. exists (k', y). auto.
Qed.

Lemma map_entries (f : value -> result value) (v w : value) :
  map f v = Ok w -> exists es, entries w "reduce" = Ok es.
Proof.
  destruct v; simpl; intros H; try discriminate;
    apply bind_Ok_inv in H as (l' & _ & H); injection H as <-; simpl; eauto.
Qed.

(** The event check of a data source whose referenced ABI loads and whose
    event handlers can be read. *)
Lemma eventsStep_loaded (resolveFile : value -> result value)
  (errors : list ValidationError) (dataSource : value) (index : segment)
  (entry name file resolved manifestEvents : value) (abi : ABI)
  (events : list (segment * value)) :
  find (fun abi => name <- get abi "name" ;;
                   Ok (strictEq name (getIn dataSource ["source"; "abi"])))
       (getIn dataSource ["mapping"; "abis"]) = Ok entry ->
  get entry "name" = Ok name ->
  get entry "file" = Ok file ->
  resolveFile file = Ok resolved ->
  ABI_load name resolved = Ok abi ->
  map (fun handler => get handler "event")
      (getIn dataSource ["mapping"; "eventHandlers"]) = Ok manifestEvents ->
  entries manifestEvents "reduce" = Ok events ->
  eventsStep resolveFile ABI_load errors dataSource index
  = Ok (errors ++
        List.concat
          (List.map
             (fun event =>
                eventErrorsOf [Key "dataSources"; index; Key "eventHandlers"]
                  abi (snd event) (fst event))
             events)).
Proof.
  intros Hfind Hname Hfile Hresolve Hload Hmap Hentries.
  unfold eventsStep, eventsTryBlock.
  rewrite Hfind. cbn [bind]. rewrite Hname. cbn [bind].
  rewrite Hfile. cbn [bind]. rewrite Hresolve. cbn [bind].
  rewrite Hload. cbn [bind]. rewrite Hmap. cbn [bind].
  unfold reduce. rewrite Hentries. cbn [bind].
  rewrite (foldM_pure_concat
             (fun acc event =>
                eventStep [Key "dataSources"; index; Key "eventHandlers"]
                  abi acc (snd event) (fst event))
             (fun event =>
                eventErrorsOf [Key "dataSources"; index; Key "eventHandlers"]
                  abi (snd event) (fst event)));
    [reflexivity|].
  intros acc event. apply eventStep_appends.
Qed.

Lemma foldM_unchanged {A B : Type} (step : A -> B -> result A) (l : list B)
  (acc : A) :
  (forall x, In x l -> step acc x = Ok acc) -> foldM step acc l = Ok acc.
Proof.
  induction l as [|x l IH]; simpl; intros H; [reflexivity|].
  rewrite (H x (or_introl eq_refl)). simpl. apply IH. auto.
Qed.

(** The four reducers on a data source with nothing to report. *)
Lemma dataSourceValid_steps (resolveFile : value -> result value)
  (dataSource : value) (index : segment) (errors : list ValidationError) :
  dataSourceValid resolveFile ABI_load dataSource ->
  abiReferenceStep errors dataSource index = Ok errors
  /\ abiFilesStep resolveFile ABI_load errors dataSource index = Ok errors
  /\ addressStep errors dataSource index = Ok errors
  /\ eventsStep resolveFile ABI_load errors dataSource index = Ok errors.
Proof.
  intros (Haddr & (names & Hnames & Hinc) & Hload & Hevents).
  split; [|split; [|split]].
  - unfold abiReferenceStep. rewrite Hnames. cbn [bind]. now rewrite Hinc.
  - unfold abiFilesStep, reduce.
    destruct (entries (getIn dataSource ["mapping"; "abis"]) "reduce")
      as [es|e] eqn:Hes.
    + cbn [bind]. apply foldM_unchanged. intros [j abi] Hin. cbn [fst snd].
      destruct (Hload abi (entries_In_values _ _ _ Hes Hin))
        as (name & file & resolved & loaded & H1 & H2 & H3 & H4).
      unfold abiFileStep. rewrite H1. cbn [bind]. rewrite H2. cbn [bind].
      rewrite H3. cbn [bind]. now rewrite H4.
    + destruct (getIn dataSource ["mapping"; "abis"]);
        simpl in Hnames, Hes; discriminate.
  - unfold addressStep. apply addressPattern_spec in Haddr. now rewrite Haddr.
  - unfold eventsStep, tryCatch.
    destruct (eventsTryBlock _ _ _ _ _) as [r|e] eqn:Htry; [|reflexivity].
    unfold eventsTryBlock in Htry.
    apply bind_Ok_inv in Htry as (entry & Hfind & Htry).
    apply bind_Ok_inv in Htry as (name & Hname & Htry).
    apply bind_Ok_inv in Htry as (file & Hfile & Htry).
    apply bind_Ok_inv in Htry as (resolved & Hresolve & Htry).
    apply bind_Ok_inv in Htry as (abi & Habi & Htry).
    apply bind_Ok_inv in Htry as (manifestEvents & Hmap & Htry).
    rewrite <- Htry. unfold reduce.
    destruct (map_entries _ _ Hmap) as [es Hes]. rewrite Hes. cbn [bind].
    apply foldM_unchanged. intros [j event] Hin. cbn [fst snd].
    unfold eventStep.
    now rewrite (Hevents entry name file resolved abi manifestEvents
                   Hfind Hname Hfile Hresolve Habi Hmap event
                   (entries_In_values _ _ _ Hes Hin)).
Qed.

Lemma foldM_steps_unchanged {A : Type}
  (step : A -> value -> segment -> result A) (l : list value) (i : nat)
  (acc : A) :
  (forall x k, In x l -> step acc x k = Ok acc) ->
  foldM (fun acc kv => step acc (snd kv) (fst kv)) acc (indexedFrom i l) = Ok acc.
Proof.
  intros H. apply foldM_unchanged. intros [k x] Hin. cbn [fst snd].
  apply H. eapply indexedFrom_In; eauto.
Qed.

(** What an empty cross validation says of a checked data source. *)
Lemma crossValidate_nil_dataSource (resolveFile : value -> result value)
  (manifest : value) (dataSources : list value) (dataSource : value) :
  crossValidate resolveFile ABI_load manifest = Ok [] ->
  get manifest "dataSources" = Ok (VList dataSources) ->
  In dataSource dataSources ->
  get dataSource "kind" = Ok (VStr "ethereum/contract") ->
  dataSourceValid resolveFile ABI_load dataSource.
Proof.
  intros Hcross Hget Hin Hkind.
  apply crossValidate_nil_inv in Hcross as (Href & Hfile & Haddr & Hev).
  assert (Hall : forallb isCollection dataSources = true).
  { unfold abiReferenceErrors, ethereumContracts in Href.
    rewrite Hget in Href. cbn [bind filter] in Href.
    apply bind_Ok_inv in Href as (eligible & Hfilter & _).
    apply bind_Ok_inv in Hfilter as (kept & Hkept & _).
    eapply filterM_isEthereumContract_collections; eauto. }
  assert (Heligible : In dataSource (List.filter kindIsEthereumContract dataSources)).
  { apply filter_In. split; [exact Hin|]. now apply kindIsEthereumContract_kind. }
  destruct (In_indexedFrom _ 0 _ Heligible) as [k Hk].
  split; [|split; [|split]].
  - unfold validateContractAddresses in Haddr.
    rewrite (ethereumContracts_filter _ Hget Hall) in Haddr. cbn [bind] in Haddr.
    rewrite reduce_VList in Haddr.
    rewrite (foldM_pure_concat
               (fun acc entry => addressStep acc (snd entry) (fst entry))
               (fun entry => addressErrorsOf (snd entry) (fst entry)))
      in Haddr by (intros; apply addressStep_appends).
    injection Haddr as Haddr. apply concat_nil_Forall in Haddr.
    rewrite Forall_forall in Haddr.
    specialize (Haddr _ (in_map _ _ _ Hk)). cbn [fst snd] in Haddr.
    unfold addressErrorsOf in Haddr.
    destruct (addressPattern _) eqn:E; [|discriminate].
    now apply addressPattern_spec.
  - rewrite (abiReferenceErrors_filtered _ Hget Hall) in Href.
    apply bind_Ok_inv in Href as (rs & Hrs & Hnil). injection Hnil as Hnil.
    destruct (mapM_In _ _ _ Hrs Hk) as (r & Hr & Hinr). cbn [fst snd] in Hr.
    apply concat_nil_Forall in Hnil. rewrite Forall_forall in Hnil.
    rewrite (Hnil r Hinr) in Hr.
    unfold abiReferenceStep in Hr.
    destruct (map _ _) as [names|e] eqn:Hmap; simpl in Hr; [|discriminate].
    destruct (includes _ _) eqn:Hinc; [|discriminate].
    exists names. auto.
  - rewrite (abiFileErrors_filtered resolveFile ABI_load _ Hget Hall) in Hfile.
    apply bind_Ok_inv in Hfile as (rs & Hrs & Hnil). injection Hnil as Hnil.
    destruct (mapM_In _ _ _ Hrs Hk) as (r & Hr & Hinr). cbn [fst snd] in Hr.
    apply concat_nil_Forall in Hnil. rewrite Forall_forall in Hnil.
    rewrite (Hnil r Hinr) in Hr.
    unfold abiFilesStep, reduce in Hr.
    apply bind_Ok_inv in Hr as (es & Hes & Hfold).
    rewrite (foldM_concat
               (fun acc kv => abiFileStep resolveFile ABI_load (Index k) acc
                                (snd kv) (fst kv))) in Hfold
      by (intros; apply abiFileStep_append).
    apply bind_Ok_inv in Hfold as (rs' & Hrs' & Hnil'). injection Hnil' as Hnil'.
    apply concat_nil_Forall in Hnil'. rewrite Forall_forall in Hnil'.
    intros abi Habi.
    destruct (entries_values _ _ Hes Habi) as [j Hj].
    destruct (mapM_In _ _ _ Hrs' Hj) as (r' & Hr' & Hinr'). cbn [fst snd] in Hr'.
    rewrite (Hnil' r' Hinr') in Hr'.
    eapply abiFileStep_nil_inv; eauto.
  - rewrite (validateEvents_concat resolveFile ABI_load manifest
               (ethereumContracts_filter _ Hget Hall)) in Hev.
    injection Hev as Hev. apply concat_nil_Forall in Hev.
    rewrite Forall_forall in Hev.
    specialize (Hev _ (in_map _ _ _ Hk)). cbn [fst snd] in Hev.
    unfold eventErrorsOfDataSource in Hev.
    intros entry name file resolved abi manifestEvents
      Hfind Hname Hfile' Hresolve Habi Hmap manifestEvent Hevent.
    destruct (map_entries _ _ Hmap) as [es Hes].
    rewrite (eventsStep_loaded resolveFile [] dataSource (Index k)
               Hfind Hname Hfile' Hresolve Habi Hmap Hes) in Hev.
    simpl in Hev. apply concat_nil_Forall in Hev. rewrite Forall_forall in Hev.
    destruct (entries_values _ _ Hes Hevent) as [j Hj].
    specialize (Hev _ (in_map _ _ _ Hj)). cbn [fst snd] in Hev.
    unfold eventErrorsOf in Hev.
    now destruct (includesEvent _ _).
Qed.

(** X4: the cross validation returns no error exactly when every data
    source of kind ['ethereum/contract'] has nothing to report: a
    well-formed address, a declared ABI name, ABIs that load and event
    handlers whose events are signatures of the referenced ABI. *)
Theorem crossValidate_clean_iff (resolveFile : value -> result value)
  (manifest : value) (dataSources : list value) :
  get manifest "dataSources" = Ok (VList dataSources) ->
  forallb isCollection dataSources = true ->
  crossValidate resolveFile ABI_load manifest = Ok [] <->
  (forall dataSource,
     In dataSource dataSources ->
     get dataSource "kind" = Ok (VStr "ethereum/contract") ->
     dataSourceValid resolveFile ABI_load dataSource).
Proof.
  intros Hget Hall. split.
  - intros Hcross dataSource Hin Hkind.
    eapply crossValidate_nil_dataSource; eauto.
  - intros Hvalid.
    assert (Hsteps : forall x, In x (List.filter kindIsEthereumContract dataSources) ->
                               dataSourceValid resolveFile ABI_load x).
    { intros x Hx. apply filter_In in Hx as [Hx Hk].
      apply Hvalid; [exact Hx | now apply kindIsEthereumContract_kind]. }
    unfold crossValidate, validateAbis, abiReferenceErrors, abiFileErrors,
      validateContractAddresses, validateEvents.
    rewrite (ethereumContracts_filter _ Hget Hall). cbn [bind].
    rewrite !reduce_VList.
    rewrite (foldM_steps_unchanged abiReferenceStep)
      by (intros x k Hx; now apply dataSourceValid_steps with resolveFile, Hsteps).
    cbn [bind].
    rewrite (foldM_steps_unchanged (abiFilesStep resolveFile ABI_load))
      by (intros x k Hx; now apply dataSourceValid_steps, Hsteps).
    cbn [bind].
    rewrite (foldM_steps_unchanged addressStep)
      by (intros x k Hx; now apply dataSourceValid_steps with resolveFile, Hsteps).
    cbn [bind].
    rewrite (foldM_steps_unchanged (eventsStep resolveFile ABI_load))
      by (intros x k Hx; now apply dataSourceValid_steps, Hsteps).
    reflexivity.
Qed.

(** X5: what a loaded manifest guarantees.  When [load] returns a manifest
    whose data sources form a list, every data source of kind
    ['ethereum/contract'] has an address of 40 hexadecimal characters with
    an optional [0x], names a declared ABI in [source.abi] and has all its
    declared ABIs loaded; and when its referenced ABI loads and its event
    handlers can all be read, it handles only events of that ABI. *)
Theorem load_guarantees (filename : string) (manifest : value)
  (dataSources : list value) (dataSource : value) :
  loadManifest filename = Ok manifest ->
  get manifest "dataSources" = Ok (VList dataSources) ->
  In dataSource dataSources ->
  get dataSource "kind" = Ok (VStr "ethereum/contract") ->
  dataSourceValid (pathResolve filename) ABI_load dataSource.
Proof.
  intros Hload. apply load_Ok_inv in Hload as (_ & _ & _ & Hcross).
  now apply crossValidate_nil_dataSource.
Qed.

End LoadProperties.

(** ** More of the protocol registry *)

(** [normalizeName] returns the protocol whose list of kinds includes the
    kind: the lists share no kind, so the first match is the only one. *)
Lemma normalizeName_Some (kind : value) (n : string) :
  Protocol.normalizeName kind = Some n <->
  exists names,
    lookup n Protocol.availableProtocols = Some names
    /\ includes (List.map VStr names) kind = true.
Proof.
  split.
  - intros H.
    destruct (normalizeName_cases kind)
      as [[Hk E]|[[Hk E]|[[Hk E]|[_ E]]]]; rewrite E in H;
      try discriminate; injection H as <-.
    + exists ["ethereum"; "ethereum/contract"]. split; [reflexivity|].
      apply includes_strings. destruct Hk as [->| ->]; eexists; simpl; eauto.
    + exists ["near"]. split; [reflexivity|].
      apply includes_strings. subst. eexists; simpl; eauto.
    + exists ["cosmos"]. split; [reflexivity|].
      apply includes_strings. subst. eexists; simpl; eauto.
  - intros (names & Hlookup & Hinc).
    apply includes_strings in Hinc as (s & -> & Hs).
    unfold Protocol.availableProtocols in Hlookup. simpl in Hlookup.
    destruct (n =? "ethereum")%string eqn:E1.
    { apply String.eqb_eq in E1. subst n. injection Hlookup as <-.
      destruct Hs as [<-|[<-|[]]]; reflexivity. }
    destruct (n =? "near")%string eqn:E2.
    { apply String.eqb_eq in E2. subst n. injection Hlookup as <-.
      destruct Hs as [<-|[]]; reflexivity. }
    destruct (n =? "cosmos")%string eqn:E3; [|discriminate].
    apply String.eqb_eq in E3. subst n. injection Hlookup as <-.
    destruct Hs as [<-|[]]; reflexivity.
Qed.

(** X6: a kind is valid for a protocol instance exactly when it normalizes
    to the name of that instance; for an instance without a name no kind is
    valid. *)
Theorem isValidKindName_normalizeName (this : Protocol.t) (kind : value) :
  Protocol.isValidKindName this kind = true <->
  exists n, Protocol.name this = Some n /\ Protocol.normalizeName kind = Some n.
Proof.
  unfold Protocol.isValidKindName.
  destruct this as [[n|]]; cbn [Protocol.name].
  - destruct (lookup n Protocol.availableProtocols) as [names|] eqn:Hlookup.
    + split.
      * intros Hinc. exists n. split; [reflexivity|].
        apply normalizeName_Some. eauto.
      * intros (n' & Hn & Hnorm). injection Hn as <-.
        apply normalizeName_Some in Hnorm as (names' & Hl & Hinc). congruence.
    + split; [discriminate|].
      intros (n' & Hn & Hnorm). injection Hn as <-.
      apply normalizeName_Some in Hnorm as (names' & Hl & _). congruence.
  - split; [discriminate|]. intros (n & Hn & _). discriminate.
Qed.

(** X7: the name of a protocol is one of its own kinds: normalizing a name
    that [normalizeName] returned gives the same name, so an instance can
    be rebuilt from its name, and both the name and the original kind are
    valid kinds for it. *)
Theorem normalizeName_round_trip (kind : value) (n : string) :
  Protocol.normalizeName kind = Some n ->
  Protocol.normalizeName (VStr n) = Some n
  /\ Protocol.new (VStr n) = Protocol.new kind
  /\ Protocol.isValidKindName (Protocol.new kind) (VStr n) = true
  /\ Protocol.isValidKindName (Protocol.new kind) kind = true.
Proof.
  intros H.
  assert (Hn : Protocol.normalizeName (VStr n) = Some n).
  { destruct (normalizeName_cases kind)
      as [[_ E]|[[_ E]|[[_ E]|[_ E]]]]; rewrite E in H;
      try discriminate; injection H as <-; reflexivity. }
  split; [exact Hn|]. split; [|split].
  - unfold Protocol.new. now rewrite Hn, H.
  - unfold Protocol.isValidKindName, Protocol.new. cbn [Protocol.name].
    rewrite H.
    apply normalizeName_Some in Hn as (names & -> & Hinc). exact Hinc.
  - unfold Protocol.isValidKindName, Protocol.new. cbn [Protocol.name].
    rewrite H.
    apply normalizeName_Some in H as (names & -> & Hinc). exact Hinc.
Qed.

Lemma normalizeName_round_trip_example :
  Protocol.normalizeName (VStr "ethereum") = Some "ethereum"
  /\ Protocol.new (VStr "ethereum") = Protocol.new (VStr "ethereum/contract")
  /\ Protocol.isValidKindName (Protocol.new (VStr "ethereum/contract"))
       (VStr "ethereum") = true
  /\ Protocol.isValidKindName (Protocol.new (VStr "ethereum/contract"))
       (VStr "ethereum/contract") = true.
Proof.
  apply (@normalizeName_round_trip (VStr "ethereum/contract") "ethereum").
  reflexivity.
Defined.

(** X8: a factory hands out an object exactly when the matching capability
    predicate answers [true]: the ABI accessor and the type generator with
    [hasABIs], the contract class with [hasContract], the template code
    generator with [hasTemplates]. *)
Theorem factories_follow_capabilities (this : Protocol.t)
  (options template : value) :
  (Protocol.hasABIs this = Some true <->
   exists c, Protocol.getABI this = Ok (Protocol.Object c))
  /\ (Protocol.hasABIs this = Some true <->
      exists c, Protocol.getTypeGenerator this options = Ok (Protocol.Object c))
  /\ (Protocol.hasContract this = Some true <->
      exists c, Protocol.getContract this = Ok (Protocol.Object c))
  /\ (Protocol.hasTemplates this = Some true <->
      exists c, Protocol.getTemplateCodeGen this template = Ok (Protocol.Object c)).
Proof.
  unfold Protocol.getTemplateCodeGen, Protocol.hasABIs, Protocol.hasContract,
    Protocol.hasTemplates, Protocol.getABI, Protocol.getTypeGenerator,
    Protocol.getContract.
  destruct this as [[s|]]; unfold Protocol.switch; cbn [Protocol.name].
  - destruct (s =? "ethereum")%string; [|destruct (s =? "near")%string;
      [|destruct (s =? "cosmos")%string]];
      cbn [Protocol.not];
      repeat split; intros H; try discriminate; eauto;
      destruct H as [c H]; discriminate.
  - cbn [Protocol.not].
    repeat split; intros H; try discriminate; destruct H as [c H]; discriminate.
Qed.

(** X9: for an instance built from a kind, [getSubgraph], the two scaffold
    factories and [displayName] answer with an object (a name) exactly when
    the kind is one the registry accepts; otherwise [getSubgraph] throws
    [Data sources with kind 'undefined' are not supported yet] and the
    others return [undefined].  The subgraph object carries the options
    and the instance. *)
Theorem known_kinds_have_collaborators (kind options : value) :
  let this := Protocol.new kind in
  (Protocol.normalizeName kind <> None ->
   (exists c, Protocol.getSubgraph this options = Ok (Protocol.Object c)
              /\ In c [ Protocol.EthereumSubgraph options this;
                        Protocol.NearSubgraph options this;
                        Protocol.CosmosSubgraph options this ])
   /\ (exists c, Protocol.getManifestScaffold this = Ok (Protocol.Object c))
   /\ (exists c, Protocol.getMappingScaffold this = Ok (Protocol.Object c))
   /\ (exists text, Protocol.displayName this = Some text))
  /\ (Protocol.normalizeName kind = None ->
      Protocol.getSubgraph this options
      = Throw (Error "Data sources with kind 'undefined' are not supported yet")
      /\ Protocol.getManifestScaffold this = Ok Protocol.Undefined
      /\ Protocol.getMappingScaffold this = Ok Protocol.Undefined
      /\ Protocol.displayName this = None).
Proof.
  intros this. unfold this, Protocol.new.
  destruct (normalizeName_cases kind)
    as [[_ E]|[[_ E]|[[_ E]|[_ E]]]]; rewrite E; split; intros H;
    try congruence; try (now elim H);
    repeat split; try (eexists; reflexivity);
    eexists; (split; [reflexivity|]); simpl; auto.
Qed.

Lemma known_kinds_have_collaborators_example :
  Protocol.getSubgraph (Protocol.new (VStr "near")) VUndef
  = Ok (Protocol.Object
          (Protocol.NearSubgraph VUndef (Protocol.new (VStr "near"))))
  /\ Protocol.getSubgraph (Protocol.new (VStr "solana")) VUndef
     = Throw (Error "Data sources with kind 'undefined' are not supported yet").
Proof.
  split.
  - destruct (known_kinds_have_collaborators (VStr "near") VUndef)
      as [Hknown _].
    destruct Hknown as ((c & Hc & Hin) & _); [discriminate|].
    rewrite Hc. f_equal. f_equal.
    simpl in Hin. destruct Hin as [<-|[<-|[<-|[]]]];
      try reflexivity; vm_compute in Hc; discriminate.
  - apply (known_kinds_have_collaborators (VStr "solana") VUndef).
    reflexivity.
Defined.

(** X10: every protocol the registry can name has a non-empty list of
    networks, and no network is listed under two protocols. *)
Theorem known_protocols_have_networks (kind : value) (n : string) :
  Protocol.normalizeName kind = Some n ->
  (exists networks,
     lookup n availableNetworks = Some networks /\ networks <> [])
  /\ (forall p q networks networks' network,
        lookup p availableNetworks = Some networks ->
        lookup q availableNetworks = Some networks' ->
        In network networks -> In network networks' -> p = q).
Proof.
  intros H. split.
  - destruct (normalizeName_cases kind)
      as [[_ E]|[[_ E]|[[_ E]|[_ E]]]]; rewrite E in H;
      try discriminate; injection H as <-; eexists; split;
      try reflexivity; discriminate.
  - assert (Hnodup : NoDup (List.concat (List.map snd availableNetworks))).
    { unfold availableNetworks. cbn [List.map snd List.concat app].
      repeat (constructor;
              [simpl; intros Hin;
               repeat (destruct Hin as [Hin|Hin]; [discriminate|]);
               exact Hin|]).
      constructor. }
    intros p q networks networks' network Hp Hq Hin Hin'.
    unfold availableNetworks in Hp, Hq. simpl in Hp, Hq.
    destruct (p =? "ethereum")%string eqn:P1;
      [|destruct (p =? "near")%string eqn:P2;
        [|destruct (p =? "cosmos")%string eqn:P3; [|discriminate]]];
      (destruct (q =? "ethereum")%string eqn:Q1;
       [|destruct (q =? "near")%string eqn:Q2;
         [|destruct (q =? "cosmos")%string eqn:Q3; [|discriminate]]]);
      repeat match goal with
        | H : (_ =? _)%string = true |- _ => apply String.eqb_eq in H; subst
        end;
      try reflexivity;
      injection Hp as <-; injection Hq as <-; exfalso;
      simpl in Hin, Hin';
      repeat (destruct Hin as [Hin|Hin]; [subst network|]); try contradiction;
      repeat (destruct Hin' as [Hin'|Hin']; [discriminate|]); contradiction.
Qed.

Lemma known_protocols_have_networks_example :
  exists networks,
    lookup "near" availableNetworks = Some networks /\ networks <> [].
Proof.
  apply (@known_protocols_have_networks (VStr "near") "near"). reflexivity.
Defined.

(** ** Malformed lists of data sources *)

Lemma filterM_app_throw {A : Type} (p : A -> result bool) (q : A -> bool)
  (before after : list A) (bad : A) (e : exn) :
  Forall (fun x => p x = Ok (q x)) before ->
  p bad = Throw e ->
  filterM p (before ++ bad :: after) = Throw e.
Proof.
  induction 1 as [|x l Hx _ IH]; simpl; intros Hbad.
  - now rewrite Hbad.
  - rewrite Hx. simpl. now rewrite IH.
Qed.

Section Malformed.

Context {rt : JsRuntime}.
Variable resolveFile : value -> result value.
Variable ABI_load : value -> value -> result ABI.

Lemma validators_throw (manifest : value) (e : exn) :
  ethereumContracts manifest = Throw e ->
  validateAbis resolveFile ABI_load manifest = Throw e
  /\ validateContractAddresses manifest = Throw e
  /\ validateEvents resolveFile ABI_load manifest = Throw e
  /\ crossValidate resolveFile ABI_load manifest = Throw e.
Proof.
  intros H.
  unfold crossValidate, validateAbis, abiReferenceErrors, abiFileErrors,
    validateContractAddresses, validateEvents.
  rewrite H. repeat split.
Qed.

(** X11: the [try] of the event check does not cover the filter.  When
    [dataSources] is missing or is not a collection, and when one of the
    data sources is not a collection (a string, a number, [null]), each of
    the three validators throws a [TypeError], [validateEvents] included:
    on the list itself in the first case, on the first such data source in
    the second. *)
Theorem validators_throw_on_malformed_dataSources (manifest : value) :
  (forall dataSources,
     get manifest "dataSources" = Ok dataSources ->
     isCollection dataSources = false ->
     validateAbis resolveFile ABI_load manifest
     = Throw (TypeError dataSources "filter")
     /\ validateContractAddresses manifest
        = Throw (TypeError dataSources "filter")
     /\ validateEvents resolveFile ABI_load manifest
        = Throw (TypeError dataSources "filter")
     /\ crossValidate resolveFile ABI_load manifest
        = Throw (TypeError dataSources "filter"))
  /\ (forall before bad after,
        get manifest "dataSources" = Ok (VList (before ++ bad :: after)) ->
        forallb isCollection before = true ->
        isCollection bad = false ->
        validateAbis resolveFile ABI_load manifest = Throw (TypeError bad "get")
        /\ validateContractAddresses manifest = Throw (TypeError bad "get")
        /\ validateEvents resolveFile ABI_load manifest
           = Throw (TypeError bad "get")
        /\ crossValidate resolveFile ABI_load manifest
           = Throw (TypeError bad "get")).
Proof.
  split.
  - intros dataSources Hget Hbad. apply validators_throw.
    unfold ethereumContracts. rewrite Hget. cbn [bind].
    destruct dataSources; try reflexivity; discriminate.
  - intros before bad after Hget Hbefore Hbad. apply validators_throw.
    unfold ethereumContracts. rewrite Hget. cbn [bind filter].
    rewrite (@filterM_app_throw _ isEthereumContract kindIsEthereumContract
               before after bad (TypeError bad "get")); [reflexivity | |].
    + rewrite forallb_forall in Hbefore. apply Forall_forall.
      intros x Hx. apply isEthereumContract_pure. auto.
    + destruct bad; try reflexivity; discriminate.
Qed.

End Malformed.

Lemma validators_throw_on_malformed_dataSources_example :
  @validateEvents exampleRuntime exampleResolveFile exampleLoad
    (VMap [("specVersion", VStr "0.0.4")])
  = Throw (TypeError VUndef "filter")
  /\ @validateEvents exampleRuntime exampleResolveFile exampleLoad
       (manifestOf [goodDataSource; VNull; goodDataSource])
     = Throw (TypeError VNull "get").
Proof.
  pose proof (@validators_throw_on_malformed_dataSources exampleRuntime
                exampleResolveFile exampleLoad
                (VMap [("specVersion", VStr "0.0.4")])) as (Hmissing & _).
  pose proof (@validators_throw_on_malformed_dataSources exampleRuntime
                exampleResolveFile exampleLoad
                (manifestOf [goodDataSource; VNull; goodDataSource]))
    as (_ & Hbad).
  split.
  - apply (Hmissing VUndef); reflexivity.
  - apply (Hbad [goodDataSource] VNull [goodDataSource]); reflexivity.
Defined.

(** ** How many errors a manifest can get *)

Lemma foldM_length_step {A B : Type} (step : list A -> B -> result (list A))
  (l : list B) :
  (forall acc x acc',
     step acc x = Ok acc' -> List.length acc' <= S (List.length acc)) ->
  forall acc r,
    foldM step acc l = Ok r ->
    List.length r <= List.length acc + List.length l.
Proof.
  intros Hstep. induction l as [|x l IH]; simpl; intros acc r H.
  - injection H as <-. lia.
  - apply bind_Ok_inv in H as (acc' & Hx & H).
    apply Hstep in Hx. apply IH in H. lia.
Qed.

Lemma foldM_length_sum {A B : Type} (step : list A -> B -> result (list A))
  (w : B -> nat) :
  (forall acc x, step acc x = (r <- step [] x ;; Ok (acc ++ r))) ->
  (forall x r, step [] x = Ok r -> List.length r <= w x) ->
  forall l acc r,
    foldM step acc l = Ok r ->
    List.length r <= List.length acc + list_sum (List.map w l).
Proof.
  intros Happ Hw l. induction l as [|x l IH]; simpl; intros acc r H.
  - injection H as <-. lia.
  - apply bind_Ok_inv in H as (acc' & Hx & H).
    rewrite Happ in Hx. apply bind_Ok_inv in Hx as (r0 & Hr0 & Hacc).
    injection Hacc as <-. apply Hw in Hr0. apply IH in H.
    rewrite length_app in H. lia.
Qed.

Lemma list_sum_indexedFrom {A : Type} (w : A -> nat) (l : list A) (i : nat) :
  list_sum (List.map (fun kv => w (snd kv)) (indexedFrom i l))
  = list_sum (List.map w l).
Proof.
  revert i. induction l as [|x l IH]; simpl; intros i; [reflexivity|].
  now rewrite IH.
Qed.

Lemma list_sum_ones_indexedFrom {A : Type} (l : list A) (i : nat) :
  list_sum (List.map (fun _ => 1) (indexedFrom i l)) = List.length l.
Proof.
  revert i. induction l as [|x l IH]; simpl; intros i; [reflexivity|].
  now rewrite IH.
Qed.

Lemma entries_length (v : value) (es : list (segment * value)) :
  entries v "reduce" = Ok es -> List.length es = List.length (values v).
Proof.
  destruct v; simpl; intros H; try discriminate; injection H as <-.
  - generalize 0. induction l as [|x l IH]; simpl; intros i; [reflexivity|].
    now rewrite IH.
  - now rewrite !length_map.
Qed.

Lemma mapM_length {A B : Type} (f : A -> result B) (l : list A) (l' : list B) :
  mapM f l = Ok l' -> List.length l' = List.length l.
Proof.
  revert l'. induction l as [|x l IH]; simpl; intros l' H.
  - now injection H as <-.
  - apply bind_Ok_inv in H as (y & _ & H).
    apply bind_Ok_inv in H as (ys & Hys & H). injection H as <-.
    simpl. now rewrite (IH ys Hys).
Qed.

Lemma map_values_length (f : value -> result value) (v w : value) :
  map f v = Ok w -> List.length (values w) = List.length (values v).
Proof.
  destruct v; simpl; intros H; try discriminate;
    apply bind_Ok_inv in H as (l' & Hl' & H); injection H as <-; simpl.
  - eapply mapM_length; eauto.
  - rewrite !length_map. eapply mapM_length; eauto.
Qed.

Section Counts.

Context {rt : JsRuntime}.
Variable resolveFile : value -> result value.
Variable ABI_load : value -> value -> result ABI.

Lemma abiFilesStep_length (dataSource : value) (index : segment)
  (r : list ValidationError) :
  abiFilesStep resolveFile ABI_load [] dataSource index = Ok r ->
  List.length r <= declaredAbis dataSource.
Proof.
  unfold abiFilesStep, reduce, declaredAbis. intros H.
  apply bind_Ok_inv in H as (es & Hes & H).
  apply foldM_length_step in H.
  - rewrite <- (entries_length _ Hes). simpl in H. lia.
  - intros acc [j abi] acc' Hstep. cbn [fst snd] in Hstep.
    destruct (abiFileStep_cases resolveFile ABI_load index acc abi j)
      as [Hsame|(e & Hone)].
    + rewrite Hsame in Hstep. injection Hstep as <-. lia.
    + rewrite Hone in Hstep. injection Hstep as <-.
      rewrite length_app. simpl. lia.
Qed.

Lemma eventsStep_length (dataSource : value) (index : segment)
  (r : list ValidationError) :
  eventsStep resolveFile ABI_load [] dataSource index = Ok r ->
  List.length r <= declaredEventHandlers dataSource.
Proof.
  unfold eventsStep, tryCatch, declaredEventHandlers.
  destruct (eventsTryBlock _ _ _ _ _) as [r'|e] eqn:Htry;
    intros H; injection H as <-; [|simpl; lia].
  unfold eventsTryBlock in Htry.
  do 5 (apply bind_Ok_inv in Htry as (? & _ & Htry)).
  apply bind_Ok_inv in Htry as (manifestEvents & Hmap & Htry).
  unfold reduce in Htry. apply bind_Ok_inv in Htry as (es & Hes & Htry).
  apply foldM_length_step in Htry.
  - rewrite <- (map_values_length _ _ Hmap), <- (entries_length _ Hes).
    simpl in Htry. lia.
  - intros acc [j event] acc' Hstep. cbn [fst snd] in Hstep.
    rewrite eventStep_appends in Hstep. injection Hstep as <-.
    rewrite length_app. unfold eventErrorsOf.
    destruct (includesEvent _ _); simpl; lia.
Qed.

(** X12: bounds on the errors of a manifest.  Each checked data source
    gets at most one ABI reference error and at most one address error, at
    most one ABI file error per declared ABI and at most one event error
    per event handler; data sources of another kind get none. *)
Theorem error_counts (manifest : value) (dataSources : list value) :
  get manifest "dataSources" = Ok (VList dataSources) ->
  forallb isCollection dataSources = true ->
  let eligible := List.filter kindIsEthereumContract dataSources in
  (forall errors,
     abiReferenceErrors manifest = Ok errors ->
     List.length errors <= List.length eligible)
  /\ (forall errors,
        abiFileErrors resolveFile ABI_load manifest = Ok errors ->
        List.length errors <= list_sum (List.map declaredAbis eligible))
  /\ (forall errors,
        validateContractAddresses manifest = Ok errors ->
        List.length errors <= List.length eligible)
  /\ (forall errors,
        validateEvents resolveFile ABI_load manifest = Ok errors ->
        List.length errors
        <= list_sum (List.map declaredEventHandlers eligible)).
Proof.
  intros Hget Hall eligible.
  pose proof (ethereumContracts_filter _ Hget Hall) as Heligible.
  fold eligible in Heligible.
  pose proof (list_sum_ones_indexedFrom eligible 0) as Hones.
  split; [|split; [|split]]; intros errors H.
  - unfold abiReferenceErrors in H. rewrite Heligible in H. cbn [bind] in H.
    rewrite reduce_VList in H.
    apply (foldM_length_sum
             (fun acc kv => abiReferenceStep acc (snd kv) (fst kv))
             (fun _ => 1)) in H.
    + rewrite Hones in H. simpl in H. lia.
    + intros acc kv. apply abiReferenceStep_append.
    + intros [k x] r Hr. cbn [fst snd] in Hr. unfold abiReferenceStep in Hr.
      destruct (map _ _); simpl in Hr; [|discriminate].
      destruct (includes _ _); injection Hr as <-; simpl; lia.
  - unfold abiFileErrors in H. rewrite Heligible in H. cbn [bind] in H.
    rewrite reduce_VList in H.
    apply (foldM_length_sum
             (fun acc kv => abiFilesStep resolveFile ABI_load acc (snd kv) (fst kv))
             (fun kv => declaredAbis (snd kv))) in H.
    + rewrite list_sum_indexedFrom in H. simpl in H. lia.
    + intros acc kv. apply abiFilesStep_append.
    + intros [k x] r Hr. cbn [fst snd] in Hr |- *.
      eapply abiFilesStep_length; eauto.
  - unfold validateContractAddresses in H. rewrite Heligible in H.
    cbn [bind] in H. rewrite reduce_VList in H.
    apply (foldM_length_sum
             (fun acc kv => addressStep acc (snd kv) (fst kv))
             (fun _ => 1)) in H.
    + rewrite Hones in H. simpl in H. lia.
    + intros acc kv. now rewrite !addressStep_appends.
    + intros [k x] r Hr. cbn [fst snd] in Hr.
      rewrite addressStep_appends in Hr. injection Hr as <-.
      unfold addressErrorsOf. destruct (addressPattern _); simpl; lia.
  - unfold validateEvents in H. rewrite Heligible in H. cbn [bind] in H.
    rewrite reduce_VList in H.
    apply (foldM_length_sum
             (fun acc kv => eventsStep resolveFile ABI_load acc (snd kv) (fst kv))
             (fun kv => declaredEventHandlers (snd kv))) in H.
    + rewrite list_sum_indexedFrom in H. simpl in H. lia.
    + intros acc kv. apply eventsStep_append.
    + intros [k x] r Hr. cbn [fst snd] in Hr |- *.
      eapply eventsStep_length; eauto.
Qed.

End Counts.

(** ** The [test] command *)

Module TestCommandFacts.

Import TestCommand.

Lemma split_plain (sep : ascii) (s : string) :
  hasChar sep s = false -> split sep s = [s].
Proof.
  induction s as [|c s IH]; simpl; intros H; [reflexivity|].
  apply orb_false_iff in H as [Hc Hs]. rewrite Hc, (IH Hs). reflexivity.
Qed.

Lemma split_app (sep : ascii) (a b : string) :
  hasChar sep a = false ->
  split sep (a ++ String sep b) = a :: split sep b.
Proof.
  induction a as [|c a IH]; simpl; intros H.
  - now rewrite Ascii.eqb_refl.
  - apply orb_false_iff in H as [Hc Ha]. rewrite Hc, (IH Ha). reflexivity.
Qed.

Lemma removeQuotes_app (a b : string) :
  removeQuotes (a ++ b) = (removeQuotes a ++ removeQuotes b)%string.
Proof.
  induction a as [|c a IH]; simpl; [reflexivity|].
  destruct (isQuote c); simpl; now rewrite IH.
Qed.

Lemma removeQuotes_plain (c : ascii) (s : string) :
  isQuote c = false -> removeQuotes (String c s) = String c (removeQuotes s).
Proof. intros H. simpl. now rewrite H. Qed.

Lemma removeQuotes_hasChar (c : ascii) (s : string) :
  hasChar c s = false -> hasChar c (removeQuotes s) = false.
Proof.
  induction s as [|c' s IH]; simpl; intros H; [reflexivity|].
  apply orb_false_iff in H as [Hc Hs].
  destruct (isQuote c'); simpl; [auto|]. now rewrite Hc, IH.
Qed.

Lemma hasChar_app (c : ascii) (a b : string) :
  hasChar c (a ++ b) = hasChar c a || hasChar c b.
Proof.
  induction a as [|c' a IH]; simpl; [reflexivity|].
  now rewrite IH, orb_assoc.
Qed.

(** Splitting the lines that [join] put together gives the lines back. *)
Lemma split_join (lines : list string) :
  lines <> [] ->
  Forall (fun line => hasChar "010" line = false) lines ->
  split "010" (join nl lines) = lines.
Proof.
  intros Hne Hall. induction Hall as [|line lines Hline Hall IH];
    [congruence|].
  destruct lines as [|line' lines].
  - simpl. now apply split_plain.
  - change (join nl (line :: line' :: lines))
      with (line ++ String "010" (join nl (line' :: lines)))%string.
    rewrite split_app by exact Hline.
    rewrite IH; [reflexivity | discriminate].
Qed.

Lemma removeQuotes_join (lines : list string) :
  removeQuotes (join nl lines) = join nl (List.map removeQuotes lines).
Proof.
  induction lines as [|line lines IH]; [reflexivity|].
  destruct lines as [|line' lines]; [reflexivity|].
  change (join nl (line :: line' :: lines))
    with (line ++ String "010" (join nl (line' :: lines)))%string.
  rewrite removeQuotes_app.
  rewrite (removeQuotes_plain "010" (join nl (line' :: lines)) eq_refl).
  rewrite IH. reflexivity.
Qed.

Lemma fold_assign (pairs : list (string * string)) (info : linuxInfo) :
  fold_left assign
    (List.map (fun entry => [removeQuotes (fst entry); removeQuotes (snd entry)])
              pairs) info
  = List.rev (List.map (fun entry => (toLowerCase (removeQuotes (fst entry)),
                                 Some (removeQuotes (snd entry)))) pairs)
    ++ info.
Proof.
  revert info. induction pairs as [|entry pairs IH]; intros info; simpl;
    [reflexivity|].
  rewrite IH, <- app_assoc. reflexivity.
Qed.

(** X14: [getLinuxInfo] reads back what is written as [KEY=value] lines.
    For one or more lines whose keys and values hold no line break and no
    [=], the object has, for each line, the key in lower case and without
    quotes bound to the value without quotes; a later line overrides an
    earlier one with the same key. *)
Theorem getLinuxInfo_lines (pairs : list (string * string)) :
  pairs <> [] ->
  Forall plainEntry pairs ->
  getLinuxInfo (join nl (List.map releaseLine pairs))
  = List.rev (List.map (fun entry => (toLowerCase (removeQuotes (fst entry)),
                                 Some (removeQuotes (snd entry)))) pairs).
Proof.
  intros Hne Hplain. unfold getLinuxInfo.
  rewrite removeQuotes_join, split_join.
  - rewrite !List.map_map.
    rewrite (List.map_ext_in
               (fun x => split "=" (removeQuotes (releaseLine x)))
               (fun entry => [removeQuotes (fst entry); removeQuotes (snd entry)])).
    + rewrite fold_assign. apply app_nil_r.
    + intros [k v] Hin. rewrite Forall_forall in Hplain.
      destruct (Hplain _ Hin) as (_ & Hk & _ & Hv). cbn [fst snd] in *.
      unfold releaseLine. cbn [fst snd].
      rewrite removeQuotes_app.
      change ("=" ++ v)%string with (String "=" v).
      rewrite (removeQuotes_plain "=" v eq_refl).
      rewrite split_app by now apply removeQuotes_hasChar.
      rewrite split_plain by now apply removeQuotes_hasChar.
      reflexivity.
  - destruct pairs; [congruence | discriminate].
  - rewrite List.map_map. apply Forall_forall. intros line Hin.
    apply in_map_iff in Hin as ([k v] & <- & Hin).
    rewrite Forall_forall in Hplain.
    destruct (Hplain _ Hin) as (Hk & _ & Hv & _). cbn [fst snd] in *.
    apply removeQuotes_hasChar. unfold releaseLine. cbn [fst snd].
    rewrite hasChar_app, Hk. simpl. exact Hv.
Qed.

Section PlatformFacts.

Variable semverMajor : string -> result Z.

(** X15: the platforms [getPlatform] supports.  Whenever it returns, the
    result is one of the eight binaries, the operating system is Darwin,
    Linux or Windows_NT, and the architecture is [x64] or an [arm64] whose
    CPU model matches the Apple pattern; the M1 binary is only chosen on
    such an [arm64] under Darwin.  On every other platform it throws. *)
Theorem getPlatform_supported (logsOpt : bool) (type arch : string)
  (cpuCore : option string) (osRelease releaseOutput binary : string) :
  getPlatform semverMajor logsOpt type arch cpuCore osRelease releaseOutput
  = Ok binary ->
  In binary knownBinaries
  /\ In type ["Darwin"; "Linux"; "Windows_NT"]
  /\ (arch = "x64"
      \/ (arch = "arm64"
          /\ exists model, cpuCore = Some model /\ appleModel model = true))
  /\ (binary = "binary-macos-11-m1" -> arch = "arm64" /\ type = "Darwin").
Proof.
  unfold getPlatform. intros H.
  apply bind_Ok_inv in H as (isM1 & HisM1 & H).
  apply bind_Ok_inv in H as (majorVersion & _ & H).
  apply bind_Ok_inv in H as (? & _ & H).
  assert (Harch : (arch =? "x64")%string || isM1 = true ->
                  arch = "x64"
                  \/ (arch = "arm64"
                      /\ exists model, cpuCore = Some model
                                       /\ appleModel model = true)).
  { intros Hor. apply orb_true_iff in Hor as [Hx|Hm].
    - left. now apply String.eqb_eq.
    - right. subst isM1.
      destruct (arch =? "arm64")%string eqn:Ea; [|discriminate].
      apply String.eqb_eq in Ea. split; [exact Ea|].
      destruct cpuCore as [model|]; [|discriminate].
      injection HisM1 as HisM1. eauto. }
  assert (Hm1 : isM1 = true -> arch = "arm64").
  { intros ->. destruct (arch =? "arm64")%string eqn:Ea; [|discriminate].
    now apply String.eqb_eq. }
  destruct ((arch =? "x64")%string || isM1) eqn:Hor; [|discriminate].
  specialize (Harch eq_refl).
  destruct (type =? "Darwin")%string eqn:Ed.
  { apply String.eqb_eq in Ed. subst type.
    destruct (majorVersion =? 19)%Z;
      [|destruct (majorVersion =? 18)%Z; [|destruct isM1 eqn:Em]];
      injection H as <-; (split; [simpl; tauto|]);
      (split; [simpl; tauto|]); (split; [exact Harch|]);
      intros Hb; try discriminate. auto. }
  destruct (type =? "Linux")%string eqn:El.
  { apply String.eqb_eq in El. subst type.
    destruct (majorVersion =? 18)%Z; [|destruct (majorVersion =? 22)%Z];
      injection H as <-; (split; [simpl; tauto|]);
      (split; [simpl; tauto|]); (split; [exact Harch|]);
      intros Hb; discriminate. }
  destruct (type =? "Windows_NT")%string eqn:Ew; [|discriminate].
  apply String.eqb_eq in Ew. subst type.
  injection H as <-. (split; [simpl; tauto|]).
  (split; [simpl; tauto|]). (split; [exact Harch|]).
  intros Hb; discriminate.
Qed.

(** X16: on an [x64] Linux whose release information has a [version] that
    starts with a number other than zero, the binary depends on that
    number only: 18 and 22 have their own binary and every other version,
    older or newer, gets the binary for 20.  [semver] is not consulted. *)
Theorem getPlatform_linux (logsOpt : bool) (cpuCore : option string)
  (osRelease releaseOutput version : string) (majorVersion : Z) :
  property (getLinuxInfo releaseOutput) "version" = Some version ->
  parseInt version = Some majorVersion ->
  majorVersion <> 0%Z ->
  (logsOpt = true -> cpuCore <> None) ->
  getPlatform semverMajor logsOpt "Linux" "x64" cpuCore osRelease releaseOutput
  = Ok (linuxBinary majorVersion).
Proof.
  intros Hversion Hparse Hnonzero Hlogs. unfold getPlatform.
  cbn [String.eqb Ascii.eqb Bool.eqb bind andb orb].
  rewrite Hversion, Hparse.
  apply Z.eqb_neq in Hnonzero. rewrite Hnonzero. cbn [bind].
  assert (Hlog : (if logsOpt
                  then match cpuCore with
                       | Some _ => Ok tt
                       | None => Throw (TypeError VUndef "model")
                       end
                  else Ok tt) = Ok tt).
  { destruct logsOpt; [|reflexivity].
    destruct cpuCore; [reflexivity|]. now elim (Hlogs eq_refl). }
  rewrite Hlog. cbn [bind]. unfold linuxBinary.
  destruct (majorVersion =? 18)%Z; [reflexivity|].
  destruct (majorVersion =? 22)%Z; reflexivity.
Qed.

End PlatformFacts.

Section ArgumentFacts.

Context {rt : JsRuntime}.

Lemma string_append_nil_r (s : string) : (s ++ EmptyString)%string = s.
Proof. induction s as [|c s IH]; simpl; [reflexivity|]. now rewrite IH. Qed.

(** X17: Docker is given the arguments the binary is given.  The
    [testArgs] text is the [args] of [runBinary], each after one space;
    [-e ARGS=...] is passed exactly when [args] is not empty, with the
    trimmed text of the arguments separated by spaces; the options always
    start with the same five words and end with the image name. *)
Theorem docker_args_follow_binary_args (current_folder : string)
  (coverageOpt recompileOpt datasource : value) :
  let args := binaryArgs coverageOpt recompileOpt datasource in
  let texts := List.map toStr args in
  testArgs coverageOpt recompileOpt datasource
  = concatStrings (List.map (fun text => (" " ++ text)%string) texts)
  /\ (args = [] ->
      dockerRunOpts current_folder coverageOpt recompileOpt datasource
      = [ "run"; "-it"; "--rm"; "--mount";
          ("type=bind,source=" ++ current_folder ++ ",target=/matchstick")%string;
          "matchstick" ])
  /\ (args <> [] ->
      dockerRunOpts current_folder coverageOpt recompileOpt datasource
      = [ "run"; "-it"; "--rm"; "--mount";
          ("type=bind,source=" ++ current_folder ++ ",target=/matchstick")%string;
          "-e"; ("ARGS=" ++ trim (join " " texts))%string;
          "matchstick" ]).
Proof.
  intros args texts. subst args texts.
  unfold dockerRunOpts, testArgs, binaryArgs.
  destruct (truthy coverageOpt), (truthy recompileOpt), (truthy datasource);
    simpl; rewrite ?toStr_VStr; simpl; rewrite ?string_append_nil_r;
    (split; [reflexivity|]); split; intros H;
    try congruence; try discriminate; reflexivity.
Qed.

End ArgumentFacts.

End TestCommandFacts.

(** ** Several ABIs with the referenced name *)

Lemma findM_first {A : Type} (p : A -> result bool) (before after : list A)
  (x : A) :
  Forall (fun y => p y = Ok false) before ->
  p x = Ok true ->
  findM p (before ++ x :: after) = Ok (Some x).
Proof.
  induction 1 as [|y l Hy _ IH]; simpl; intros Hx.
  - now rewrite Hx.
  - rewrite Hy. simpl. now apply IH.
Qed.

Section FirstAbi.

Context {rt : JsRuntime}.
Variable resolveFile : value -> result value.
Variable ABI_load : value -> value -> result ABI.

(** X13: the event check uses the first declared ABI whose name is
    [source.abi].  When that one cannot be loaded the data source gets no
    event error; when it loads and the event handlers can all be read, the
    events are checked against it; when it loads and a handler cannot be
    read, the data source gets no event error either.  The ABIs declared
    after it, of the same name or not, play no part. *)
Theorem events_use_first_matching_abi (errors : list ValidationError)
  (dataSource : value) (index : segment) (before after : list value)
  (entry name file resolved : value) :
  getIn dataSource ["mapping"; "abis"] = VList (before ++ entry :: after) ->
  Forall (fun abi => exists other,
            get abi "name" = Ok other
            /\ strictEq other (getIn dataSource ["source"; "abi"]) = false)
         before ->
  get entry "name" = Ok name ->
  strictEq name (getIn dataSource ["source"; "abi"]) = true ->
  get entry "file" = Ok file ->
  resolveFile file = Ok resolved ->
  (forall e,
     ABI_load name resolved = Throw e ->
     eventsStep resolveFile ABI_load errors dataSource index = Ok errors)
  /\ (forall abi manifestEvents events,
        ABI_load name resolved = Ok abi ->
        map (fun handler => get handler "event")
            (getIn dataSource ["mapping"; "eventHandlers"]) = Ok manifestEvents ->
        entries manifestEvents "reduce" = Ok events ->
        eventsStep resolveFile ABI_load errors dataSource index
        = Ok (errors ++
              List.concat
                (List.map
                   (fun event =>
                      eventErrorsOf [Key "dataSources"; index; Key "eventHandlers"]
                        abi (snd event) (fst event))
                   events)))
  /\ (forall abi unreadable,
        ABI_load name resolved = Ok abi ->
        map (fun handler => get handler "event")
            (getIn dataSource ["mapping"; "eventHandlers"]) = Throw unreadable ->
        eventsStep resolveFile ABI_load errors dataSource index = Ok errors).
Proof.
  intros Habis Hbefore Hname Hmatch Hfile Hresolve.
  assert (Hfind :
            find (fun abi => name <- get abi "name" ;;
                             Ok (strictEq name (getIn dataSource ["source"; "abi"])))
                 (getIn dataSource ["mapping"; "abis"]) = Ok entry).
  { rewrite Habis. unfold find. cbn [values].
    rewrite (@findM_first _ _ before after entry); [reflexivity | |].
    - eapply Forall_impl; [|exact Hbefore].
      intros abi (other & Hother & Hneq). rewrite Hother. cbn [bind].
      now rewrite Hneq.
    - rewrite Hname. cbn [bind]. now rewrite Hmatch. }
  split; [|split].
  - intros e Hload. unfold eventsStep, eventsTryBlock.
    rewrite Hfind. cbn [bind]. rewrite Hname. cbn [bind].
    rewrite Hfile. cbn [bind]. rewrite Hresolve. cbn [bind].
    now rewrite Hload.
  - intros abi manifestEvents events Hload Hmap Hentries.
    eapply eventsStep_loaded; eauto.
  - intros abi unreadable Hload Hmap. unfold eventsStep, eventsTryBlock.
    rewrite Hfind. cbn [bind]. rewrite Hname. cbn [bind].
    rewrite Hfile. cbn [bind]. rewrite Hresolve. cbn [bind].
    rewrite Hload. cbn [bind]. now rewrite Hmap.
Qed.

End FirstAbi.

(** ** Examples of the further properties *)

Lemma load_reports_example :
  exampleLoadManifest "faulty.yaml"
  = Throw (Error (combinedMessage "faulty.yaml" twoFaultyErrors)).
Proof.
  pose proof (@load_reports exampleRuntime exampleReadManifest
                examplePathResolve exampleValidate exampleValidateSchemaFile
                exampleLoad "faulty.yaml" twoFaultyDataSources
                {| path := [Key "dataSources"; Index 0; Key "source"; Key "abi"];
                   message := @abiReferenceMessage exampleRuntime
                                (VStr "Missing") [VStr "Token"] |}
                (List.tl twoFaultyErrors) eq_refl) as (_ & Hcross).
  apply Hcross; reflexivity.
Defined.

Lemma crossValidate_clean_iff_example :
  @dataSourceValid exampleRuntime exampleResolveFile exampleLoad goodDataSource.
Proof.
  pose proof (@crossValidate_clean_iff exampleRuntime exampleLoad
                exampleResolveFile
                (manifestOf [exampleDataSource "near" "Token" "alice.near" [] [];
                             goodDataSource])
                [exampleDataSource "near" "Token" "alice.near" [] [];
                 goodDataSource]
                eq_refl eq_refl) as [Hclean _].
  apply (Hclean eq_refl goodDataSource).
  - simpl. auto.
  - reflexivity.
Defined.

Lemma load_guarantees_example :
  @dataSourceValid exampleRuntime (examplePathResolve "good.yaml") exampleLoad
    goodDataSource.
Proof.
  apply (@load_guarantees exampleRuntime exampleReadManifest examplePathResolve
           exampleValidate exampleValidateSchemaFile exampleLoad
           "good.yaml" (manifestOf [goodDataSource]) [goodDataSource]
           goodDataSource).
  - reflexivity.
  - reflexivity.
  - simpl. auto.
  - reflexivity.
Defined.

Lemma error_counts_example :
  List.length
    [ {| path := [Key "dataSources"; Index 0; Key "source"; Key "address"];
         message := @addressMessage exampleRuntime (VStr "0x12345") |};
      {| path := [Key "dataSources"; Index 1; Key "source"; Key "address"];
         message := @addressMessage exampleRuntime (VStr "xyz") |} ]
  <= 2.
Proof.
  pose proof (@error_counts exampleRuntime exampleResolveFile exampleLoad
                twoFaultyDataSources
                [ exampleDataSource "ethereum/contract" "Missing" "0x12345"
                    [("Token", "Token.json")] [];
                  exampleDataSource "ethereum/contract" "Absent" "xyz"
                    [("Token", "Token.json")] [] ]
                eq_refl eq_refl) as (_ & _ & Haddresses & _).
  apply Haddresses. reflexivity.
Defined.

Lemma events_use_first_matching_abi_example :
  @eventsStep exampleRuntime exampleResolveFile exampleLoad []
    dataSourceWithTwoTokens (Index 0)
  = Ok []
  /\ @eventsStep exampleRuntime exampleResolveFile exampleLoad []
       dataSourceWithUnreadableHandler (Index 0)
     = Ok [].
Proof.
  assert (Hbefore :
            Forall (fun abi => exists other,
                      get abi "name" = Ok other
                      /\ strictEq other
                           (getIn dataSourceWithTwoTokens ["source"; "abi"])
                         = false)
                   [abiEntry "Other" "Token.json"]).
  { constructor; [|constructor]. exists (VStr "Other"). split; reflexivity. }
  pose proof (@events_use_first_matching_abi exampleRuntime exampleResolveFile
                exampleLoad [] dataSourceWithTwoTokens (Index 0)
                [abiEntry "Other" "Token.json"]
                [abiEntry "Token" "Token.json"]
                (abiEntry "Token" "Missing.json")
                (VStr "Token") (VStr "Missing.json")
                (VStr "/subgraph/Missing.json")
                eq_refl Hbefore eq_refl eq_refl eq_refl eq_refl)
    as (Hfails & _ & _).
  pose proof (@events_use_first_matching_abi exampleRuntime exampleResolveFile
                exampleLoad [] dataSourceWithUnreadableHandler (Index 0)
                [] [] (abiEntry "Token" "Token.json")
                (VStr "Token") (VStr "Token.json")
                (VStr "/subgraph/Token.json")
                eq_refl (Forall_nil _) eq_refl eq_refl eq_refl eq_refl)
    as (_ & _ & Hunreadable).
  split.
  - apply (Hfails
             (Error "ENOENT: no such file or directory, open '/subgraph/Missing.json'")).
    reflexivity.
  - apply (Hunreadable tokenABI (TypeError (VStr "oops") "get")); reflexivity.
Defined.

Lemma getLinuxInfo_lines_example :
  TestCommand.getLinuxInfo (join nl (List.map releaseLine ubuntuRelease))
  = [ ("version", Some "18.04.6 LTS (Bionic Beaver)"); ("name", Some "Ubuntu") ].
Proof.
  apply (@TestCommandFacts.getLinuxInfo_lines ubuntuRelease).
  - discriminate.
  - repeat constructor.
Defined.

Lemma getPlatform_supported_example :
  In "binary-macos-11-m1" knownBinaries.
Proof.
  apply (@TestCommandFacts.getPlatform_supported exampleSemverMajor true
           "Darwin" "arm64" (Some "Apple M1 Pro") "21.1.0" EmptyString
           "binary-macos-11-m1").
  reflexivity.
Defined.

Lemma getPlatform_linux_example :
  TestCommand.getPlatform exampleSemverMajor false "Linux" "x64" None
    "5.4.0-150-generic" (join nl (List.map releaseLine ubuntuRelease))
  = Ok "binary-linux-18".
Proof.
  apply (@TestCommandFacts.getPlatform_linux exampleSemverMajor false None
           "5.4.0-150-generic" (join nl (List.map releaseLine ubuntuRelease))
           "18.04.6 LTS (Bionic Beaver)" 18).
  - reflexivity.
  - reflexivity.
  - discriminate.
  - discriminate.
Defined.

(** ** The validation of the schema file *)

Section SchemaFile.

Context {rt : JsRuntime}.
Variable validateSchemaFile : value -> result (list ValidationError).
Variable resolveFile : value -> result value.

Lemma fold_schemaStep (errors : list ValidationError) (msg : string) :
  fold_left schemaStep errors msg
  = (msg ++ concatStrings (List.map schemaBlock errors))%string.
Proof.
  revert msg. induction errors as [|e errors IH]; intros msg; simpl.
  - induction msg as [|c msg IHm]; simpl; [reflexivity|]. now rewrite <- IHm.
  - rewrite IH. unfold schemaStep, schemaBlock.
    now rewrite !string_append_assoc.
Qed.

(** X18: [validateSchema] resolves [schema.file] ([undefined] when the
    manifest has none) and returns when the validator of that file reports
    nothing; when it reports errors it throws one [Error] whose message
    names the resolved file and lists the messages, in order and without
    paths.  On a manifest that is not a collection it throws a
    [TypeError]. *)
Theorem validateSchema_outcomes (manifest filename : value)
  (errors : list ValidationError) :
  (isCollection manifest = true ->
   resolveFile (getIn manifest ["schema"; "file"]) = Ok filename ->
   validateSchemaFile filename = Ok errors ->
   validateSchema validateSchemaFile resolveFile manifest
   = match errors with
     | [] => Ok tt
     | _ => Throw (Error ("Error in " ++ toStr filename ++ ":"
                          ++ concatStrings (List.map schemaBlock errors))%string)
     end)
  /\ (isCollection manifest = false ->
      validateSchema validateSchemaFile resolveFile manifest
      = Throw (TypeError manifest "getIn")).
Proof.
  split.
  - intros Hcoll Hresolve Hvalidate. unfold validateSchema, getInOf.
    destruct manifest; try discriminate;
      cbn [bind]; rewrite Hresolve; cbn [bind]; rewrite Hvalidate; cbn [bind];
      (destruct errors as [|e errors]; [reflexivity|]);
      unfold schemaMessage; rewrite fold_schemaStep;
      now rewrite !string_append_assoc.
  - intros Hcoll. unfold validateSchema, getInOf.
    destruct manifest; try discriminate; reflexivity.
Qed.

End SchemaFile.

Lemma validateSchema_outcomes_example :
  @validateSchema exampleRuntime
    (fun _ => Ok [ {| path := []; message := "Type Gravity: missing @entity" |} ])
    exampleResolveFile (manifestOf [])
  = Throw (Error ("Error in /subgraph/./schema.graphql:" ++ nl ++ nl
                  ++ "  Type Gravity: missing @entity")%string).
Proof.
  pose proof (@validateSchema_outcomes exampleRuntime
                (fun _ => Ok [ {| path := [];
                                  message := "Type Gravity: missing @entity" |} ])
                exampleResolveFile (manifestOf [])
                (VStr "/subgraph/./schema.graphql")
                [ {| path := []; message := "Type Gravity: missing @entity" |} ])
    as [Hcollection _].
  apply Hcollection; reflexivity.
Defined.

(** ** Accepted addresses *)

Lemma string_length_append (a b : string) :
  String.length (a ++ b) = String.length a + String.length b.
Proof. induction a as [|c a IH]; simpl; [reflexivity|]. now rewrite IH. Qed.

Lemma lowerChar_hex (c : ascii) :
  HexDigit c -> HexDigit (TestCommand.lowerChar c).
Proof.
  unfold HexDigit, TestCommand.lowerChar. cbv zeta. intros H.
  destruct (((65 <=? nat_of_ascii c) && (nat_of_ascii c <=? 90))
            || ((192 <=? nat_of_ascii c) && (nat_of_ascii c <=? 222)
                && negb (nat_of_ascii c =? 215)))%nat eqn:E; [|exact H].
  rewrite orb_true_iff, !andb_true_iff, !Nat.leb_le in E.
  rewrite nat_ascii_embedding.
  - lia.
  - pose proof (nat_ascii_bounded c). lia.
Qed.

Lemma toLowerCase_hex (s : string) :
  AllHexDigits s -> AllHexDigits (TestCommand.toLowerCase s).
Proof.
  induction s as [|c s IH]; simpl; [auto|].
  intros [Hc Hs]. split; [now apply lowerChar_hex | auto].
Qed.

Lemma toLowerCase_length (s : string) :
  String.length (TestCommand.toLowerCase s) = String.length s.
Proof. induction s as [|c s IH]; simpl; [reflexivity|]. now rewrite IH. Qed.

(** X19: an address the check accepts has exactly 40 characters, or 42
    with its [0x] prefix; the check does not depend on the case of the
    hexadecimal digits: the lower-case form of an accepted address is
    accepted. *)
Theorem accepted_addresses (s : string) :
  addressPattern s = true ->
  (String.length s = 40 \/ String.length s = 42)
  /\ addressPattern (TestCommand.toLowerCase s) = true.
Proof.
  intros H. apply addressPattern_spec in H as (digits & Hs & Hlen & Hhex).
  split.
  - destruct Hs as [->| ->]; [now left|]. right.
    rewrite string_length_append, Hlen. reflexivity.
  - apply addressPattern_spec. exists (TestCommand.toLowerCase digits).
    split; [|split].
    + destruct Hs as [->| ->]; [now left | right; reflexivity].
    + now rewrite toLowerCase_length.
    + now apply toLowerCase_hex.
Qed.

Lemma accepted_addresses_example :
  addressPattern "0xabcdef7890abcdef7890abcdef7890abcdef7890" = true.
Proof.
  apply (accepted_addresses "0xABCDEF7890abcdef7890ABCDEF7890abcdef7890").
  reflexivity.
Defined.

Lemma docker_args_follow_binary_args_example :
  @TestCommand.dockerRunOpts exampleRuntime "/home/me/subgraph"
    (VBool true) VUndef (VStr "Gravity")
  = [ "run"; "-it"; "--rm"; "--mount";
      "type=bind,source=/home/me/subgraph,target=/matchstick";
      "-e"; "ARGS=-c Gravity"; "matchstick" ].
Proof.
  pose proof (@TestCommandFacts.docker_args_follow_binary_args exampleRuntime
                "/home/me/subgraph" (VBool true) VUndef (VStr "Gravity"))
    as (_ & _ & Hargs).
  apply Hargs. discriminate.
Defined.

(** ** The checks on the whole manifest *)

Lemma segmentEqb_eq (a b : segment) : segmentEqb a b = true <-> a = b.
Proof.
  destruct a as [x|i], b as [y|j]; simpl; split; intros H; try discriminate.
  - apply String.eqb_eq in H. now subst.
  - injection H as ->. apply String.eqb_refl.
  - apply Nat.eqb_eq in H. now subst.
  - injection H as ->. apply Nat.eqb_refl.
Qed.

Lemma pathEqb_eq (p q : list segment) : pathEqb p q = true <-> p = q.
Proof.
  revert q. induction p as [|a p IH]; intros [|b q]; simpl; split; intros H;
    try discriminate; try reflexivity.
  - apply andb_true_iff in H as [Hab Hpq].
    apply segmentEqb_eq in Hab. apply IH in Hpq. now subst.
  - injection H as -> ->. apply andb_true_iff. split.
    + now apply segmentEqb_eq.
    + now apply IH.
Qed.

Lemma locatedAt_spec (p : list segment) (e : ValidationError) :
  locatedAt p e = true <-> path e = p.
Proof. apply pathEqb_eq. Qed.

Lemma filter_nil {A : Type} (P : A -> bool) (l : list A) :
  (forall x, In x l -> P x = false) -> List.filter P l = [].
Proof.
  induction l as [|x l IH]; simpl; intros H; [reflexivity|].
  rewrite (H x (or_introl eq_refl)). apply IH. intros y Hy. apply H. now right.
Qed.

Lemma indexedFrom_nth {A : Type} (l : list A) (i j : nat) (x : A) :
  In (Index j, x) (indexedFrom i l) <->
  exists m, j = i + m /\ nth_error l m = Some x.
Proof.
  revert i. induction l as [|y l IH]; intros i; simpl.
  - split; [tauto|]. intros (m & _ & H). destruct m; discriminate.
  - rewrite IH. split.
    + intros [H|(m & -> & H)].
      * injection H as <- <-. exists 0. split; [lia | reflexivity].
      * exists (S m). split; [lia | exact H].
    + intros ([|m] & -> & H).
      * left. injection H as ->. f_equal. f_equal. lia.
      * right. exists m. split; [lia | exact H].
Qed.

Lemma indexedFrom_index {A : Type} (l : list A) (i : nat) (s : segment) (x : A) :
  In (s, x) (indexedFrom i l) -> exists j, s = Index j.
Proof.
  revert i. induction l as [|y l IH]; simpl; intros i H; [tauto|].
  destruct H as [H|H]; [injection H as <- _; eauto | eauto].
Qed.

(** Of the errors of an indexed list, those a predicate selects are those of
    entry [k] when the predicate rejects the errors of every other entry. *)
Lemma filter_concat_indexed {A B : Type} (P : B -> bool)
  (g : segment * A -> list B) (l : list A) :
  forall (i k : nat) (x : A),
    nth_error l k = Some x ->
    (forall j y e, j <> i + k -> In e (g (Index j, y)) -> P e = false) ->
    List.filter P (List.concat (List.map g (indexedFrom i l)))
    = List.filter P (g (Index (i + k), x)).
Proof.
  induction l as [|a l IH]; intros i k x Hnth Hother.
  - destruct k; discriminate.
  - simpl. rewrite List.filter_app. destruct k as [|k]; simpl in Hnth.
    + injection Hnth as ->. rewrite Nat.add_0_r.
      rewrite (@filter_nil _ P (List.concat _)); [apply app_nil_r|].
      intros e He. apply in_concat in He as (r & Hr & He).
      apply in_map_iff in Hr as ([s y] & <- & Hin).
      destruct (indexedFrom_index _ _ _ _ Hin) as [j ->].
      apply indexedFrom_nth in Hin as (m & -> & _).
      apply (Hother (S i + m) y); [lia | exact He].
    + rewrite (@filter_nil _ P (g (Index i, a)));
        [|intros e He; apply (Hother i a); [lia | exact He]].
      simpl. rewrite (IH (S i) k x Hnth).
      * now replace (S i + k) with (i + S k) by lia.
      * intros j y e Hj. apply Hother. lia.
Qed.

Lemma filter_concat_nil {A B : Type} (P : B -> bool) (g : A -> list B)
  (l : list A) :
  (forall x e, In x l -> In e (g x) -> P e = false) ->
  List.filter P (List.concat (List.map g l)) = [].
Proof.
  intros H. apply filter_nil. intros e He.
  apply in_concat in He as (r & Hr & He).
  apply in_map_iff in Hr as (x & <- & Hin). now apply (H x).
Qed.

Lemma mapM_Ok_map {A B : Type} (f : A -> result (list B)) (l : list A)
  (rs : list (list B)) :
  mapM f l = Ok rs -> rs = List.map (fun x => resultOr (f x)) l.
Proof.
  revert rs. induction l as [|x l IH]; simpl; intros rs H.
  - now injection H as <-.
  - apply bind_Ok_inv in H as (r & Hr & H).
    apply bind_Ok_inv in H as (rs' & Hrs & H). injection H as <-.
    rewrite Hr. simpl. f_equal. now apply IH.
Qed.

(** The category and the index in the errors of each reducer. *)
Lemma abiReferenceStep_inBlock {rt : JsRuntime} (dataSource : value) (k : nat)
  (e : ValidationError) :
  In e (resultOr (abiReferenceStep [] dataSource (Index k))) -> inBlock 0 k e.
Proof.
  destruct (abiReferenceStep [] dataSource (Index k)) as [r|x] eqn:E; simpl;
    [|tauto].
  intros He. apply abiReferenceStep_block in E.
  rewrite Forall_forall in E. now apply E.
Qed.

Lemma addressErrorsOf_inBlock {rt : JsRuntime} (dataSource : value) (k : nat)
  (e : ValidationError) :
  In e (addressErrorsOf dataSource (Index k)) -> inBlock 2 k e.
Proof.
  intros He.
  assert (H : addressStep [] dataSource (Index k)
              = Ok (addressErrorsOf dataSource (Index k)))
    by (rewrite addressStep_appends; reflexivity).
  apply addressStep_block in H. rewrite Forall_forall in H. now apply H.
Qed.

Section WholeManifest.

Context {rt : JsRuntime}.
Variable resolveFile : value -> result value.
Variable ABI_load : value -> value -> result ABI.

(** The combined errors, as the four reducers applied to the eligible data
    sources, each with its position among them. *)
Lemma crossValidate_eligible (manifest : value) (dataSources : list value) :
  get manifest "dataSources" = Ok (VList dataSources) ->
  forallb isCollection dataSources = true ->
  let eligible := indexedFrom 0 (List.filter kindIsEthereumContract dataSources) in
  crossValidate resolveFile ABI_load manifest
  = (references <- mapM (fun entry => abiReferenceStep [] (snd entry) (fst entry))
                     eligible ;;
     files <- mapM (fun entry =>
                      abiFilesStep resolveFile ABI_load [] (snd entry) (fst entry))
                eligible ;;
     Ok (List.concat references ++ List.concat files
         ++ List.concat
              (List.map (fun entry => addressErrorsOf (snd entry) (fst entry))
                        eligible)
         ++ List.concat
              (List.map (fun entry =>
                           eventErrorsOfDataSource resolveFile ABI_load
                             (snd entry) (fst entry))
                        eligible))).
Proof.
  intros Hget Hall eligible.
  unfold crossValidate, validateAbis.
  rewrite (abiReferenceErrors_filtered _ Hget Hall).
  rewrite (abiFileErrors_filtered resolveFile ABI_load _ Hget Hall).
  rewrite (validateEvents_concat resolveFile ABI_load _
             (ethereumContracts_filter _ Hget Hall)).
  unfold validateContractAddresses.
  rewrite (ethereumContracts_filter _ Hget Hall). cbn [bind].
  rewrite reduce_VList.
  rewrite (foldM_pure_concat
             (fun acc entry => addressStep acc (snd entry) (fst entry))
             (fun entry => addressErrorsOf (snd entry) (fst entry)))
    by (intros acc entry; apply addressStep_appends).
  fold eligible.
  destruct (mapM _ eligible) as [references|e]; [|reflexivity].
  cbn [bind].
  destruct (mapM _ eligible) as [files|e]; [|reflexivity].
  cbn [bind app]. now rewrite <- app_assoc.
Qed.

(** The same, entry by entry, when the validation returns. *)
Lemma crossValidate_parts (manifest : value) (dataSources : list value)
  (errors : list ValidationError) :
  get manifest "dataSources" = Ok (VList dataSources) ->
  forallb isCollection dataSources = true ->
  crossValidate resolveFile ABI_load manifest = Ok errors ->
  let eligible := indexedFrom 0 (List.filter kindIsEthereumContract dataSources) in
  errors
  = List.concat
      (List.map (fun entry => resultOr (abiReferenceStep [] (snd entry) (fst entry)))
                eligible)
    ++ List.concat
         (List.map (fun entry =>
                      resultOr (abiFilesStep resolveFile ABI_load []
                                  (snd entry) (fst entry)))
                   eligible)
    ++ List.concat
         (List.map (fun entry => addressErrorsOf (snd entry) (fst entry)) eligible)
    ++ List.concat
         (List.map (fun entry =>
                      eventErrorsOfDataSource resolveFile ABI_load
                        (snd entry) (fst entry))
                   eligible).
Proof.
  intros Hget Hall H eligible.
  rewrite (crossValidate_eligible _ Hget Hall) in H.
  apply bind_Ok_inv in H as (references & Href & H).
  apply bind_Ok_inv in H as (files & Hfiles & H).
  injection H as <-.
  apply mapM_Ok_map in Href. apply mapM_Ok_map in Hfiles.
  now subst references files.
Qed.

Lemma abiFilesStep_inBlock (dataSource : value) (k : nat)
  (e : ValidationError) :
  In e (resultOr (abiFilesStep resolveFile ABI_load [] dataSource (Index k))) ->
  inBlock 1 k e.
Proof.
  destruct (abiFilesStep _ _ [] dataSource (Index k)) as [r|x] eqn:E; simpl;
    [|tauto].
  intros He. apply abiFilesStep_block in E.
  rewrite Forall_forall in E. now apply E.
Qed.

Lemma eventErrorsOfDataSource_inBlock (dataSource : value) (k : nat)
  (e : ValidationError) :
  In e (eventErrorsOfDataSource resolveFile ABI_load dataSource (Index k)) ->
  inBlock 3 k e.
Proof.
  unfold eventErrorsOfDataSource.
  destruct (eventsStep _ _ [] dataSource (Index k)) as [r|x] eqn:E; simpl;
    [|tauto].
  intros He. apply eventsStep_block in E.
  rewrite Forall_forall in E. now apply E.
Qed.

End WholeManifest.

Lemma In_concat_map {A B : Type} (g : A -> list B) (l : list A) (x : A) (e : B) :
  In x l -> In e (g x) -> In e (List.concat (List.map g l)).
Proof.
  intros Hx He. apply in_concat. exists (g x). split; [|exact He].
  now apply in_map.
Qed.

Section Applied.

Context {rt : JsRuntime}.
Variable resolveFile : value -> result value.
Variable ABI_load : value -> value -> result ABI.

(** C1, as the code has it: the four checks are applied to the data
    sources whose kind is the string ['ethereum/contract'] and to no
    other.  The combined errors are those of the four reducers run on
    each of these data sources, with its position among them as index: in
    particular, when the validation returns, a wrong ABI reference, a
    failing ABI file, a bad address and an unknown event of such a data
    source are all among the errors.  Every other data source is skipped
    and contributes no error: the validation returns what it returns on
    the manifest without them.  A data source whose protocol lacks one of
    the capabilities is among the skipped ones. *)
Theorem checks_apply_to_ethereum_contract_only (manifest : value)
  (dataSources : list value) :
  get manifest "dataSources" = Ok (VList dataSources) ->
  forallb isCollection dataSources = true ->
  let eligible := List.filter kindIsEthereumContract dataSources in
  ethereumContracts manifest = Ok (VList eligible)
  /\ crossValidate resolveFile ABI_load manifest
     = crossValidate resolveFile ABI_load (VMap [("dataSources", VList eligible)])
  /\ (forall dataSource,
        In dataSource eligible <->
        In dataSource dataSources /\
        get dataSource "kind" = Ok (VStr "ethereum/contract"))
  /\ (forall dataSource kind,
        get dataSource "kind" = Ok kind ->
        Protocol.hasABIs (Protocol.new kind) <> Some true
        \/ Protocol.hasContract (Protocol.new kind) <> Some true
        \/ Protocol.hasEvents (Protocol.new kind) <> Some true ->
        ~ In dataSource eligible)
  /\ (eligible = [] -> crossValidate resolveFile ABI_load manifest = Ok [])
  /\ crossValidate resolveFile ABI_load manifest
     = (references <- mapM (fun entry =>
                              abiReferenceStep [] (snd entry) (fst entry))
                        (indexedFrom 0 eligible) ;;
        files <- mapM (fun entry =>
                         abiFilesStep resolveFile ABI_load [] (snd entry) (fst entry))
                   (indexedFrom 0 eligible) ;;
        Ok (List.concat references ++ List.concat files
            ++ List.concat
                 (List.map (fun entry => addressErrorsOf (snd entry) (fst entry))
                           (indexedFrom 0 eligible))
            ++ List.concat
                 (List.map (fun entry =>
                              eventErrorsOfDataSource resolveFile ABI_load
                                (snd entry) (fst entry))
                           (indexedFrom 0 eligible))))
  /\ (forall errors k dataSource,
        crossValidate resolveFile ABI_load manifest = Ok errors ->
        nth_error eligible k = Some dataSource ->
        (forall abiNames,
           map (fun abi => get abi "name") (getIn dataSource ["mapping"; "abis"])
           = Ok abiNames ->
           includes (values abiNames) (getIn dataSource ["source"; "abi"]) = false ->
           In {| path := [Key "dataSources"; Index k; Key "source"; Key "abi"];
                 message := abiReferenceMessage
                              (getIn dataSource ["source"; "abi"])
                              (values abiNames) |}
              errors)
        /\ (forall fileErrors,
              abiFilesStep resolveFile ABI_load [] dataSource (Index k)
              = Ok fileErrors ->
              incl fileErrors errors)
        /\ incl (addressErrorsOf dataSource (Index k)) errors
        /\ incl (eventErrorsOfDataSource resolveFile ABI_load dataSource (Index k))
                errors).
Proof.
  intros Hget Hall eligible.
  assert (Hfilter : ethereumContracts manifest = Ok (VList eligible))
    by now apply ethereumContracts_filter.
  assert (Hin : forall dataSource,
             In dataSource eligible <->
             In dataSource dataSources /\
             get dataSource "kind" = Ok (VStr "ethereum/contract")).
  { intros dataSource. unfold eligible.
    now rewrite filter_In, kindIsEthereumContract_kind. }
  assert (Hsame : crossValidate resolveFile ABI_load manifest
                  = crossValidate resolveFile ABI_load
                      (VMap [("dataSources", VList eligible)])).
  { apply crossValidate_ethereumContracts. rewrite Hfilter.
    rewrite (@ethereumContracts_filter (VMap [("dataSources", VList eligible)])
               eligible eq_refl).
    - unfold eligible. now rewrite filter_idempotent.
    - apply forallb_forall. intros x Hx.
      apply kindIsEthereumContract_collection.
      unfold eligible in Hx. now apply filter_In in Hx. }
  split; [exact Hfilter|]. split; [exact Hsame|]. split; [exact Hin|].
  split; [|split; [|split]].
  - intros dataSource kind Hkind Hcap Hel.
    apply Hin in Hel as [_ Hel]. rewrite Hkind in Hel. injection Hel as ->.
    destruct Hcap as [H|[H|H]]; now apply H.
  - intros Hnone. rewrite Hsame, Hnone. reflexivity.
  - now apply crossValidate_eligible.
  - intros errors k dataSource Hrun Hk.
    assert (Hentry : In (Index k, dataSource) (indexedFrom 0 eligible))
      by (apply indexedFrom_nth; exists k; split; [reflexivity | exact Hk]).
    rewrite (crossValidate_parts resolveFile ABI_load manifest Hget Hall Hrun).
    fold eligible.
    split; [|split; [|split]].
    + intros abiNames Hnames Hincl.
      apply in_or_app. left.
      apply (In_concat_map
               (fun entry => resultOr (abiReferenceStep [] (snd entry) (fst entry)))
               _ _ _ Hentry).
      destruct (abiReferenceStep_spec [] dataSource (Index k) Hnames) as [_ Habsent].
      cbn [fst snd]. rewrite (Habsent Hincl). simpl. now left.
    + intros fileErrors Hfiles e He.
      apply in_or_app. right. apply in_or_app. left.
      apply (In_concat_map
               (fun entry => resultOr (abiFilesStep resolveFile ABI_load []
                                         (snd entry) (fst entry)))
               _ _ _ Hentry).
      cbn [fst snd]. now rewrite Hfiles.
    + intros e He.
      apply in_or_app. right. apply in_or_app. right. apply in_or_app. left.
      now apply (In_concat_map
                   (fun entry => addressErrorsOf (snd entry) (fst entry))
                   _ _ _ Hentry).
    + intros e He.
      apply in_or_app. right. apply in_or_app. right. apply in_or_app. right.
      now apply (In_concat_map
                   (fun entry => eventErrorsOfDataSource resolveFile ABI_load
                                   (snd entry) (fst entry))
                   _ _ _ Hentry).
Qed.

End Applied.

Lemma checks_apply_to_ethereum_contract_only_example :
  ethereumContracts (manifestOf nearThenFaulty)
  = Ok (VList [ exampleDataSource "ethereum/contract" "Missing" "0x12345"
                  [("Token", "Token.json")] [] ])
  /\ In {| path := [Key "dataSources"; Index 0; Key "source"; Key "abi"];
           message := @abiReferenceMessage exampleRuntime (VStr "Missing")
                        [VStr "Token"] |}
        [ {| path := [Key "dataSources"; Index 0; Key "source"; Key "abi"];
             message := @abiReferenceMessage exampleRuntime (VStr "Missing")
                          [VStr "Token"] |};
          {| path := [Key "dataSources"; Index 0; Key "source"; Key "address"];
             message := @addressMessage exampleRuntime (VStr "0x12345") |} ]
  /\ incl [ {| path := [Key "dataSources"; Index 0; Key "source"; Key "address"];
               message := @addressMessage exampleRuntime (VStr "0x12345") |} ]
          [ {| path := [Key "dataSources"; Index 0; Key "source"; Key "abi"];
               message := @abiReferenceMessage exampleRuntime (VStr "Missing")
                            [VStr "Token"] |};
            {| path := [Key "dataSources"; Index 0; Key "source"; Key "address"];
               message := @addressMessage exampleRuntime (VStr "0x12345") |} ]
  /\ @crossValidate exampleRuntime exampleResolveFile exampleLoad
       (manifestOf [ exampleDataSource "near" "Missing" "alice.near" [] [];
                     exampleDataSource "cosmos" "Missing" "xyz" [] [] ])
     = Ok [].
Proof.
  pose proof (@checks_apply_to_ethereum_contract_only exampleRuntime
                exampleResolveFile exampleLoad
                (manifestOf nearThenFaulty) nearThenFaulty eq_refl eq_refl)
    as (Hfilter & _ & _ & _ & _ & _ & Happlied).
  destruct (Happlied
              [ {| path := [Key "dataSources"; Index 0; Key "source"; Key "abi"];
                   message := @abiReferenceMessage exampleRuntime (VStr "Missing")
                                [VStr "Token"] |};
                {| path := [Key "dataSources"; Index 0; Key "source"; Key "address"];
                   message := @addressMessage exampleRuntime (VStr "0x12345") |} ]
              0
              (exampleDataSource "ethereum/contract" "Missing" "0x12345"
                 [("Token", "Token.json")] [])
              eq_refl eq_refl)
    as (Hreference & _ & Haddress & _).
  split; [exact Hfilter|]. split; [|split].
  - apply (Hreference (VList [VStr "Token"])); reflexivity.
  - exact Haddress.
  - pose proof (@checks_apply_to_ethereum_contract_only exampleRuntime
                  exampleResolveFile exampleLoad
                  (manifestOf [ exampleDataSource "near" "Missing" "alice.near" [] [];
                                exampleDataSource "cosmos" "Missing" "xyz" [] [] ])
                  [ exampleDataSource "near" "Missing" "alice.near" [] [];
                    exampleDataSource "cosmos" "Missing" "xyz" [] [] ]
                  eq_refl eq_refl)
      as (_ & _ & _ & _ & Hnone & _).
    apply Hnone. reflexivity.
Defined.


(** An error of another data source or of another check is not at the
    given place. *)
Lemma locatedAt_other_index (c k j : nat) (rest : list segment)
  (e : ValidationError) :
  inBlock c j e -> j <> k ->
  locatedAt (Key "dataSources" :: Index k :: rest) e = false.
Proof.
  intros [_ Hindex] Hneq.
  destruct (locatedAt _ e) eqn:E; [|reflexivity].
  apply locatedAt_spec in E. unfold dataSourceIndex in Hindex.
  rewrite E in Hindex. congruence.
Qed.

Lemma locatedAt_other_rank (c : nat) (p : list segment) (e : ValidationError) :
  categoryRank e = c ->
  categoryRank {| path := p; message := EmptyString |} <> c ->
  locatedAt p e = false.
Proof.
  intros Hrank Hneq.
  destruct (locatedAt p e) eqn:E; [|reflexivity].
  apply locatedAt_spec in E. unfold categoryRank in *. simpl in Hneq.
  rewrite E in Hrank. congruence.
Qed.

Section EventsOfManifest.

Context {rt : JsRuntime}.
Variable resolveFile : value -> result value.
Variable ABI_load : value -> value -> result ABI.





End EventsOfManifest.

Section EventCheckOfManifest.

Context {rt : JsRuntime}.
Variable resolveFile : value -> result value.
Variable ABI_load : value -> value -> result ABI.


End EventCheckOfManifest.



(** The errors of a check that a predicate rejects by their category. *)
Lemma filter_block_nil {A : Type} (P : ValidationError -> bool)
  (g : segment * A -> list ValidationError) (c : nat) (l : list (segment * A)) :
  (forall x e, In e (g x) -> categoryRank e = c) ->
  (forall e, categoryRank e = c -> P e = false) ->
  List.filter P (List.concat (List.map g l)) = [].
Proof.
  intros Hrank Hreject. apply filter_concat_nil.
  intros x e _ He. apply Hreject. now apply (Hrank x).
Qed.

Lemma eventErrorOf_other_rank (k c : nat) (e : ValidationError) :
  categoryRank e = c -> c <> 3 -> eventErrorOf k e = false.
Proof.
  intros Hrank Hneq. unfold eventErrorOf. rewrite Hrank.
  apply andb_false_iff. right. now apply Nat.eqb_neq.
Qed.

Section LoadFailure.

Context {rt : JsRuntime}.
Variable resolveFile : value -> result value.
Variable ABI_load : value -> value -> result ABI.

Lemma abiFileStep_pure (dataSourceIndex : segment)
  (errors : list ValidationError) (abi : value) (abiIndex : segment) :
  abiFileStep resolveFile ABI_load dataSourceIndex errors abi abiIndex
  = Ok (errors
        ++ resultOr (abiFileStep resolveFile ABI_load dataSourceIndex [] abi
                       abiIndex)).
Proof.
  rewrite abiFileStep_append.
  destruct (abiFileStep_cases resolveFile ABI_load dataSourceIndex [] abi abiIndex)
    as [H|(e & H)]; now rewrite H.
Qed.

(** The ABI file check of one data source, entry by entry. *)
Lemma abiFilesStep_entries (dataSource : value) (index : segment)
  (abis : list value) :
  getIn dataSource ["mapping"; "abis"] = VList abis ->
  abiFilesStep resolveFile ABI_load [] dataSource index
  = Ok (List.concat
          (List.map (fun entry =>
                       resultOr (abiFileStep resolveFile ABI_load index []
                                   (snd entry) (fst entry)))
                    (indexedFrom 0 abis))).
Proof.
  intros Habis. unfold abiFilesStep. rewrite Habis, reduce_VList.
  now rewrite (foldM_pure_concat
                 (fun acc entry =>
                    abiFileStep resolveFile ABI_load index acc (snd entry) (fst entry))
                 (fun entry =>
                    resultOr (abiFileStep resolveFile ABI_load index []
                                (snd entry) (fst entry))))
    by (intros acc entry; apply abiFileStep_pure).
Qed.

(** When loading a declared ABI throws, the ABI file check reports it. *)
Lemma abiFileStep_failing (dataSourceIndex : segment)
  (errors : list ValidationError) (abi : value) (abiIndex : segment) (e : exn) :
  (name <- get abi "name" ;;
   file <- get abi "file" ;;
   resolved <- resolveFile file ;;
   ABI_load name resolved) = Throw e ->
  abiFileStep resolveFile ABI_load dataSourceIndex errors abi abiIndex
  = Ok (errors ++
        [ {| path := [Key "dataSources"; dataSourceIndex; Key "mapping";
                      Key "abis"; abiIndex; Key "file"];
             message := exnMessage e |} ]).
Proof.
  unfold abiFileStep, tryCatch.
  destruct (get abi "name") as [name|x]; cbn [bind];
    [|intros H; now injection H as ->].
  destruct (get abi "file") as [file|x]; cbn [bind];
    [|intros H; now injection H as ->].
  destruct (resolveFile file) as [resolved|x]; cbn [bind];
    [|intros H; now injection H as ->].
  intros ->. reflexivity.
Qed.

(** ... and the event check of a data source that references it reports
    nothing. *)
Lemma eventsStep_failing (errors : list ValidationError)
  (dataSource : value) (index : segment) (entry : value) (e : exn) :
  find (fun abi => name <- get abi "name" ;;
                   Ok (strictEq name (getIn dataSource ["source"; "abi"])))
       (getIn dataSource ["mapping"; "abis"]) = Ok entry ->
  (name <- get entry "name" ;;
   file <- get entry "file" ;;
   resolved <- resolveFile file ;;
   ABI_load name resolved) = Throw e ->
  eventsStep resolveFile ABI_load errors dataSource index = Ok errors.
Proof.
  intros Hfind. unfold eventsStep, eventsTryBlock, tryCatch.
  rewrite Hfind. cbn [bind].
  destruct (get entry "name") as [name|x]; cbn [bind]; [|reflexivity].
  destruct (get entry "file") as [file|x]; cbn [bind]; [|reflexivity].
  destruct (resolveFile file) as [resolved|x]; cbn [bind]; [|reflexivity].
  now intros ->.
Qed.

Lemma abiFileStep_located (k j j' : nat) (abi : value) (e : ValidationError) :
  j' <> j ->
  In e (resultOr (abiFileStep resolveFile ABI_load (Index k) [] abi (Index j'))) ->
  locatedAt [Key "dataSources"; Index k; Key "mapping"; Key "abis"; Index j;
             Key "file"] e = false.
Proof.
  intros Hneq He.
  destruct (abiFileStep_cases resolveFile ABI_load (Index k) [] abi (Index j'))
    as [H|(x & H)]; rewrite H in He; simpl in He; [tauto|].
  destruct He as [<-|[]].
  destruct (locatedAt _ _) eqn:E; [|reflexivity].
  apply locatedAt_spec in E. simpl in E. congruence.
Qed.

(** When loading the ABI that an eligible data source references throws and
    the validation returns, the combined errors hold that failure once, at
    the declared ABI, and no event error for the data source. *)
Lemma crossValidate_load_failure (manifest : value) (dataSources : list value)
  (k j : nat) (dataSource entry : value) (abis : list value) (e : exn)
  (combined : list ValidationError) :
  get manifest "dataSources" = Ok (VList dataSources) ->
  forallb isCollection dataSources = true ->
  nth_error (List.filter kindIsEthereumContract dataSources) k = Some dataSource ->
  getIn dataSource ["mapping"; "abis"] = VList abis ->
  nth_error abis j = Some entry ->
  find (fun abi => name <- get abi "name" ;;
                   Ok (strictEq name (getIn dataSource ["source"; "abi"])))
       (getIn dataSource ["mapping"; "abis"]) = Ok entry ->
  (name <- get entry "name" ;;
   file <- get entry "file" ;;
   resolved <- resolveFile file ;;
   ABI_load name resolved) = Throw e ->
  crossValidate resolveFile ABI_load manifest = Ok combined ->
  List.filter
    (locatedAt [Key "dataSources"; Index k; Key "mapping"; Key "abis"; Index j;
                Key "file"])
    combined
  = [ {| path := [Key "dataSources"; Index k; Key "mapping"; Key "abis"; Index j;
                  Key "file"];
         message := exnMessage e |} ]
  /\ List.filter (eventErrorOf k) combined = [].
Proof.
  intros Hget Hall Hk Habis Hj Hfind Hthrow Hrun.
  rewrite (crossValidate_parts resolveFile ABI_load manifest Hget Hall Hrun).
  rewrite !List.filter_app.
  set (eligible := indexedFrom 0 (List.filter kindIsEthereumContract dataSources)).
  assert (Hindex : forall (x : segment * value),
             In x eligible -> exists i, fst x = Index i).
  { intros [s y] Hx. apply indexedFrom_index in Hx as [i ->]. now exists i. }
  split.
  - rewrite (@filter_concat_nil _ _ _
               (fun entry => resultOr (abiReferenceStep [] (snd entry) (fst entry)))).
    2:{ intros x err Hx Herr. destruct (Hindex x Hx) as [i Hi].
        rewrite Hi in Herr. apply abiReferenceStep_inBlock in Herr as [Hrank _].
        apply (@locatedAt_other_rank 0); [exact Hrank | cbv; discriminate]. }
    rewrite (@filter_concat_nil _ _ _
               (fun entry => addressErrorsOf (snd entry) (fst entry))).
    2:{ intros x err Hx Herr. destruct (Hindex x Hx) as [i Hi].
        rewrite Hi in Herr. apply addressErrorsOf_inBlock in Herr as [Hrank _].
        apply (@locatedAt_other_rank 2); [exact Hrank | cbv; discriminate]. }
    rewrite (@filter_concat_nil _ _ _
               (fun entry => eventErrorsOfDataSource resolveFile ABI_load
                               (snd entry) (fst entry))).
    2:{ intros x err Hx Herr. destruct (Hindex x Hx) as [i Hi].
        rewrite Hi in Herr.
        apply eventErrorsOfDataSource_inBlock in Herr as [Hrank _].
        apply (@locatedAt_other_rank 3); [exact Hrank | cbv; discriminate]. }
    unfold eligible.
    rewrite (@filter_concat_indexed _ _ _
               (fun entry => resultOr (abiFilesStep resolveFile ABI_load []
                                         (snd entry) (fst entry)))
               _ 0 k dataSource Hk).
    2:{ intros i y err Hi Herr. cbn [fst snd] in Herr.
        apply abiFilesStep_inBlock in Herr.
        now apply (@locatedAt_other_index 1 k i). }
    cbn [Nat.add fst snd].
    rewrite (abiFilesStep_entries dataSource (Index k) Habis). cbn [resultOr].
    rewrite (@filter_concat_indexed _ _ _
               (fun entry => resultOr (abiFileStep resolveFile ABI_load (Index k) []
                                         (snd entry) (fst entry)))
               _ 0 j entry Hj).
    2:{ intros i y err Hi Herr. cbn [fst snd] in Herr.
        now apply (@abiFileStep_located k j i y err). }
    cbn [Nat.add fst snd].
    rewrite (abiFileStep_failing (Index k) [] entry (Index j) Hthrow).
    cbn [resultOr]. rewrite !app_nil_l, !app_nil_r. cbn [List.filter].
    match goal with
    | |- context [locatedAt ?p ?x] =>
        rewrite (proj2 (locatedAt_spec p x) eq_refl)
    end.
    reflexivity.
  - rewrite (@filter_concat_nil _ _ _
               (fun entry => resultOr (abiReferenceStep [] (snd entry) (fst entry)))).
    2:{ intros x err Hx Herr. destruct (Hindex x Hx) as [i Hi].
        rewrite Hi in Herr. apply abiReferenceStep_inBlock in Herr as [Hrank _].
        apply (@eventErrorOf_other_rank k 0); [exact Hrank | discriminate]. }
    rewrite (@filter_concat_nil _ _ _
               (fun entry => resultOr (abiFilesStep resolveFile ABI_load []
                                         (snd entry) (fst entry)))).
    2:{ intros x err Hx Herr. destruct (Hindex x Hx) as [i Hi].
        rewrite Hi in Herr. apply abiFilesStep_inBlock in Herr as [Hrank _].
        apply (@eventErrorOf_other_rank k 1); [exact Hrank | discriminate]. }
    rewrite (@filter_concat_nil _ _ _
               (fun entry => addressErrorsOf (snd entry) (fst entry))).
    2:{ intros x err Hx Herr. destruct (Hindex x Hx) as [i Hi].
        rewrite Hi in Herr. apply addressErrorsOf_inBlock in Herr as [Hrank _].
        apply (@eventErrorOf_other_rank k 2); [exact Hrank | discriminate]. }
    unfold eligible.
    rewrite (@filter_concat_indexed _ _ _
               (fun entry => eventErrorsOfDataSource resolveFile ABI_load
                               (snd entry) (fst entry))
               _ 0 k dataSource Hk).
    2:{ intros i y err Hi Herr. cbn [fst snd] in Herr.
        apply eventErrorsOfDataSource_inBlock in Herr as [_ Hindex'].
        unfold eventErrorOf. rewrite Hindex'.
        apply andb_false_iff. left. now apply Nat.eqb_neq. }
    cbn [Nat.add fst snd]. unfold eventErrorsOfDataSource.
    now rewrite (eventsStep_failing [] dataSource (Index k) Hfind Hthrow).
Qed.

End LoadFailure.

Section SkippedEvents.

Context {rt : JsRuntime}.
Variable resolveFile : value -> result value.
Variable ABI_load : value -> value -> result ABI.

(** C6, as the code has it: when the [try] block of the event check throws
    for a data source (the referenced ABI is not declared, its file cannot
    be resolved or loaded, or anything else), the reducer returns its
    accumulator unchanged: no event error for that data source and no
    exception; past the filter, [validateEvents] always returns.  When it
    is the loading of the referenced ABI that throws, the ABI file reducer
    reports it for the same entry, and when the validation of the manifest
    returns, the combined errors hold that failure exactly once, at the
    declared ABI and with the loader's message, and no event error that
    names the data source. *)
Theorem events_skipped_when_abi_fails (errors : list ValidationError)
  (dataSource : value) (index : segment) :
  (forall e,
     eventsTryBlock resolveFile ABI_load errors dataSource
       [Key "dataSources"; index; Key "eventHandlers"] = Throw e ->
     eventsStep resolveFile ABI_load errors dataSource index = Ok errors)
  /\ (forall e,
        eventsTryBlock resolveFile ABI_load [] dataSource
          [Key "dataSources"; index; Key "eventHandlers"] = Throw e ->
        eventErrorsOfDataSource resolveFile ABI_load dataSource index = [])
  /\ (forall entry name file resolved e,
        find (fun abi => name <- get abi "name" ;;
                         Ok (strictEq name (getIn dataSource ["source"; "abi"])))
             (getIn dataSource ["mapping"; "abis"]) = Ok entry ->
        get entry "name" = Ok name ->
        get entry "file" = Ok file ->
        resolveFile file = Ok resolved ->
        ABI_load name resolved = Throw e ->
        eventsStep resolveFile ABI_load errors dataSource index = Ok errors
        /\ forall fileErrors abiIndex,
             abiFileStep resolveFile ABI_load index fileErrors entry abiIndex
             = Ok (fileErrors ++
                   [ {| path := [Key "dataSources"; index; Key "mapping";
                                 Key "abis"; abiIndex; Key "file"];
                        message := exnMessage e |} ]))
  /\ (forall manifest eligible,
        ethereumContracts manifest = Ok eligible ->
        exists eventErrors,
          validateEvents resolveFile ABI_load manifest = Ok eventErrors)
  /\ (forall manifest eligible,
        ethereumContracts manifest = Ok (VList eligible) ->
        validateEvents resolveFile ABI_load manifest
        = Ok (List.concat
                (List.map (fun entry =>
                             eventErrorsOfDataSource resolveFile ABI_load
                               (snd entry) (fst entry))
                          (indexedFrom 0 eligible))))
  /\ (forall manifest dataSources k abis j entry e combined,
        get manifest "dataSources" = Ok (VList dataSources) ->
        forallb isCollection dataSources = true ->
        nth_error (List.filter kindIsEthereumContract dataSources) k
        = Some dataSource ->
        getIn dataSource ["mapping"; "abis"] = VList abis ->
        nth_error abis j = Some entry ->
        find (fun abi => name <- get abi "name" ;;
                         Ok (strictEq name (getIn dataSource ["source"; "abi"])))
             (getIn dataSource ["mapping"; "abis"]) = Ok entry ->
        (name <- get entry "name" ;;
         file <- get entry "file" ;;
         resolved <- resolveFile file ;;
         ABI_load name resolved) = Throw e ->
        crossValidate resolveFile ABI_load manifest = Ok combined ->
        List.filter
          (locatedAt [Key "dataSources"; Index k; Key "mapping"; Key "abis";
                      Index j; Key "file"])
          combined
        = [ {| path := [Key "dataSources"; Index k; Key "mapping"; Key "abis";
                        Index j; Key "file"];
               message := exnMessage e |} ]
        /\ List.filter (eventErrorOf k) combined = []).
Proof.
  split; [|split; [|split; [|split; [|split]]]].
  - intros e Hthrow. unfold eventsStep. now rewrite Hthrow.
  - intros e Hthrow. unfold eventErrorsOfDataSource, eventsStep.
    now rewrite Hthrow.
  - intros entry name file resolved e Hfind Hname Hfile Hresolve Hload. split.
    + unfold eventsStep, eventsTryBlock.
      rewrite Hfind. cbn [bind]. rewrite Hname. cbn [bind].
      rewrite Hfile. cbn [bind]. rewrite Hresolve. cbn [bind].
      now rewrite Hload.
    + intros fileErrors abiIndex. unfold abiFileStep.
      rewrite Hname. cbn [bind]. rewrite Hfile. cbn [bind].
      rewrite Hresolve. cbn [bind]. now rewrite Hload.
  - intros manifest eligible Heligible.
    unfold validateEvents. rewrite Heligible. cbn [bind].
    unfold reduce.
    assert (Hentries : exists es, entries eligible "reduce" = Ok es).
    { unfold ethereumContracts in Heligible.
      apply bind_Ok_inv in Heligible as (dataSources & _ & Hfilter).
      destruct dataSources; simpl in Hfilter; try discriminate;
        apply bind_Ok_inv in Hfilter as (kept & _ & Hkept);
        injection Hkept as <-; simpl; eauto. }
    destruct Hentries as [es ->]. cbn [bind].
    generalize (@nil ValidationError).
    induction es as [|entry es IH]; intros acc; simpl; [eauto|].
    destruct (eventsStep_total resolveFile ABI_load acc (snd entry) (fst entry))
      as [acc' ->].
    apply IH.
  - apply validateEvents_concat.
  - intros manifest dataSources k abis j entry e combined.
    apply crossValidate_load_failure.
Qed.

End SkippedEvents.

Lemma events_skipped_when_abi_fails_example :
  @eventsStep exampleRuntime exampleResolveFile exampleLoad []
    dataSourceWithBrokenAbi (Index 0)
  = Ok []
  /\ @crossValidate exampleRuntime exampleResolveFile exampleLoad
       (manifestOf [dataSourceWithBrokenAbi; dataSourceWithEvents])
     = Ok [ {| path := [Key "dataSources"; Index 0; Key "mapping"; Key "abis";
                        Index 0; Key "file"];
               message :=
                 "ENOENT: no such file or directory, open '/subgraph/Missing.json'" |};
            {| path := [Key "dataSources"; Index 1; Key "eventHandlers"; Index 1];
               message := @eventMessage exampleRuntime
                            (VStr "transfer(address,address,uint256)") tokenABI |};
            {| path := [Key "dataSources"; Index 1; Key "eventHandlers"; Index 2];
               message := @eventMessage exampleRuntime
                            (VStr "Transfer(address, address,uint256)") tokenABI |} ]
  /\ List.filter
       (locatedAt [Key "dataSources"; Index 0; Key "mapping"; Key "abis";
                   Index 0; Key "file"])
       [ {| path := [Key "dataSources"; Index 0; Key "mapping"; Key "abis";
                     Index 0; Key "file"];
            message :=
              "ENOENT: no such file or directory, open '/subgraph/Missing.json'" |};
         {| path := [Key "dataSources"; Index 1; Key "eventHandlers"; Index 1];
            message := @eventMessage exampleRuntime
                         (VStr "transfer(address,address,uint256)") tokenABI |};
         {| path := [Key "dataSources"; Index 1; Key "eventHandlers"; Index 2];
            message := @eventMessage exampleRuntime
                         (VStr "Transfer(address, address,uint256)") tokenABI |} ]
     = [ {| path := [Key "dataSources"; Index 0; Key "mapping"; Key "abis";
                     Index 0; Key "file"];
            message :=
              @exnMessage exampleRuntime
                (Error "ENOENT: no such file or directory, open '/subgraph/Missing.json'")
         |} ]
  /\ List.filter (eventErrorOf 0)
       [ {| path := [Key "dataSources"; Index 0; Key "mapping"; Key "abis";
                     Index 0; Key "file"];
            message :=
              "ENOENT: no such file or directory, open '/subgraph/Missing.json'" |};
         {| path := [Key "dataSources"; Index 1; Key "eventHandlers"; Index 1];
            message := @eventMessage exampleRuntime
                         (VStr "transfer(address,address,uint256)") tokenABI |};
         {| path := [Key "dataSources"; Index 1; Key "eventHandlers"; Index 2];
            message := @eventMessage exampleRuntime
                         (VStr "Transfer(address, address,uint256)") tokenABI |} ]
     = [].
Proof.
  pose proof (@events_skipped_when_abi_fails exampleRuntime exampleResolveFile
                exampleLoad [] dataSourceWithBrokenAbi (Index 0))
    as (Hthrow & _ & _ & _ & _ & Hmanifest).
  split; [|split].
  - apply (Hthrow
             (Error "ENOENT: no such file or directory, open '/subgraph/Missing.json'")).
    reflexivity.
  - reflexivity.
  - apply (Hmanifest (manifestOf [dataSourceWithBrokenAbi; dataSourceWithEvents])
             [dataSourceWithBrokenAbi; dataSourceWithEvents] 0
             [abiEntry "Token" "Missing.json"] 0 (abiEntry "Token" "Missing.json")
             (Error "ENOENT: no such file or directory, open '/subgraph/Missing.json'"));
      reflexivity.
Defined.

(** C6 as stated fails: the [source.abi] of this data source names no
    declared ABI, so resolving it throws inside the [try] block and the
    event check reports nothing for its handler of ['Unknown()']; the one
    declared ABI loads, so the ABI file check reports nothing either.  The
    failure is reported by the ABI reference check. *)
Lemma undeclared_abi_is_not_reported_by_file_check :
  get dataSourceWithUndeclaredAbi "kind" = Ok (VStr "ethereum/contract")
  /\ getIn dataSourceWithUndeclaredAbi ["source"; "abi"] = VStr "Missing"
  /\ getIn dataSourceWithUndeclaredAbi ["mapping"; "abis"]
     = VList [abiEntry "Token" "Token.json"]
  /\ @eventsTryBlock exampleRuntime exampleResolveFile exampleLoad []
       dataSourceWithUndeclaredAbi [Key "dataSources"; Index 0; Key "eventHandlers"]
     = Throw (TypeError VUndef "get")
  /\ @validateEvents exampleRuntime exampleResolveFile exampleLoad
       (manifestOf [dataSourceWithUndeclaredAbi])
     = Ok []
  /\ @abiFileErrors exampleRuntime exampleResolveFile exampleLoad
       (manifestOf [dataSourceWithUndeclaredAbi])
     = Ok []
  /\ @crossValidate exampleRuntime exampleResolveFile exampleLoad
       (manifestOf [dataSourceWithUndeclaredAbi])
     = Ok [ {| path := [Key "dataSources"; Index 0; Key "source"; Key "abi"];
               message := @abiReferenceMessage exampleRuntime (VStr "Missing")
                            [VStr "Token"] |} ].
Proof. repeat split. Qed.

(** Where the ABI checks themselves throw, the failure of the loader is
    reported by no check: the referenced ABI of this data source cannot be
    loaded and the event check returns no error, while the ABI reference
    check throws on the second declared ABI, which is not an object. *)
Lemma load_failure_unreported_when_abi_checks_throw :
  exampleLoad (VStr "Token") (VStr "/subgraph/Missing.json")
  = Throw (Error "ENOENT: no such file or directory, open '/subgraph/Missing.json'")
  /\ @validateEvents exampleRuntime exampleResolveFile exampleLoad
       (manifestOf [dataSourceWithMalformedAbi])
     = Ok []
  /\ @validateAbis exampleRuntime exampleResolveFile exampleLoad
       (manifestOf [dataSourceWithMalformedAbi])
     = Throw (TypeError (VStr "junk") "get")
  /\ @crossValidate exampleRuntime exampleResolveFile exampleLoad
       (manifestOf [dataSourceWithMalformedAbi])
     = Throw (TypeError (VStr "junk") "get").
Proof. repeat split. Qed.
